(** * UJS-NetworkSimulation: reliable transfer and rate-controlled senders

    A shallow embedding of the two ns-3 applications of the repository that
    carry protocol logic:

    - [exp2/reliable_transfer_error_model.cc]: [ReliableHeader],
      [ReliableServer] and [ReliableClient] (stop-and-wait ARQ);
    - [lab3_task1.cc]: [EnhancedUdpServer] and [EnhancedUdpClient]
      (open-loop sender with a simulated congestion window);

    and, beside them, the self-scheduling [MyDebugApp] and the statistics
    that [TcpStatsServer] and [UdpStatsServer] of
    [exp3/lab3_tcp_udp_comparison.cc] keep in [protocolStats].

    Unsigned 32-bit members are integers of [Z] with the wrap-around written
    out, packets are byte lists, and the simulator is an explicit event list
    that the handlers read and extend. *)

From Stdlib Require Import ZArith List Bool Lia.
From Stdlib Require Import Strings.Byte.
From Stdlib Require Import Sorted.
From Stdlib Require Strings.String.
Import ListNotations.

#[local] Open Scope Z_scope.

(** ** Machine integers *)

Definition wrap32 (z : Z) : Z := z mod 2 ^ 32.

Definition u32 (z : Z) : Prop := 0 <= z < 2 ^ 32.

Definition byte_of_Z (z : Z) : byte :=
  match Byte.of_N (Z.to_N (z mod 256)) with
  | Some b => b
  | None => x00
  end.

Definition Z_of_byte (b : byte) : Z := Z.of_N (Byte.to_N b).

(** ** Simulator buffers: [Buffer::Iterator]

    The iterator belongs to the simulator library.  Its network-order
    accessors are modelled on a byte list with a cursor; a read at or past
    the end of the data, which the library does not define, is made explicit
    as [ReadPastEnd]. *)

Module BufferIterator.

Inductive outcome (A : Type) : Type :=
| Done (a : A)
| ReadPastEnd (size pos : nat).
Arguments Done {A} a.
Arguments ReadPastEnd {A} size pos.

Record Iterator : Set := mkIterator { data : list byte; current : nat }.

Definition Begin (bs : list byte) : Iterator := mkIterator bs 0.

Definition reader (A : Type) : Type := Iterator -> outcome (A * Iterator).

Definition ret {A} (a : A) : reader A := fun it => Done (a, it).

Definition bind {A B} (m : reader A) (k : A -> reader B) : reader B :=
  fun it =>
    match m it with
    | Done (a, it') => k a it'
    | ReadPastEnd n p => ReadPastEnd n p
    end.

Notation "x <- m ;; k" := (bind m (fun x => k))
  (at level 61, m at next level, right associativity).

Definition ReadU8 : reader Z :=
  fun it =>
    match nth_error (data it) (current it) with
    | Some b => Done (Z_of_byte b, mkIterator (data it) (S (current it)))
    | None => ReadPastEnd (length (data it)) (current it)
    end.

(** [retval |= ReadU8(); retval <<= 8;] three times, then a last [|=]. *)
Definition ReadNtohU32 : reader Z :=
  b0 <- ReadU8 ;;
  b1 <- ReadU8 ;;
  b2 <- ReadU8 ;;
  b3 <- ReadU8 ;;
  let r := Z.lor 0 b0 in
  let r := wrap32 (Z.shiftl r 8) in
  let r := Z.lor r b1 in
  let r := wrap32 (Z.shiftl r 8) in
  let r := Z.lor r b2 in
  let r := wrap32 (Z.shiftl r 8) in
  ret (Z.lor r b3).

(** Writers append to the bytes written so far. *)
Definition WriteU8 (v : Z) (out : list byte) : list byte :=
  out ++ [byte_of_Z v].

Definition WriteHtonU32 (v : Z) (out : list byte) : list byte :=
  let out := WriteU8 (Z.land (Z.shiftr v 24) 255) out in
  let out := WriteU8 (Z.land (Z.shiftr v 16) 255) out in
  let out := WriteU8 (Z.land (Z.shiftr v 8) 255) out in
  WriteU8 (Z.land (Z.shiftr v 0) 255) out.

End BufferIterator.

Import BufferIterator.

(** ** [ReliableHeader] *)

Record ReliableHeader : Set := mkHeader
  { m_sequenceNumber : Z;
    m_ackNumber : Z;
    m_isAck : bool }.

(** The default constructor. *)
Definition ReliableHeader_new : ReliableHeader := mkHeader 0 0 false.

Definition SetSequenceNumber (seq : Z) (h : ReliableHeader) : ReliableHeader :=
  mkHeader seq (m_ackNumber h) (m_isAck h).

Definition SetAckNumber (ack : Z) (h : ReliableHeader) : ReliableHeader :=
  mkHeader (m_sequenceNumber h) ack (m_isAck h).

Definition SetIsAck (isAck : bool) (h : ReliableHeader) : ReliableHeader :=
  mkHeader (m_sequenceNumber h) (m_ackNumber h) isAck.

Definition valid_header (h : ReliableHeader) : Prop :=
  u32 (m_sequenceNumber h) /\ u32 (m_ackNumber h).

(** [sizeof(uint32_t) + sizeof(uint32_t) + sizeof(bool)] *)
Definition GetSerializedSize : nat := 4 + 4 + 1.

Definition Serialize (h : ReliableHeader) : list byte :=
  let out := WriteHtonU32 (m_sequenceNumber h) [] in
  let out := WriteHtonU32 (m_ackNumber h) out in
  WriteU8 (if m_isAck h then 1 else 0) out.

Definition Deserialize : reader (ReliableHeader * nat) :=
  seq <- ReadNtohU32 ;;
  ack <- ReadNtohU32 ;;
  flag <- ReadU8 ;;
  ret (mkHeader seq ack (flag =? 1), GetSerializedSize).

(** ** Packets

    A packet is the list of its bytes; [Create<Packet>(n)] makes [n] zero
    bytes of payload. *)

Definition Packet : Set := list byte.

Definition Create (size : Z) : Packet := repeat x00 (Z.to_nat size).

Definition GetSize (p : Packet) : Z := Z.of_nat (length p).

Definition AddHeader (h : ReliableHeader) (p : Packet) : Packet :=
  Serialize h ++ p.

Definition RemoveHeader (p : Packet) : outcome (ReliableHeader * Packet) :=
  match Deserialize (Begin p) with
  | Done ((h, n), _) => Done (h, skipn n p)
  | ReadPastEnd size pos => ReadPastEnd size pos
  end.

(** The two packets the applications build: a data packet of [size] payload
    bytes and an empty packet under an acknowledgment header. *)
Definition data_packet (seq size : Z) : Packet :=
  AddHeader (mkHeader seq 0 false) (Create size).

Definition ack_packet (ack : Z) : Packet :=
  AddHeader (mkHeader 0 ack true) [].

(** The 32-bit value of four bytes in network order. *)
Definition be32 (b3 b2 b1 b0 : Z) : Z := ((b3 * 256 + b2) * 256 + b1) * 256 + b0.

(** ** The simulator: [Simulator::Schedule], [Cancel], [EventId::IsPending]

    Time is counted in nanoseconds.  The pending events are kept ordered by
    time, events of equal time in the order they were scheduled. *)

Module Simulator.
Section WithEvent.
Context {E : Type}.

Record Scheduled : Type := mkScheduled { ts : Z; uid : nat; impl : E }.

Record t : Type := mk { Now : Z; next_uid : nat; events : list Scheduled }.

(** A default-constructed [EventId] names no event. *)
Definition EventId : Set := option nat.

Fixpoint insert (x : Scheduled) (q : list Scheduled) : list Scheduled :=
  match q with
  | [] => [x]
  | y :: q' => if ts y <=? ts x then y :: insert x q' else x :: q
  end.

Definition Schedule (delay : Z) (e : E) (s : t) : EventId * t :=
  (Some (next_uid s),
   mk (Now s) (S (next_uid s))
      (insert (mkScheduled (Now s + delay) (next_uid s) e) (events s))).

Definition names (id : EventId) (x : Scheduled) : bool :=
  match id with
  | Some n => Nat.eqb n (uid x)
  | None => false
  end.

Definition IsPending (id : EventId) (s : t) : bool :=
  existsb (names id) (events s).

Definition Cancel (id : EventId) (s : t) : t :=
  mk (Now s) (next_uid s) (filter (fun x => negb (names id x)) (events s)).

Definition empty : t := mk 0 0 [].
End WithEvent.
Arguments Scheduled : clear implicits.
Arguments t : clear implicits.
End Simulator.

Definition Seconds (s : Z) : Z := s * 1000000000.
Definition MilliSeconds (ms : Z) : Z := ms * 1000000.

(** An [Address] of the simulator library carries the kind of address it
    holds.  An [Ipv4Address] converted to an [Address] has no port; an
    [InetSocketAddress] is an address with a port: it is what [RecvFrom]
    reports and what a UDP socket sends to. *)
Inductive Address : Set :=
| Ipv4Address (ip : Z)
| InetSocketAddress (ip : Z) (port : Z).

Definition Address_eqb (a b : Address) : bool :=
  match a, b with
  | Ipv4Address x, Ipv4Address y => x =? y
  | InetSocketAddress x p, InetSocketAddress y q => (x =? y) && (p =? q)
  | _, _ => false
  end.

(** ** The UDP socket of the simulator library

    [UdpSocketImpl::SendTo] sends a packet to an [InetSocketAddress] and
    returns its size.  It sends nothing and returns -1 when the [Address] is
    of another kind, or when the packet is larger than a UDP datagram. *)

Module UdpSocket.

Definition MAX_IPV4_UDP_DATAGRAM_SIZE : Z := 65507.

Definition SendTo (x : Address * Packet) : Z :=
  match fst x with
  | InetSocketAddress _ _ =>
      if GetSize (snd x) <=? MAX_IPV4_UDP_DATAGRAM_SIZE
      then GetSize (snd x) else -1
  | Ipv4Address _ => -1
  end.

End UdpSocket.

(** The events of the stop-and-wait simulation: the two scheduled member
    functions of the client and the arrival of a packet at either socket. *)
Inductive Event : Set :=
| EvStartApplication
| EvSendPacket
| EvTimeoutHandler (seq : Z)
| EvServerRecv (p : Packet) (from : Address)
| EvClientRecv (p : Packet) (from : Address).

(** ** [ReliableServer] *)

Module ReliableServer.

Record t : Set := mk
  { m_expectedSequence : Z;
    m_totalPacketsReceived : Z;
    m_totalBytesReceived : Z }.

Definition new : t := mk 0 0 0.

(** One turn of the [while] loop of [HandleRead]: the updated server and
    the packets handed to [SendTo]. *)
Definition HandleRead_one (rx : Packet * Address) (s : t)
  : outcome (t * list (Address * Packet)) :=
  let '(packet, from) := rx in
  match RemoveHeader packet with
  | ReadPastEnd n p => ReadPastEnd n p
  | Done (header, packet) =>
      let packetSize := GetSize packet in
      let s := mk (m_expectedSequence s) (m_totalPacketsReceived s)
                  (wrap32 (m_totalBytesReceived s + packetSize)) in
      if negb (m_isAck header) then
        let seq := m_sequenceNumber header in
        if seq =? m_expectedSequence s then
          let s := mk (wrap32 (m_expectedSequence s + 1))
                      (wrap32 (m_totalPacketsReceived s + 1))
                      (m_totalBytesReceived s) in
          let ackPacket := Create 0 in
          let ackHeader := SetAckNumber seq (SetIsAck true ReliableHeader_new) in
          let ackPacket := AddHeader ackHeader ackPacket in
          Done (s, [(from, ackPacket)])
        else Done (s, [])
      else Done (s, [])
  end.

Fixpoint HandleRead (socket : list (Packet * Address)) (s : t)
  : outcome (t * list (Address * Packet)) :=
  match socket with
  | [] => Done (s, [])
  | rx :: socket =>
      match HandleRead_one rx s with
      | ReadPastEnd n p => ReadPastEnd n p
      | Done (s, out) =>
          match HandleRead socket s with
          | ReadPastEnd n p => ReadPastEnd n p
          | Done (s, out') => Done (s, out ++ out')
          end
      end
  end.

End ReliableServer.

(** ** [ReliableClient] *)

Module ReliableClient.

Record t : Set := mk
  { m_peerAddress : Address;
    m_nextSequence : Z;
    m_totalPacketsSent : Z;
    m_retransmissions : Z;
    m_totalBytesSent : Z;
    m_timerEvent : Simulator.EventId;
    m_timeout : Z;
    m_maxPackets : Z;
    m_interval : Z;
    m_packetSize : Z;
    m_waitingForAck : bool;
    m_pendingAckSequence : Z }.

(** The client as it is configured before the simulation starts: the
    constructor, the attributes, and the peer address stored by [SetRemote].
    [SetRemote(ip, port)] stores [ip]; the port goes to [m_peerPort], a
    member that no function reads, so the record has no field for it.
    [SetRemote(addr)] stores [addr]. *)
Definition new (peer : Address) (maxPackets interval packetSize timeout : Z) : t :=
  mk peer 0 0 0 0 None timeout maxPackets interval packetSize false 0.

Definition Sim : Type := Simulator.t Event.

Section Socket.
(** The value [Socket::SendTo] returns for a packet: the number of bytes
    accepted, or -1 when the send fails.  The client does not read it. *)
Variable SendTo : Address * Packet -> Z.

Definition StartApplication (c : t) (sim : Sim) : t * Sim :=
  (c, snd (Simulator.Schedule (MilliSeconds 100) EvSendPacket sim)).

Definition SendPacket (c : t) (sim : Sim)
  : t * Sim * list (Address * Packet) :=
  if m_maxPackets c <=? m_nextSequence c then (c, sim, [])
  else
    let packet := Create (m_packetSize c) in
    let header :=
      SetIsAck false (SetSequenceNumber (m_nextSequence c) ReliableHeader_new) in
    let packet := AddHeader header packet in
    let _ := SendTo (m_peerAddress c, packet) in
    let '(timer, sim) :=
      Simulator.Schedule (m_timeout c) (EvTimeoutHandler (m_nextSequence c)) sim in
    (mk (m_peerAddress c)
        (wrap32 (m_nextSequence c + 1))
        (wrap32 (m_totalPacketsSent c + 1))
        (m_retransmissions c)
        (wrap32 (m_totalBytesSent c + GetSize packet))
        timer
        (m_timeout c) (m_maxPackets c) (m_interval c) (m_packetSize c)
        true
        (m_nextSequence c),
     sim, [(m_peerAddress c, packet)]).

Definition HandleRead_one (rx : Packet * Address) (c : t) (sim : Sim)
  : outcome (t * Sim) :=
  let '(packet, from) := rx in
  match RemoveHeader packet with
  | ReadPastEnd n p => ReadPastEnd n p
  | Done (header, packet) =>
      if m_isAck header then
        let ackSeq := m_ackNumber header in
        if m_waitingForAck c && (ackSeq =? m_pendingAckSequence c) then
          let sim :=
            if Simulator.IsPending (m_timerEvent c) sim
            then Simulator.Cancel (m_timerEvent c) sim else sim in
          let c :=
            mk (m_peerAddress c) (m_nextSequence c) (m_totalPacketsSent c)
               (m_retransmissions c) (m_totalBytesSent c) (m_timerEvent c)
               (m_timeout c) (m_maxPackets c) (m_interval c) (m_packetSize c)
               false
               (m_pendingAckSequence c) in
          Done (c, snd (Simulator.Schedule (m_interval c) EvSendPacket sim))
        else Done (c, sim)
      else Done (c, sim)
  end.

Fixpoint HandleRead (socket : list (Packet * Address)) (c : t) (sim : Sim)
  : outcome (t * Sim * list (Address * Packet)) :=
  match socket with
  | [] => Done (c, sim, [])
  | rx :: socket =>
      match HandleRead_one rx c sim with
      | ReadPastEnd n p => ReadPastEnd n p
      | Done (c, sim) => HandleRead socket c sim
      end
  end.

Definition TimeoutHandler (seq : Z) (c : t) (sim : Sim)
  : t * Sim * list (Address * Packet) :=
  if m_waitingForAck c && (seq =? m_pendingAckSequence c) then
    let packet := Create (m_packetSize c) in
    let header := SetIsAck false (SetSequenceNumber seq ReliableHeader_new) in
    let packet := AddHeader header packet in
    let _ := SendTo (m_peerAddress c, packet) in
    let '(timer, sim) :=
      Simulator.Schedule (m_timeout c) (EvTimeoutHandler seq) sim in
    (mk (m_peerAddress c)
        (m_nextSequence c)
        (wrap32 (m_totalPacketsSent c + 1))
        (wrap32 (m_retransmissions c + 1))
        (wrap32 (m_totalBytesSent c + GetSize packet))
        timer
        (m_timeout c) (m_maxPackets c) (m_interval c) (m_packetSize c)
        (m_waitingForAck c)
        (m_pendingAckSequence c),
     sim, [(m_peerAddress c, packet)])
  else (c, sim, []).

End Socket.

(** [StopApplication] cancels the timer when it is pending; the statistics it
    computes afterwards are only logged. *)
Definition StopApplication (c : t) (sim : Sim) : Sim :=
  if Simulator.IsPending (m_timerEvent c) sim
  then Simulator.Cancel (m_timerEvent c) sim else sim.

End ReliableClient.

(** ** The rate-controlled variant: [lab3_task1.cc] *)

Module EnhancedUdp.

(** The global statistics variables.  [totalDelay] is kept in nanoseconds. *)
Record Globals : Set := mkGlobals
  { totalReceivedPackets : Z;
    totalLostPackets : Z;
    totalDelay : Z;
    totalBytesReceived : Z }.

Definition globals_reset : Globals := mkGlobals 0 0 0 0.

(** [CustomHeader::GetSize()]: a [uint32_t], a [double] and a [uint32_t]. *)
Definition CustomHeader_GetSize : Z := 4 + 8 + 4.

(** A packet: the header fields that [memcpy] lays out in its first bytes,
    and its total size, the [uint32_t] that [Packet::GetSize] returns. *)
Record UdpPacket : Set := mkUdpPacket
  { sequenceNumber : Z;
    sendTime : Z;
    payloadSize : Z;
    size : Z }.

Inductive UdpEvent : Set := EvUdpSendPacket.

Definition Sim : Type := Simulator.t UdpEvent.

(** *** [EnhancedUdpServer] *)

Definition Server_HandleRead_one (now : Z) (packet : UdpPacket) (g : Globals)
  : Globals :=
  let packetSize := size packet in
  if CustomHeader_GetSize <=? packetSize then
    let delay := now - sendTime packet in
    mkGlobals (wrap32 (totalReceivedPackets g + 1))
              (totalLostPackets g)
              (totalDelay g + delay)
              (wrap32 (totalBytesReceived g + packetSize))
  else g.

Definition Server_HandleRead (now : Z) (socket : list UdpPacket) (g : Globals)
  : Globals :=
  fold_left (fun g packet => Server_HandleRead_one now packet g) socket g.

(** *** [EnhancedUdpClient] *)

Record t : Set := mk
  { m_sendEvent : Simulator.EventId;
    m_packetSize : Z;
    m_maxPackets : Z;
    m_packetsSent : Z;
    m_interval : Z;
    m_cwnd : Z;
    m_ssthresh : Z;
    m_congestionAvoidance : bool;
    m_sequenceNumber : Z }.

Definition new : t :=
  mk None 1024 100 0 (MilliSeconds 50) 4 32 false 0.

Definition SetPacketSize (sz : Z) (c : t) : t :=
  mk (m_sendEvent c) sz (m_maxPackets c) (m_packetsSent c) (m_interval c)
     (m_cwnd c) (m_ssthresh c) (m_congestionAvoidance c) (m_sequenceNumber c).

Definition SetMaxPackets (max : Z) (c : t) : t :=
  mk (m_sendEvent c) (m_packetSize c) max (m_packetsSent c) (m_interval c)
     (m_cwnd c) (m_ssthresh c) (m_congestionAvoidance c) (m_sequenceNumber c).

Definition SetInterval (interval : Z) (c : t) : t :=
  mk (m_sendEvent c) (m_packetSize c) (m_maxPackets c) (m_packetsSent c) interval
     (m_cwnd c) (m_ssthresh c) (m_congestionAvoidance c) (m_sequenceNumber c).

Definition ScheduleTransmit (c : t) (sim : Sim) : t * Sim :=
  let '(ev, sim) := Simulator.Schedule (m_interval c) EvUdpSendPacket sim in
  (mk ev (m_packetSize c) (m_maxPackets c) (m_packetsSent c) (m_interval c)
      (m_cwnd c) (m_ssthresh c) (m_congestionAvoidance c) (m_sequenceNumber c),
   sim).

Definition StartApplication (c : t) (sim : Sim) : t * Sim :=
  ScheduleTransmit c sim.

(** [StopApplication] closes the socket and cancels the pending send. *)
Definition StopApplication (c : t) (sim : Sim) : Sim :=
  if Simulator.IsPending (m_sendEvent c) sim
  then Simulator.Cancel (m_sendEvent c) sim else sim.

(** [Seconds(std::max(1.0 / m_cwnd, 0.001))] in nanoseconds: [Seconds]
    rounds its argument to the nearest nanosecond.  The window is at least 4
    wherever the client computes it. *)
Definition interval_of_cwnd (cwnd : Z) : Z :=
  Z.max ((2 * Seconds 1 + cwnd) / (2 * cwnd)) (MilliSeconds 1).

Definition CongestionControl (c : t) (g : Globals) : t * Globals :=
  (* slow start or congestion avoidance *)
  let '(cwnd, ca) :=
    if negb (m_congestionAvoidance c) then
      let cwnd := Z.min (wrap32 (m_cwnd c + 2)) (m_ssthresh c) in
      if m_ssthresh c <=? cwnd then (cwnd, true)
      else (cwnd, m_congestionAvoidance c)
    else (wrap32 (m_cwnd c + 1), m_congestionAvoidance c) in
  (* simulated packet loss *)
  let '(cwnd, ssthresh, ca, g) :=
    if (m_packetsSent c mod 40 =? 0) && (0 <? m_packetsSent c) then
      (4, Z.max (cwnd / 2) 4, false,
       mkGlobals (totalReceivedPackets g) (wrap32 (totalLostPackets g + 2))
                 (totalDelay g) (totalBytesReceived g))
    else (cwnd, m_ssthresh c, ca, g) in
  (mk (m_sendEvent c) (m_packetSize c) (m_maxPackets c) (m_packetsSent c)
      (interval_of_cwnd cwnd) cwnd ssthresh ca (m_sequenceNumber c),
   g).

Section Socket.
(** The value [Socket::Send] returns for a packet: the number of bytes
    sent, or -1 on failure. *)
Variable Send : UdpPacket -> Z.

Definition SendPacket (c : t) (g : Globals) (sim : Sim)
  : t * Globals * Sim * list UdpPacket :=
  if m_maxPackets c <=? m_packetsSent c then (c, g, sim, [])
  else
    let seq := m_sequenceNumber c in
    let c :=
      mk (m_sendEvent c) (m_packetSize c) (m_maxPackets c) (m_packetsSent c)
         (m_interval c) (m_cwnd c) (m_ssthresh c) (m_congestionAvoidance c)
         (wrap32 (m_sequenceNumber c + 1)) in
    let totalPacketSize := m_packetSize c in
    let payload := wrap32 (totalPacketSize - CustomHeader_GetSize) in
    let packet :=
      mkUdpPacket seq (Simulator.Now sim) (m_packetSize c)
        (if 0 <? payload then wrap32 (CustomHeader_GetSize + payload)
         else CustomHeader_GetSize) in
    let actualBytes := Send packet in
    if 0 <? actualBytes then
      let c :=
        mk (m_sendEvent c) (m_packetSize c) (m_maxPackets c)
           (wrap32 (m_packetsSent c + 1))
           (m_interval c) (m_cwnd c) (m_ssthresh c) (m_congestionAvoidance c)
           (m_sequenceNumber c) in
      let '(c, g) :=
        if m_packetsSent c mod 15 =? 0 then CongestionControl c g else (c, g) in
      if m_packetsSent c <? m_maxPackets c then
        let '(c, sim) := ScheduleTransmit c sim in (c, g, sim, [packet])
      else (c, g, sim, [packet])
    else
      (c,
       mkGlobals (totalReceivedPackets g) (wrap32 (totalLostPackets g + 1))
                 (totalDelay g) (totalBytesReceived g),
       sim, []).

(** The simulator runs its earliest event; the only events of the client
    are its scheduled [SendPacket] calls. *)
Record State : Type := mkState
  { client : t; globals : Globals; sim : Sim; sent : list UdpPacket }.

Definition fire (st : State) : State :=
  match Simulator.events (sim st) with
  | [] => st
  | e :: rest =>
      let sim := Simulator.mk (Simulator.ts e) (Simulator.next_uid (sim st)) rest in
      let '(c, g, sim, out) := SendPacket (client st) (globals st) sim in
      mkState c g sim (sent st ++ out)
  end.

Definition run (n : nat) (st : State) : State := Nat.iter n fire st.
End Socket.

(** [main]: statistics reset, the client configured and started at 2 s. *)
Definition start (packetSize maxPackets : Z) : State :=
  let c := SetInterval (MilliSeconds 50)
             (SetMaxPackets maxPackets (SetPacketSize packetSize new)) in
  let '(c, sim) := StartApplication c (Simulator.mk (Seconds 2) 0 []) in
  mkState c globals_reset sim [].

(** A socket that accepts every packet whole. *)
Definition Send_ok (p : UdpPacket) : Z := size p.

(** A socket that fails every send. *)
Definition Send_fail (p : UdpPacket) : Z := -1.


(** The packet [SendPacket] builds at time [now]. *)
Definition packet_of (c : t) (now : Z) : UdpPacket :=
  mkUdpPacket (m_sequenceNumber c) now (m_packetSize c)
    (if 0 <? wrap32 (m_packetSize c - CustomHeader_GetSize)
     then wrap32 (CustomHeader_GetSize
                  + wrap32 (m_packetSize c - CustomHeader_GetSize))
     else CustomHeader_GetSize).

(** The packets [EnhancedUdpServer::HandleRead] counts. *)
Definition accepted (p : UdpPacket) : bool := CustomHeader_GetSize <=? size p.

(** [StopApplication] called in a state of the run. *)
Definition stopped (st : State) : State :=
  mkState (client st) (globals st) (StopApplication (client st) (sim st)) (sent st).

(** The window state the client keeps within: the window between 4 and its
    growth of 2 per congestion-control call, the threshold at least 4, the
    phase flag consistent with both, and the interval between 1 ms and
    250 ms. *)
Definition window_ok (maxPackets : Z) (c : t) : Prop :=
  m_maxPackets c = maxPackets
  /\ 0 <= m_packetsSent c
  /\ (m_packetsSent c = 0 \/ m_packetsSent c <= maxPackets)
  /\ 4 <= m_cwnd c <= 4 + 2 * (m_packetsSent c / 15)
  /\ 4 <= m_ssthresh c
  /\ (m_congestionAvoidance c = false -> m_cwnd c <= m_ssthresh c)
  /\ (m_congestionAvoidance c = true -> m_ssthresh c <= m_cwnd c)
  /\ MilliSeconds 1 <= m_interval c <= MilliSeconds 250.

(** At most one event is pending, and it is the one [m_sendEvent] names. *)
Definition send_shape (c : t) (s : Sim) : Prop :=
  Simulator.events s = []
  \/ exists e, Simulator.events s = [e] /\ Simulator.names (m_sendEvent c) e = true.

(** What [n] fired events leave behind when the socket accepts every
    packet. *)
Definition progress (packetSize maxPackets : Z) (n : nat) (st : State) : Prop :=
  let k := Z.min (Z.of_nat n) (Z.max 0 maxPackets) in
  m_maxPackets (client st) = maxPackets
  /\ m_packetSize (client st) = packetSize
  /\ m_packetsSent (client st) = k
  /\ m_sequenceNumber (client st) = k
  /\ map sequenceNumber (sent st) = map Z.of_nat (seq 0 (Z.to_nat k))
  /\ Forall (fun p => payloadSize p = packetSize
                      /\ size p = size (packet_of (client st) 0))
            (sent st)
  /\ totalLostPackets (globals st) = 2 * (k / 120)
  /\ (if (Z.of_nat n =? 0) || (Z.of_nat n <? maxPackets)
      then exists e, Simulator.events (sim st) = [e]
                     /\ Simulator.names (m_sendEvent (client st)) e = true
      else Simulator.events (sim st) = []).

(** The state of a run over any socket, [failed] sends having failed so
    far: the sequence number is ahead of the packets sent by the failures,
    the loss counter holds the simulated losses and the failures, and a
    failure leaves nothing scheduled. *)
Definition attempted (maxPackets : Z) (failed : Z) (st : State) : Prop :=
  let c := client st in
  m_maxPackets c = maxPackets
  /\ 0 <= m_packetsSent c
  /\ (m_packetsSent c = 0 \/ m_packetsSent c <= maxPackets)
  /\ (failed = 0 \/ failed = 1 /\ Simulator.events (sim st) = []
                               /\ m_packetsSent c < maxPackets)
  /\ m_sequenceNumber c = m_packetsSent c + failed
  /\ totalLostPackets (globals st) = 2 * (m_packetsSent c / 120) + failed
  /\ map sequenceNumber (sent st)
     = map Z.of_nat (seq 0 (Z.to_nat (m_packetsSent c)))
  /\ (length (Simulator.events (sim st)) <= 1)%nat.

(** A socket that fails on the packet with sequence number [k] and accepts
    every other packet whole. *)
Definition Send_fails_at (k : Z) (p : UdpPacket) : Z :=
  if sequenceNumber p =? k then -1 else size p.

End EnhancedUdp.

(** ** The stop-and-wait simulation: client, server and the link of [main] *)

Module Scenario.

(** The two nodes of [main]: the client on 10.1.1.1, the server on 10.1.1.2.
    The server binds its socket to port 9; [Bind()] gives the socket of the
    client the first free port of its node.  The echo applications that
    [main] installs beside them have sockets of their own (port 10 on the
    server) and are left out. *)
Definition clientIp : Z := 167837953.
Definition serverIp : Z := 167837954.
Definition clientPort : Z := 49153.
Definition serverPort : Z := 9.

(** The addresses of the two sockets, as [RecvFrom] reports them. *)
Definition clientAddress : Address := InetSocketAddress clientIp clientPort.
Definition serverAddress : Address := InetSocketAddress serverIp serverPort.

(** [linkDelay] is the time a packet takes from one socket to the other;
    [corrupted n] tells whether the receive error model discards the [n]-th
    packet carried by the link. *)
Record World : Type := mkWorld
  { client : ReliableClient.t;
    server : ReliableServer.t;
    sim : Simulator.t Event;
    stopTime : Z;
    linkDelay : Z;
    corrupted : nat -> bool;
    carried : nat;
    history : list Event }.

(** A socket that accepts every packet whole. *)
Definition SendTo_ok (x : Address * Packet) : Z := GetSize (snd x).

(** A socket that fails every send. *)
Definition SendTo_fail (x : Address * Packet) : Z := -1.

(** What a packet sent from the socket at [from] to the address [to] makes
    happen when it arrives: the socket bound to [to] receives it.  Only the
    sockets of the two applications are modelled; a packet to another
    address arrives nowhere. *)
Definition arrival (from to : Address) (p : Packet) : option Event :=
  if Address_eqb to serverAddress then Some (EvServerRecv p from)
  else if Address_eqb to clientAddress then Some (EvClientRecv p from)
  else None.

(** The packets the socket at [from] was asked to send.  A packet the
    socket refuses goes nowhere.  The link carries the others: each one that
    is not corrupted is scheduled to arrive at the socket it is addressed
    to. *)
Fixpoint carry (from : Address) (out : list (Address * Packet)) (w : World)
  : World :=
  match out with
  | [] => w
  | (to, p) :: out =>
      if UdpSocket.SendTo (to, p) <? 0 then carry from out w
      else
        let sim :=
          if corrupted w (carried w) then sim w
          else
            match arrival from to p with
            | Some e => snd (Simulator.Schedule (linkDelay w) e (sim w))
            | None => sim w
            end in
        carry from out
          (mkWorld (client w) (server w) sim (stopTime w) (linkDelay w)
                   (corrupted w) (S (carried w)) (history w))
  end.

Definition with_client (w : World) (c : ReliableClient.t) (s : Simulator.t Event)
  : World :=
  mkWorld c (server w) s (stopTime w) (linkDelay w) (corrupted w) (carried w)
          (history w).

Definition with_server (w : World) (sv : ReliableServer.t) : World :=
  mkWorld (client w) sv (sim w) (stopTime w) (linkDelay w) (corrupted w)
          (carried w) (history w).

Definition dispatch (e : Event) (w : World) : outcome World :=
  match e with
  | EvStartApplication =>
      let '(c, s) := ReliableClient.StartApplication (client w) (sim w) in
      Done (with_client w c s)
  | EvSendPacket =>
      let '(c, s, out) :=
        ReliableClient.SendPacket UdpSocket.SendTo (client w) (sim w) in
      Done (carry clientAddress out (with_client w c s))
  | EvTimeoutHandler seq =>
      let '(c, s, out) :=
        ReliableClient.TimeoutHandler UdpSocket.SendTo seq (client w) (sim w) in
      Done (carry clientAddress out (with_client w c s))
  | EvServerRecv p from =>
      match ReliableServer.HandleRead [(p, from)] (server w) with
      | ReadPastEnd n k => ReadPastEnd n k
      | Done (sv, out) => Done (carry serverAddress out (with_server w sv))
      end
  | EvClientRecv p from =>
      match ReliableClient.HandleRead [(p, from)] (client w) (sim w) with
      | ReadPastEnd n k => ReadPastEnd n k
      | Done (c, s, out) => Done (carry clientAddress out (with_client w c s))
      end
  end.

(** One event of [Simulator::Run]: the earliest pending event, unless
    nothing is pending or the stop time is reached. *)
Definition step (w : World) : option (outcome World) :=
  match Simulator.events (sim w) with
  | [] => None
  | e :: rest =>
      if stopTime w <=? Simulator.ts e then None
      else
        let s := Simulator.mk (Simulator.ts e) (Simulator.next_uid (sim w)) rest in
        Some (dispatch (Simulator.impl e)
                (mkWorld (client w) (server w) s (stopTime w) (linkDelay w)
                         (corrupted w) (carried w)
                         (Simulator.impl e :: history w)))
  end.

(** [Simulator::Run]: [None] when the fuel does not suffice. *)
Fixpoint Run (fuel : nat) (w : World) : option (outcome World) :=
  match step w with
  | None => Some (Done w)
  | Some (ReadPastEnd n k) => Some (ReadPastEnd n k)
  | Some (Done w') =>
      match fuel with
      | O => None
      | S fuel => Run fuel w'
      end
  end.

(** The two applications as [main] installs them, for a client whose peer
    address is [remote]: the client application starts at 2 s and the
    simulation stops at [simulationTime]. *)
Definition setup (remote : Address)
    (maxPackets packetSize interval timeout simulationTime : Z)
    (delay : Z) (errors : nat -> bool) : World :=
  mkWorld
    (ReliableClient.new remote maxPackets interval packetSize timeout)
    ReliableServer.new
    (snd (Simulator.Schedule (Seconds 2) EvStartApplication Simulator.empty))
    simulationTime delay errors 0 [].

(** [main] calls [SetRemote(interfaces.GetAddress(1), 9)]: the peer address
    of its client is the [Ipv4Address] of the server's interface, and the
    port never reaches the socket. *)
Definition main (maxPackets packetSize interval timeout simulationTime : Z)
    (delay : Z) (errors : nat -> bool) : World :=
  setup (Ipv4Address serverIp) maxPackets packetSize interval timeout
    simulationTime delay errors.

(** The peer addresses the properties are about: the address of the server
    without a port, as [main] gives it, and the address of the server's
    socket. *)
Definition names_server (remote : Address) : Prop :=
  remote = Ipv4Address serverIp \/ remote = serverAddress.

Definition errorFree (n : nat) : bool := false.

Definition is_ack_arrival (e : Event) : bool :=
  match e with
  | EvClientRecv p _ =>
      match RemoveHeader p with
      | Done (h, _) => m_isAck h
      | ReadPastEnd _ _ => false
      end
  | _ => false
  end.

Definition acksReceived (w : World) : Z :=
  Z.of_nat (length (filter is_ack_arrival (history w))).

(** The run of ten packets of [packetSize] bytes, 1 s apart, with a timeout
    of 0.5 s, over an error-free link of delay [d], stopped at 30 s, by a
    client whose peer address is the socket address of the server. *)
Definition errorFreeRun (packetSize d : Z) : World :=
  setup serverAddress 10 packetSize (Seconds 1) (MilliSeconds 500) (Seconds 30)
    d errorFree.

(** The world between two rounds of the error-free run of ten packets of
    [packetSize] bytes over a link of delay [d]: [k] packets are sent and
    acknowledged, and the only pending event is the next [SendPacket]. *)
Definition at_round (packetSize d k : Z) (w : World) : Prop :=
  exists timer pend now uid id n hist sent received t,
    w = mkWorld
          (ReliableClient.mk serverAddress k k 0 sent timer
             (MilliSeconds 500) 10 (Seconds 1) packetSize false pend)
          (ReliableServer.mk k k received)
          (Simulator.mk now uid [Simulator.mkScheduled t id EvSendPacket])
          (Seconds 30) d errorFree n hist
    /\ sent = k * (packetSize + 9)
    /\ received = k * packetSize
    /\ t = MilliSeconds 2100 + k * (2 * d + Seconds 1)
    /\ Z.of_nat (length (filter is_ack_arrival hist)) = k.

End Scenario.

(** ** The stop-and-wait client on its own

    The client with its pending events, driven by an arbitrary environment:
    pending events fire in any order and any packets may arrive between
    them.  The trace records, newest first, the sequence numbers of the data
    packets put on the wire and the numbers of the acknowledgments that
    arrived. *)

Module Sender.

Inductive Obs : Set :=
| Tx (seq : Z)
| RxAck (ack : Z).

Definition tx_of (out : list (Address * Packet)) : list Obs :=
  flat_map (fun x =>
    match RemoveHeader (snd x) with
    | Done (h, _) => if m_isAck h then [] else [Tx (m_sequenceNumber h)]
    | ReadPastEnd _ _ => []
    end) out.

Definition acks_of (socket : list (Packet * Address)) : list Obs :=
  flat_map (fun x =>
    match RemoveHeader (fst x) with
    | Done (h, _) => if m_isAck h then [RxAck (m_ackNumber h)] else []
    | ReadPastEnd _ _ => []
    end) socket.

(** The sequence numbers sent and not acknowledged since. *)
Fixpoint outstanding (trace : list Obs) : list Z :=
  match trace with
  | [] => []
  | Tx s :: older => s :: outstanding older
  | RxAck a :: older => filter (fun s => negb (s =? a)) (outstanding older)
  end.

Record State : Type := mkState
  { client : ReliableClient.t;
    sim : Simulator.t Event;
    trace : list Obs }.

Section Socket.
Variable SendTo : Address * Packet -> Z.

(** The member function an event of the client invokes. *)
Definition invoke (e : Event) (c : ReliableClient.t) (s : Simulator.t Event)
  : option (ReliableClient.t * Simulator.t Event * list (Address * Packet)) :=
  match e with
  | EvStartApplication =>
      let '(c, s) := ReliableClient.StartApplication c s in Some (c, s, [])
  | EvSendPacket => Some (ReliableClient.SendPacket SendTo c s)
  | EvTimeoutHandler seq => Some (ReliableClient.TimeoutHandler SendTo seq c s)
  | EvServerRecv _ _ | EvClientRecv _ _ => None
  end.

Inductive step : State -> State -> Prop :=
| step_event st before e after c s out :
    Simulator.events (sim st) = before ++ e :: after ->
    invoke (Simulator.impl e) (client st)
      (Simulator.mk (Simulator.ts e) (Simulator.next_uid (sim st))
                    (before ++ after)) = Some (c, s, out) ->
    step st (mkState c s (rev (tx_of out) ++ trace st))
| step_receive st now socket c s out :
    ReliableClient.HandleRead socket (client st)
      (Simulator.mk now (Simulator.next_uid (sim st))
                    (Simulator.events (sim st))) = Done (c, s, out) ->
    step st (mkState c s (rev (tx_of out) ++ rev (acks_of socket) ++ trace st)).

Definition initial (c : ReliableClient.t) : State :=
  mkState c
    (snd (Simulator.Schedule (Seconds 2) EvStartApplication Simulator.empty))
    [].

Inductive reachable (c0 : ReliableClient.t) : State -> Prop :=
| reachable_initial : reachable c0 (initial c0)
| reachable_step st st' : reachable c0 st -> step st st' -> reachable c0 st'.

(** The client states that later calls of the member functions lead to. *)
Inductive later : ReliableClient.t -> ReliableClient.t -> Prop :=
| later_now c : later c c
| later_send c c1 s c2 s2 out :
    later c c1 -> ReliableClient.SendPacket SendTo c1 s = (c2, s2, out) ->
    later c c2
| later_timeout c c1 seq s c2 s2 out :
    later c c1 -> ReliableClient.TimeoutHandler SendTo seq c1 s = (c2, s2, out) ->
    later c c2
| later_read c c1 socket s c2 s2 out :
    later c c1 -> ReliableClient.HandleRead socket c1 s = Done (c2, s2, out) ->
    later c c2.
End Socket.

(** The simulator runs the earliest pending event of the client. *)
Definition fire (SendTo : Address * Packet -> Z) (st : State) : State :=
  match Simulator.events (sim st) with
  | [] => st
  | e :: rest =>
      match invoke SendTo (Simulator.impl e) (client st)
              (Simulator.mk (Simulator.ts e) (Simulator.next_uid (sim st)) rest) with
      | Some (c, s, out) => mkState c s (rev (tx_of out) ++ trace st)
      | None => st
      end
  end.

(** [StopApplication] called in a state of the client. *)
Definition stopped (st : State) : State :=
  mkState (client st) (ReliableClient.StopApplication (client st) (sim st))
          (trace st).

(** The sequence numbers put on the wire, newest first. *)
Fixpoint sent_seqs (trace : list Obs) : list Z :=
  match trace with
  | [] => []
  | Tx s :: older => s :: sent_seqs older
  | RxAck _ :: older => sent_seqs older
  end.

Definition stale (c : ReliableClient.t) (seq : Z) : Prop :=
  ReliableClient.m_waitingForAck c = false
  \/ seq <> ReliableClient.m_pendingAckSequence c.

(** The pending events that lead to a [SendPacket] call. *)
Definition spawns (x : Simulator.Scheduled Event) : nat :=
  match Simulator.impl x with
  | EvStartApplication | EvSendPacket => 1
  | _ => 0
  end.

Definition pending_sends (q : list (Simulator.Scheduled Event)) : nat :=
  list_sum (map spawns q).

Definition awaited (c : ReliableClient.t) : nat :=
  if ReliableClient.m_waitingForAck c then 1 else 0.

(** What every reachable state satisfies: a [SendPacket] call is pending or
    an acknowledgment is awaited, never both, and whatever is outstanding is
    the pending sequence number. *)
Definition invariant (c : ReliableClient.t)
    (q : list (Simulator.Scheduled Event)) (tr : list Obs) : Prop :=
  u32 (ReliableClient.m_nextSequence c)
  /\ (pending_sends q + awaited c <= 1)%nat
  /\ (ReliableClient.m_waitingForAck c = true ->
      u32 (ReliableClient.m_pendingAckSequence c))
  /\ (forall s, In s (outstanding tr) ->
        ReliableClient.m_waitingForAck c = true
        /\ s = ReliableClient.m_pendingAckSequence c).

(** The three shapes of the client's schedule: the next [SendPacket] (or the
    start) pending, the timer of the awaited sequence number pending, or
    nothing pending once the gate is closed.  A pending send is never the
    event [m_timerEvent] names. *)
Definition schedule_shape (c : ReliableClient.t) (s : Simulator.t Event) : Prop :=
  (forall id, ReliableClient.m_timerEvent c = Some id ->
              (id < Simulator.next_uid s)%nat)
  /\ ((ReliableClient.m_waitingForAck c = false
       /\ ((Simulator.events s = []
            /\ ReliableClient.m_maxPackets c <= ReliableClient.m_nextSequence c)
           \/ exists x, Simulator.events s = [x] /\ spawns x = 1%nat
                        /\ Simulator.names (ReliableClient.m_timerEvent c) x = false))
      \/ (ReliableClient.m_waitingForAck c = true
          /\ exists t id,
               Simulator.events s
               = [Simulator.mkScheduled t id
                    (EvTimeoutHandler (ReliableClient.m_pendingAckSequence c))]
               /\ ReliableClient.m_timerEvent c = Some id)).


(** The counters of a client whose packets carry [packetSize] payload bytes:
    every transmission is a new sequence number or a retransmission, and each
    one adds the payload and the nine header bytes. *)
Definition accounted (packetSize : Z) (c : ReliableClient.t) : Prop :=
  ReliableClient.m_packetSize c = packetSize
  /\ ReliableClient.m_totalPacketsSent c
     = wrap32 (ReliableClient.m_nextSequence c + ReliableClient.m_retransmissions c)
  /\ ReliableClient.m_totalBytesSent c
     = wrap32 (ReliableClient.m_totalPacketsSent c * (packetSize + 9)).

(** The sequence numbers on the wire are those below [m_nextSequence], and
    they never decrease in time. *)
Definition in_order (maxPackets : Z) (c : ReliableClient.t) (tr : list Obs) : Prop :=
  ReliableClient.m_maxPackets c = maxPackets
  /\ 0 <= ReliableClient.m_nextSequence c
  /\ (ReliableClient.m_nextSequence c = 0
      \/ ReliableClient.m_nextSequence c <= maxPackets)
  /\ (ReliableClient.m_waitingForAck c = true ->
      ReliableClient.m_pendingAckSequence c = ReliableClient.m_nextSequence c - 1
      /\ 0 < ReliableClient.m_nextSequence c)
  /\ (forall s, In s (sent_seqs tr) <-> 0 <= s < ReliableClient.m_nextSequence c)
  /\ StronglySorted Z.ge (sent_seqs tr).

End Sender.

(** ** The transfer as a whole: every world the simulation reaches *)

Module Transfer.
Import Scenario.

(** The worlds [Simulator::Run] passes through. *)
Inductive reaches : World -> World -> Prop :=
| reaches_refl w : reaches w w
| reaches_step w w1 w2 :
    reaches w w1 -> step w1 = Some (Done w2) -> reaches w w2.

(** What a packet on the link carries: a data segment the client has sent,
    from the socket of the client, or the acknowledgment of a segment the
    server has accepted. *)
Definition link_ok (next expected : Z) (e : Event) : Prop :=
  match e with
  | EvServerRecv p from =>
      from = clientAddress /\ exists s sz, p = data_packet s sz /\ 0 <= s < next
  | EvClientRecv p _ => exists a, p = ack_packet a /\ 0 <= a < expected
  | _ => True
  end.

(** What client, server and schedule satisfy together in every world of a
    run: the server expects the awaited segment or the one after it, and
    exactly the next one when nothing is awaited. *)
Definition safe (c : ReliableClient.t) (sv : ReliableServer.t)
    (q : list (Simulator.Scheduled Event)) : Prop :=
  let next := ReliableClient.m_nextSequence c in
  let expected := ReliableServer.m_expectedSequence sv in
  ReliableClient.m_maxPackets c < 2 ^ 32
  /\ 0 <= next
  /\ (next = 0 \/ next <= ReliableClient.m_maxPackets c)
  /\ ReliableServer.m_totalPacketsReceived sv = expected
  /\ (Sender.pending_sends q + Sender.awaited c <= 1)%nat
  /\ (if ReliableClient.m_waitingForAck c
      then next = ReliableClient.m_pendingAckSequence c + 1
           /\ 0 <= ReliableClient.m_pendingAckSequence c
           /\ (expected = ReliableClient.m_pendingAckSequence c \/ expected = next)
      else expected = next)
  /\ Forall (fun x => link_ok next expected (Simulator.impl x)) q
  /\ names_server (ReliableClient.m_peerAddress c).

Definition is_ack_event (e : Event) : bool :=
  match e with
  | EvClientRecv _ _ => true
  | _ => false
  end.

(** The awaited segment has been accepted by the server and no
    acknowledgment is on the link. *)
Definition stalled (w : World) : Prop :=
  ReliableClient.m_waitingForAck (client w) = true
  /\ ReliableServer.m_expectedSequence (server w)
     = ReliableClient.m_nextSequence (client w)
  /\ Forall (fun x => is_ack_event (Simulator.impl x) = false)
            (Simulator.events (sim w)).

(** The world after [n] more events. *)
Fixpoint steps (n : nat) (w : World) : World :=
  match n with
  | O => w
  | S n =>
      match step w with
      | Some (Done w') => steps n w'
      | _ => w
      end
  end.

(** The error model of a link that discards one packet: the [n]-th it
    carries. *)
Definition loses (n : nat) (k : nat) : bool := Nat.eqb k n.


(** The acknowledgments on their way to the client. *)
Definition acks_on_link (q : list (Simulator.Scheduled Event)) : nat :=
  length (filter (fun x => is_ack_event (Simulator.impl x)) q).

(** Every acknowledgment that has arrived or is on its way answers a
    packet the server has accepted. *)
Definition conserved (w : World) : Prop :=
  acksReceived w + Z.of_nat (acks_on_link (Simulator.events (sim w)))
  <= ReliableServer.m_expectedSequence (server w).

(** *** The run between two losses *)

(** What holds between any two events of a run in which [r] packets were
    retransmitted, when the peer address of the client is the address of
    the server's socket and a packet with its header fits a UDP datagram:
    every other packet sent was a new one, and the acknowledgments that
    arrived are those of all packets but the awaited one. *)
Definition clean (maxPackets interval timeout stop d r : Z) (w : World) : Prop :=
  let c := client w in
  let next := ReliableClient.m_nextSequence c in
  ReliableClient.m_peerAddress c = serverAddress
  /\ 0 <= ReliableClient.m_packetSize c <= 65498
  /\ ReliableClient.m_maxPackets c = maxPackets
  /\ ReliableClient.m_interval c = interval
  /\ ReliableClient.m_timeout c = timeout
  /\ stopTime w = stop
  /\ linkDelay w = d
  /\ ReliableClient.m_retransmissions c = r
  /\ ReliableClient.m_totalPacketsSent c = next + r
  /\ 0 <= next
  /\ (next = 0 \/ next <= maxPackets)
  /\ ReliableServer.m_totalPacketsReceived (server w)
     = ReliableServer.m_expectedSequence (server w)
  /\ acksReceived w = next - Z.of_nat (Sender.awaited c).

(** The situations of a run, by what is scheduled: a send (or the start) at
    time [t]; the data segment sent at [t] on its way, its timer behind it;
    the acknowledgment of that segment on its way; the timer alone, the data
    segment sent at [t] being lost; nothing. *)
Definition idle (w : World) : Prop :=
  ReliableClient.m_waitingForAck (client w) = false
  /\ ReliableServer.m_expectedSequence (server w)
     = ReliableClient.m_nextSequence (client w).

Definition at_start (t : Z) (w : World) : Prop :=
  idle w
  /\ exists id, Simulator.events (sim w)
                = [Simulator.mkScheduled t id EvStartApplication].

Definition at_send (t : Z) (w : World) : Prop :=
  idle w
  /\ exists id, Simulator.events (sim w) = [Simulator.mkScheduled t id EvSendPacket].

Definition at_end (w : World) : Prop :=
  idle w
  /\ Simulator.events (sim w) = []
  /\ ReliableClient.m_maxPackets (client w)
     <= ReliableClient.m_nextSequence (client w).

Definition awaiting (w : World) : Prop :=
  ReliableClient.m_waitingForAck (client w) = true
  /\ ReliableClient.m_nextSequence (client w)
     = ReliableClient.m_pendingAckSequence (client w) + 1.

Definition at_data (t : Z) (w : World) : Prop :=
  let c := client w in
  let pending := ReliableClient.m_pendingAckSequence c in
  awaiting w
  /\ ReliableServer.m_expectedSequence (server w) = pending
  /\ exists id1 id2,
       ReliableClient.m_timerEvent c = Some id2
       /\ Simulator.events (sim w)
          = [Simulator.mkScheduled (t + linkDelay w) id1
               (EvServerRecv (data_packet pending (ReliableClient.m_packetSize c))
                  clientAddress);
             Simulator.mkScheduled (t + ReliableClient.m_timeout c) id2
               (EvTimeoutHandler pending)].

Definition at_ack (t : Z) (w : World) : Prop :=
  let c := client w in
  let pending := ReliableClient.m_pendingAckSequence c in
  awaiting w
  /\ ReliableServer.m_expectedSequence (server w)
     = ReliableClient.m_nextSequence c
  /\ exists id1 id2,
       ReliableClient.m_timerEvent c = Some id2
       /\ Simulator.events (sim w)
          = [Simulator.mkScheduled (t + 2 * linkDelay w) id1
               (EvClientRecv (ack_packet pending) serverAddress);
             Simulator.mkScheduled (t + ReliableClient.m_timeout c) id2
               (EvTimeoutHandler pending)].

Definition at_timer (t : Z) (w : World) : Prop :=
  let c := client w in
  let pending := ReliableClient.m_pendingAckSequence c in
  awaiting w
  /\ ReliableServer.m_expectedSequence (server w) = pending
  /\ exists id,
       ReliableClient.m_timerEvent c = Some id
       /\ Simulator.events (sim w)
          = [Simulator.mkScheduled (t + ReliableClient.m_timeout c) id
               (EvTimeoutHandler pending)].

Definition on_course (w : World) : Prop :=
  at_end w \/ exists t, at_start t w \/ at_send t w \/ at_data t w \/ at_ack t w.

(** The link of [w'] is that of [w] after [n] more packets. *)
Definition carried_on (n : nat) (w w' : World) : Prop :=
  corrupted w' = corrupted w /\ carried w' = (carried w + n)%nat.

(** The time of the [k]-th send of a new packet in a run without loss. *)
Definition send_time (d interval : Z) (k : nat) : Z :=
  Seconds 2 + MilliSeconds 100 + Z.of_nat k * (2 * d + interval).

(** *** The run of [main] *)

Definition is_arrival (e : Event) : bool :=
  match e with
  | EvServerRecv _ _ | EvClientRecv _ _ => true
  | _ => false
  end.

(** The peer address of the client has no port, and nothing has left its
    socket: the link has carried no packet, the server is as it was
    constructed, and no packet has arrived or is on its way. *)
Definition silent (w : World) : Prop :=
  ReliableClient.m_peerAddress (client w) = Ipv4Address serverIp
  /\ server w = ReliableServer.new
  /\ carried w = 0%nat
  /\ Forall (fun x => is_arrival (Simulator.impl x) = false)
            (Simulator.events (sim w))
  /\ Forall (fun e => is_arrival e = false) (history w).

(** The client of [main] after the first packet and [k] retransmissions of
    it: it awaits the acknowledgment of sequence number 0, and the only
    event pending is the next timeout. *)
Definition retrying (timeout stop k : Z) (w : World) : Prop :=
  let c := client w in
  silent w
  /\ stopTime w = stop
  /\ ReliableClient.m_timeout c = timeout
  /\ ReliableClient.m_nextSequence c = 1
  /\ ReliableClient.m_waitingForAck c = true
  /\ ReliableClient.m_pendingAckSequence c = 0
  /\ ReliableClient.m_retransmissions c = k
  /\ ReliableClient.m_totalPacketsSent c = k + 1
  /\ exists id,
       Simulator.events (sim w)
       = [Simulator.mkScheduled
            (Seconds 2 + MilliSeconds 100 + (k + 1) * timeout) id
            (EvTimeoutHandler 0)].
End Transfer.


(** ** The debugging application: [MyDebugApp] *)

Module MyDebugApp.

Record t : Set := mk { m_count : Z }.

Definition new : t := mk 0.

Inductive DebugEvent : Set := EvPrintTime.

(** The lines the application logs. *)
Inductive Log : Set :=
| LogStart (now : Z)
| LogTime (now : Z) (count : Z)
| LogWarn
| LogStop (now : Z).

Definition Sim : Type := Simulator.t DebugEvent.

Definition ScheduleNext (a : t) (sim : Sim) : Sim :=
  if m_count a <? 5
  then snd (Simulator.Schedule (Seconds 1) EvPrintTime sim)
  else sim.

Definition StartApplication (a : t) (sim : Sim) : Sim * list Log :=
  (ScheduleNext a sim, [LogStart (Simulator.Now sim)]).

Definition StopApplication (a : t) (sim : Sim) : list Log :=
  [LogStop (Simulator.Now sim)].

Definition PrintTime (a : t) (sim : Sim) : t * Sim * list Log :=
  let a := mk (wrap32 (m_count a + 1)) in
  let lines :=
    LogTime (Simulator.Now sim) (m_count a)
    :: (if m_count a =? 3 then [LogWarn] else []) in
  (a, ScheduleNext a sim, lines).

Record State : Type := mkState { app : t; sim : Sim; log : list Log }.

(** The simulator runs the earliest event of the application. *)
Definition fire (st : State) : State :=
  match Simulator.events (sim st) with
  | [] => st
  | e :: rest =>
      let s := Simulator.mk (Simulator.ts e) (Simulator.next_uid (sim st)) rest in
      let '(a, s, lines) := PrintTime (app st) s in
      mkState a s (log st ++ lines)
  end.

Definition run (n : nat) (st : State) : State := Nat.iter n fire st.

(** The application started at time [t0]; [main] starts it at 3 s. *)
Definition start (t0 : Z) : State :=
  let '(s, lines) := StartApplication new (Simulator.mk t0 0 []) in
  mkState new s lines.

(** The lines of the [i]-th call of [PrintTime] after a start at [t0]. *)
Definition lines_of (t0 : Z) (i : nat) : list Log :=
  LogTime (t0 + Z.of_nat (S i) * Seconds 1) (Z.of_nat (S i))
  :: (if Nat.eqb (S i) 3 then [LogWarn] else []).

Definition ticked (t0 : Z) (n : nat) (st : State) : Prop :=
  m_count (app st) = Z.of_nat n
  /\ log st = LogStart t0 :: flat_map (lines_of t0) (seq 0 n)
  /\ Simulator.events (sim st)
     = (if (n <? 5)%nat
        then [Simulator.mkScheduled (t0 + Z.of_nat (S n) * Seconds 1) n EvPrintTime]
        else [])
  /\ Simulator.next_uid (sim st) = Nat.min (S n) 5.

End MyDebugApp.

(** ** The statistics of the TCP/UDP comparison: [lab3_tcp_udp_comparison.cc] *)

Module ProtocolStatistics.
Import String.

Definition wrap64 (z : Z) : Z := z mod 2 ^ 64.

Definition u64 (z : Z) : Prop := 0 <= z < 2 ^ 64.

(** [struct ProtocolStats]; the times are kept in nanoseconds. *)
Record ProtocolStats : Set := mkStats
  { totalBytesReceived : Z;
    totalPacketsReceived : Z;
    totalDelay : Z;
    totalPacketsSent : Z;
    startTime : Z;
    stopTime : Z }.

Definition ProtocolStats_new : ProtocolStats := mkStats 0 0 0 0 0 0.

(** [std::map<std::string, ProtocolStats>]: the entries in the order of
    their keys. *)
Definition Stats : Set := list (string * ProtocolStats).

Fixpoint find (k : string) (m : Stats) : option ProtocolStats :=
  match m with
  | [] => None
  | (k', v) :: m => if String.eqb k k' then Some v else find k m
  end.

Fixpoint set (k : string) (v : ProtocolStats) (m : Stats) : Stats :=
  match m with
  | [] => [(k, v)]
  | (k', v') :: m' =>
      if String.eqb k k' then (k, v) :: m'
      else if String.ltb k k' then (k, v) :: (k', v') :: m'
      else (k', v') :: set k v m'
  end.

(** [protocolStats[k]] read: an absent entry is default-constructed. *)
Definition get (k : string) (m : Stats) : ProtocolStats :=
  match find k m with
  | Some v => v
  | None => ProtocolStats_new
  end.

(** [protocolStats[k]] changed in place. *)
Definition update (k : string) (f : ProtocolStats -> ProtocolStats) (m : Stats)
  : Stats :=
  set k (f (get k m)) m.

(** The two keys the program uses. *)
Definition TCP : string := "TCP"%string.
Definition UDP : string := "UDP"%string.

(** The reset at the start of [RunTestScenario]. *)
Definition reset : Stats :=
  set UDP ProtocolStats_new (set TCP ProtocolStats_new []).

(** One turn of the [while] loop of [HandleRead], for a packet of
    [packetSize] bytes; both servers run it, on their own key. *)
Definition HandleRead_one (protocol : string) (now : Z) (packetSize : Z)
    (m : Stats) : Stats :=
  let m :=
    update protocol (fun s =>
      mkStats (wrap64 (totalBytesReceived s + packetSize))
              (totalPacketsReceived s) (totalDelay s) (totalPacketsSent s)
              (startTime s) (stopTime s)) m in
  let m :=
    update protocol (fun s =>
      mkStats (totalBytesReceived s) (wrap64 (totalPacketsReceived s + 1))
              (totalDelay s) (totalPacketsSent s) (startTime s) (stopTime s)) m in
  let receiveTime := now in
  update protocol (fun s =>
    mkStats (totalBytesReceived s) (totalPacketsReceived s)
            (totalDelay s + (receiveTime - startTime (get protocol m)))
            (totalPacketsSent s) (startTime s) (stopTime s)) m.

Definition HandleRead (protocol : string) (now : Z) (socket : list Z) (m : Stats)
  : Stats :=
  fold_left (fun m packetSize => HandleRead_one protocol now packetSize m) socket m.

Definition TcpStatsServer_HandleRead := HandleRead TCP.
Definition UdpStatsServer_HandleRead := HandleRead UDP.

Definition StartApplication (protocol : string) (now : Z) (m : Stats) : Stats :=
  update protocol (fun s =>
    mkStats (totalBytesReceived s) (totalPacketsReceived s) (totalDelay s)
            (totalPacketsSent s) now (stopTime s)) m.

Definition StopApplication (protocol : string) (now : Z) (m : Stats) : Stats :=
  update protocol (fun s =>
    mkStats (totalBytesReceived s) (totalPacketsReceived s) (totalDelay s)
            (totalPacketsSent s) (startTime s) now) m.

End ProtocolStatistics.

(** ** Sample states *)

(** A client that sent sequence number 3 and awaits its acknowledgment, with
    the timer (event 0) armed. *)
Definition awaiting_3 : ReliableClient.t * ReliableClient.Sim :=
  (ReliableClient.mk Scenario.serverAddress 4 4 0 4132 (Some 0%nat) (MilliSeconds 500) 10 (Seconds 1)
     1024 true 3,
   Simulator.mk (Seconds 5) 1
     [Simulator.mkScheduled (Seconds 5 + MilliSeconds 500) 0 (EvTimeoutHandler 3)]).

(** A client of ten packets that has sent them all and has them
    acknowledged. *)
Definition sent_all_10 : ReliableClient.t :=
  ReliableClient.mk Scenario.serverAddress 10 10 0 10330 (Some 27%nat) (MilliSeconds 500) 10
    (Seconds 1) 1024 false 9.

(** A client of two packets: sequence number 0 is sent at 2.1 s, its timer
    fires at 2.6 s and it is sent again, and its acknowledgment arrives. *)
Definition after_one_retransmission : ReliableClient.t * ReliableClient.Sim :=
  let c := ReliableClient.new Scenario.serverAddress 2 (Seconds 1) 1024 (MilliSeconds 500) in
  let '(c, sim, _) :=
    ReliableClient.SendPacket Scenario.SendTo_ok c
      (Simulator.mk (MilliSeconds 2100) 0 []) in
  let '(c, sim, _) :=
    ReliableClient.TimeoutHandler Scenario.SendTo_ok 0 c
      (Simulator.mk (MilliSeconds 2600) (Simulator.next_uid sim) []) in
  match ReliableClient.HandleRead [(ack_packet 0, Scenario.serverAddress)] c sim with
  | Done (c, sim, _) => (c, sim)
  | ReadPastEnd _ _ => (c, sim)
  end.

(** * Properties *)

(** ** The codec *)

Lemma Z_of_byte_of_Z (z : Z) : 0 <= z < 256 -> Z_of_byte (byte_of_Z z) = z.
Proof.
  intros Hz. unfold Z_of_byte, byte_of_Z.
  rewrite Z.mod_small by lia.
  destruct (Byte.of_N (Z.to_N z)) as [b|] eqn:E.
  - apply Byte.to_of_N in E. rewrite E. lia.
  - apply Byte.of_N_None_iff in E. lia.
Qed.

Lemma land_255_range (z : Z) : 0 <= Z.land z 255 < 256.
Proof.
  change 255 with (Z.ones 8). rewrite Z.land_ones by lia.
  apply Z.mod_pos_bound. lia.
Qed.

Lemma lor_shiftl_8 (a b : Z) :
  0 <= a -> 0 <= b < 256 -> Z.lor (Z.shiftl a 8) b = a * 256 + b.
Proof.
  intros Ha Hb.
  assert (Hdisj : Z.land (Z.shiftl a 8) b = 0).
  { apply Z.bits_inj'. intros n Hn.
    rewrite Z.land_spec, Z.bits_0.
    destruct (Z.ltb_spec n 8) as [Hlt|Hge].
    - rewrite Z.shiftl_spec_low by lia. reflexivity.
    - destruct (Z.eq_dec b 0) as [->|Hnz].
      + rewrite Z.bits_0. apply andb_false_r.
      + rewrite (Z.bits_above_log2 b n); [apply andb_false_r | lia |].
        apply Z.log2_lt_pow2; [lia|].
        apply Z.lt_le_trans with (2 ^ 8); [lia|].
        apply Z.pow_le_mono_r; lia. }
  rewrite <- Z.lxor_lor by exact Hdisj.
  rewrite <- Z.add_nocarry_lxor by exact Hdisj.
  rewrite Z.shiftl_mul_pow2 by lia. reflexivity.
Qed.

Lemma lor_wrap_shiftl_8 (a b : Z) :
  0 <= a < 2 ^ 24 -> 0 <= b < 256 ->
  Z.lor (wrap32 (Z.shiftl a 8)) b = a * 256 + b.
Proof.
  intros Ha Hb.
  assert (Hw : wrap32 (Z.shiftl a 8) = Z.shiftl a 8).
  { unfold wrap32. apply Z.mod_small.
    rewrite Z.shiftl_mul_pow2 by lia. lia. }
  rewrite Hw. apply lor_shiftl_8; lia.
Qed.

Lemma big_endian_32 (x : Z) :
  u32 x ->
  let b n := Z_of_byte (byte_of_Z (Z.land (Z.shiftr x n) 255)) in
  Z.lor (wrap32 (Z.shiftl
    (Z.lor (wrap32 (Z.shiftl
      (Z.lor (wrap32 (Z.shiftl (Z.lor 0 (b 24)) 8)) (b 16)) 8)) (b 8)) 8)) (b 0)
  = x.
Proof.
  intros Hx b. unfold u32 in Hx. subst b. cbv beta.
  rewrite !Z_of_byte_of_Z by apply land_255_range.
  change 255 with (Z.ones 8). rewrite !Z.land_ones by lia.
  rewrite !Z.shiftr_div_pow2 by lia.
  rewrite Z.lor_0_l.
  change (2 ^ 0) with 1. rewrite Z.div_1_r.
  change (2 ^ 8) with 256. change (2 ^ 16) with 65536.
  change (2 ^ 24) with 16777216.
  assert (H3 : 0 <= (x / 16777216) mod 256 < 256) by (apply Z.mod_pos_bound; lia).
  assert (H2 : 0 <= (x / 65536) mod 256 < 256) by (apply Z.mod_pos_bound; lia).
  assert (H1 : 0 <= (x / 256) mod 256 < 256) by (apply Z.mod_pos_bound; lia).
  assert (H0 : 0 <= x mod 256 < 256) by (apply Z.mod_pos_bound; lia).
  rewrite (lor_wrap_shiftl_8 ((x / 16777216) mod 256)) by lia.
  rewrite (lor_wrap_shiftl_8 (_ + _)) by lia.
  rewrite (lor_wrap_shiftl_8 (_ + _)) by lia.
  change 16777216 with (256 * 256 * 256). change 65536 with (256 * 256).
  rewrite <- !Z.div_div by lia.
  change (2 ^ 32) with 4294967296 in Hx.
  clear H0 H1 H2 H3.
  Z.to_euclidean_division_equations. lia.
Qed.

Lemma Deserialize_Serialize (h : ReliableHeader) (p : Packet) :
  valid_header h ->
  Deserialize (Begin (Serialize h ++ p))
  = Done ((h, GetSerializedSize), mkIterator (Serialize h ++ p) 9).
Proof.
  intros [Hs Ha]. destruct h as [s a f]. simpl in Hs, Ha.
  unfold Deserialize, ReadNtohU32, Serialize, WriteHtonU32, WriteU8, Begin.
  cbn [app m_sequenceNumber m_ackNumber m_isAck].
  unfold bind, ReadU8, ret.
  cbn [data current nth_error].
  pose proof (big_endian_32 s Hs) as Es. cbv zeta in Es.
  pose proof (big_endian_32 a Ha) as Ea. cbv zeta in Ea.
  rewrite Es, Ea.
  destruct f; reflexivity.
Qed.

Lemma RemoveHeader_AddHeader (h : ReliableHeader) (p : Packet) :
  valid_header h -> RemoveHeader (AddHeader h p) = Done (h, p).
Proof.
  intros Hv. unfold RemoveHeader, AddHeader.
  rewrite Deserialize_Serialize by assumption.
  reflexivity.
Qed.

Lemma Serialize_length (h : ReliableHeader) : length (Serialize h) = 9%nat.
Proof. reflexivity. Qed.

Lemma GetSize_AddHeader (h : ReliableHeader) (p : Packet) :
  GetSize (AddHeader h p) = 9 + GetSize p.
Proof.
  unfold GetSize, AddHeader. rewrite length_app, Serialize_length. lia.
Qed.

Lemma GetSize_Create (n : Z) : 0 <= n -> GetSize (Create n) = n.
Proof.
  intros Hn. unfold GetSize, Create. rewrite repeat_length. lia.
Qed.

(** A buffer shorter than the header is read past its end. *)
Lemma Deserialize_short (bs : list byte) :
  (length bs < GetSerializedSize)%nat ->
  Deserialize (Begin bs) = ReadPastEnd (length bs) (length bs).
Proof.
  unfold GetSerializedSize. intros Hlen.
  do 9 (destruct bs as [|? bs]; [reflexivity|]).
  simpl in Hlen. lia.
Qed.


(** C3. Codec round trip: for every header whose numbers are 32-bit values
    (a data segment with any sequence number and payload, an acknowledgment
    with any acknowledgment number), removing the header from the packet it
    was added to gives back the header and the payload. *)
Theorem codec_round_trip (h : ReliableHeader) (payload : Packet) :
  valid_header h -> RemoveHeader (AddHeader h payload) = Done (h, payload).
Proof. apply RemoveHeader_AddHeader. Qed.

Lemma codec_round_trip_witness :
  valid_header (mkHeader 7 0 false)
  /\ RemoveHeader (AddHeader (mkHeader 7 0 false) [x01; x02])
     = Done (mkHeader 7 0 false, [x01; x02]).
Proof.
  assert (Hv : valid_header (mkHeader 7 0 false))
    by (unfold valid_header, u32; simpl; lia).
  split; [exact Hv | apply (codec_round_trip _ _ Hv)].
Defined.

Lemma RemoveHeader_short (p : Packet) :
  (length p < GetSerializedSize)%nat ->
  RemoveHeader p = ReadPastEnd (length p) (length p).
Proof.
  intros Hlen. unfold RemoveHeader. rewrite Deserialize_short by assumption.
  reflexivity.
Qed.

(** The receiver of the rate-controlled variant checks the size first: a
    packet shorter than its header changes nothing. *)
Lemma EnhancedUdpServer_drops_short (now : Z) (p : EnhancedUdp.UdpPacket)
    (g : EnhancedUdp.Globals) :
  EnhancedUdp.size p < EnhancedUdp.CustomHeader_GetSize ->
  EnhancedUdp.Server_HandleRead_one now p g = g.
Proof.
  intros Hlt. unfold EnhancedUdp.Server_HandleRead_one.
  destruct (Z.leb_spec EnhancedUdp.CustomHeader_GetSize (EnhancedUdp.size p));
    [lia | reflexivity].
Qed.

(** C4. [Deserialize] has no length check: on a 3-byte packet the header
    read runs past the end of the data, in [RemoveHeader] and so in the
    [HandleRead] of the server and of the client. *)
Theorem truncated_header_is_read_past_end :
  RemoveHeader [x00; x00; x01] = ReadPastEnd 3 3
  /\ ReliableServer.HandleRead [([x00; x00; x01], Scenario.clientAddress)] ReliableServer.new
     = ReadPastEnd 3 3
  /\ (forall c sim,
        ReliableClient.HandleRead [([x00; x00; x01], Scenario.serverAddress)] c sim = ReadPastEnd 3 3).
Proof. repeat split. Qed.

(** ** The receiver *)

Section ReceiverFacts.
Import ReliableServer.

Variables (s : ReliableServer.t) (p : Packet) (from : Address).
Variables (h : ReliableHeader) (payload : Packet).
Hypothesis Hdecode : RemoveHeader p = Done (h, payload).

Lemma server_in_order :
  m_isAck h = false -> m_sequenceNumber h = m_expectedSequence s ->
  HandleRead [(p, from)] s
  = Done (mk (wrap32 (m_expectedSequence s + 1))
             (wrap32 (m_totalPacketsReceived s + 1))
             (wrap32 (m_totalBytesReceived s + GetSize payload)),
          [(from, AddHeader (mkHeader 0 (m_sequenceNumber h) true) [])]).
Proof.
  intros Hdata Hseq. cbn [HandleRead HandleRead_one].
  rewrite Hdecode, Hdata. cbn [negb m_expectedSequence].
  rewrite Hseq, Z.eqb_refl. reflexivity.
Qed.

Lemma server_out_of_order :
  m_isAck h = false -> m_sequenceNumber h <> m_expectedSequence s ->
  HandleRead [(p, from)] s
  = Done (mk (m_expectedSequence s) (m_totalPacketsReceived s)
             (wrap32 (m_totalBytesReceived s + GetSize payload)),
          []).
Proof.
  intros Hdata Hseq. cbn [HandleRead HandleRead_one].
  rewrite Hdecode, Hdata. cbn [negb m_expectedSequence].
  destruct (Z.eqb_spec (m_sequenceNumber h) (m_expectedSequence s));
    [contradiction | reflexivity].
Qed.
End ReceiverFacts.

(** C5, as the claim has it, fails: a data segment out of order still adds
    its payload size to the byte counter. *)
Lemma out_of_order_segment_counts_bytes :
  exists s',
    ReliableServer.HandleRead [(data_packet 5 1024, Scenario.clientAddress)] ReliableServer.new
    = Done (s', [])
    /\ ReliableServer.m_totalBytesReceived ReliableServer.new = 0
    /\ ReliableServer.m_totalBytesReceived s' = 1024.
Proof. eexists. repeat split. Qed.

(** C5, amended.  A data segment carrying the expected sequence number adds
    one to the packet counter and to the expected sequence number, its
    payload size to the byte counter (all three modulo 2^32), and is answered
    to its origin by an acknowledgment of that sequence number.  A data
    segment with another sequence number is not answered and leaves the
    packet counter and the expected sequence number as they were; the byte
    counter still grows by its payload size. *)
Theorem receiver_data_segment (s : ReliableServer.t) (p : Packet)
    (from : Address) (h : ReliableHeader) (payload : Packet) :
  RemoveHeader p = Done (h, payload) ->
  m_isAck h = false ->
  (m_sequenceNumber h = ReliableServer.m_expectedSequence s ->
   exists s',
     ReliableServer.HandleRead [(p, from)] s
     = Done (s', [(from, ack_packet (m_sequenceNumber h))])
     /\ ReliableServer.m_totalPacketsReceived s'
        = wrap32 (ReliableServer.m_totalPacketsReceived s + 1)
     /\ ReliableServer.m_totalBytesReceived s'
        = wrap32 (ReliableServer.m_totalBytesReceived s + GetSize payload)
     /\ ReliableServer.m_expectedSequence s'
        = wrap32 (ReliableServer.m_expectedSequence s + 1))
  /\ (m_sequenceNumber h <> ReliableServer.m_expectedSequence s ->
      exists s',
        ReliableServer.HandleRead [(p, from)] s = Done (s', [])
        /\ ReliableServer.m_totalPacketsReceived s'
           = ReliableServer.m_totalPacketsReceived s
        /\ ReliableServer.m_totalBytesReceived s'
           = wrap32 (ReliableServer.m_totalBytesReceived s + GetSize payload)
        /\ ReliableServer.m_expectedSequence s'
           = ReliableServer.m_expectedSequence s).
Proof.
  intros Hdec Hdata. split; intros Hseq.
  - eexists. split.
    + apply (server_in_order s p from h payload Hdec Hdata Hseq).
    + repeat split.
  - eexists. split.
    + apply (server_out_of_order s p from h payload Hdec Hdata Hseq).
    + repeat split.
Qed.

Lemma receiver_data_segment_witness :
  RemoveHeader (data_packet 0 1024) = Done (mkHeader 0 0 false, Create 1024)
  /\ m_isAck (mkHeader 0 0 false) = false
  /\ exists s',
       ReliableServer.HandleRead [(data_packet 0 1024, Scenario.clientAddress)] ReliableServer.new
       = Done (s', [(Scenario.clientAddress, ack_packet 0)])
       /\ ReliableServer.m_expectedSequence s' = 1.
Proof.
  assert (Hdec : RemoveHeader (data_packet 0 1024)
                 = Done (mkHeader 0 0 false, Create 1024)) by reflexivity.
  split; [exact Hdec | split; [reflexivity|]].
  destruct (receiver_data_segment ReliableServer.new _ Scenario.clientAddress _ _ Hdec eq_refl)
    as [Hin _].
  destruct (Hin eq_refl) as (s' & Hrun & _ & _ & Hexp).
  exists s'. split; [exact Hrun | exact Hexp].
Defined.

(** ** The stop-and-wait sender: single calls *)

Section SenderCalls.
Import ReliableClient.

Variable SendTo : Address * Packet -> Z.
Variables (c : ReliableClient.t) (sim : Sim).

Lemma SendPacket_closed :
  m_maxPackets c <= m_nextSequence c -> SendPacket SendTo c sim = (c, sim, []).
Proof.
  intros Hmax. unfold SendPacket.
  destruct (Z.leb_spec (m_maxPackets c) (m_nextSequence c)); [reflexivity | lia].
Qed.

Lemma TimeoutHandler_stale (seq : Z) :
  Sender.stale c seq -> TimeoutHandler SendTo seq c sim = (c, sim, []).
Proof.
  intros Hstale. unfold TimeoutHandler.
  destruct Hstale as [Hw | Hne].
  - rewrite Hw. reflexivity.
  - destruct (Z.eqb_spec seq (m_pendingAckSequence c)); [contradiction|].
    rewrite andb_false_r. reflexivity.
Qed.

Lemma HandleRead_stale_ack (p : Packet) (from : Address)
    (h : ReliableHeader) (rest : Packet) :
  RemoveHeader p = Done (h, rest) -> m_isAck h = true ->
  Sender.stale c (m_ackNumber h) ->
  HandleRead [(p, from)] c sim = Done (c, sim, []).
Proof.
  intros Hdec Hack Hstale. cbn [HandleRead HandleRead_one].
  rewrite Hdec, Hack.
  destruct Hstale as [Hw | Hne].
  - rewrite Hw. reflexivity.
  - destruct (Z.eqb_spec (m_ackNumber h) (m_pendingAckSequence c));
      [contradiction|].
    rewrite andb_false_r. reflexivity.
Qed.

Lemma HandleRead_data (p : Packet) (from : Address)
    (h : ReliableHeader) (rest : Packet) :
  RemoveHeader p = Done (h, rest) -> m_isAck h = false ->
  HandleRead [(p, from)] c sim = Done (c, sim, []).
Proof.
  intros Hdec Hdata. cbn [HandleRead HandleRead_one].
  rewrite Hdec, Hdata. reflexivity.
Qed.
End SenderCalls.

(** C9. A timeout or an acknowledgment whose sequence number is not the
    pending one, or that comes when no acknowledgment is awaited, is a no-op:
    the client and the pending events are unchanged, no packet is sent, and
    the call completes. *)
Theorem stale_timeout_and_ack_are_noops (SendTo : Address * Packet -> Z)
    (c : ReliableClient.t) (sim : ReliableClient.Sim) (seq : Z) :
  Sender.stale c seq ->
  ReliableClient.TimeoutHandler SendTo seq c sim = (c, sim, [])
  /\ forall p from h rest,
       RemoveHeader p = Done (h, rest) -> m_isAck h = true ->
       m_ackNumber h = seq ->
       ReliableClient.HandleRead [(p, from)] c sim = Done (c, sim, []).
Proof.
  intros Hstale. split.
  - apply TimeoutHandler_stale. exact Hstale.
  - intros p from h rest Hdec Hack Heq. subst seq.
    apply (HandleRead_stale_ack c sim p from h rest Hdec Hack Hstale).
Qed.

Lemma stale_timeout_and_ack_are_noops_witness :
  Sender.stale (fst awaiting_3) 2
  /\ ReliableClient.TimeoutHandler Scenario.SendTo_ok 2 (fst awaiting_3)
       (snd awaiting_3) = (fst awaiting_3, snd awaiting_3, [])
  /\ ReliableClient.HandleRead [(ack_packet 2, Scenario.serverAddress)] (fst awaiting_3) (snd awaiting_3)
     = Done (fst awaiting_3, snd awaiting_3, []).
Proof.
  assert (Hstale : Sender.stale (fst awaiting_3) 2)
    by (right; simpl; lia).
  destruct (stale_timeout_and_ack_are_noops Scenario.SendTo_ok
              (fst awaiting_3) (snd awaiting_3) 2 Hstale) as [Ht Ha].
  split; [exact Hstale | split; [exact Ht|]].
  apply (Ha (ack_packet 2) Scenario.serverAddress (mkHeader 0 2 true) []); reflexivity.
Defined.

(** C10. A received segment that is not an acknowledgment leaves the client
    (its counters, the pending sequence number, the waiting flag) and the
    pending events, the armed timer among them, unchanged, and no packet is
    sent. *)
Theorem sender_ignores_data_segments (c : ReliableClient.t)
    (sim : ReliableClient.Sim) (p : Packet) (from : Address)
    (h : ReliableHeader) (rest : Packet) :
  RemoveHeader p = Done (h, rest) -> m_isAck h = false ->
  ReliableClient.HandleRead [(p, from)] c sim = Done (c, sim, []).
Proof. apply HandleRead_data. Qed.

Lemma sender_ignores_data_segments_witness :
  RemoveHeader (data_packet 3 1024) = Done (mkHeader 3 0 false, Create 1024)
  /\ ReliableClient.HandleRead [(data_packet 3 1024, Scenario.serverAddress)] (fst awaiting_3)
       (snd awaiting_3) = Done (fst awaiting_3, snd awaiting_3, []).
Proof.
  assert (Hdec : RemoveHeader (data_packet 3 1024)
                 = Done (mkHeader 3 0 false, Create 1024)) by reflexivity.
  split; [exact Hdec|].
  apply (sender_ignores_data_segments _ _ _ Scenario.serverAddress _ _ Hdec eq_refl).
Defined.

(** ** The stop-and-wait sender: the send gate *)

Section SendGate.
Import ReliableClient.
Variable SendTo : Address * Packet -> Z.

Lemma TimeoutHandler_keeps_gate seq c sim c' sim' out :
  TimeoutHandler SendTo seq c sim = (c', sim', out) ->
  m_maxPackets c' = m_maxPackets c /\ m_nextSequence c' = m_nextSequence c.
Proof.
  unfold TimeoutHandler.
  destruct (m_waitingForAck c && (seq =? m_pendingAckSequence c));
    intros H; inversion H; subst; split; reflexivity.
Qed.

Lemma HandleRead_one_keeps_gate rx c sim c' sim' :
  HandleRead_one rx c sim = Done (c', sim') ->
  m_maxPackets c' = m_maxPackets c /\ m_nextSequence c' = m_nextSequence c.
Proof.
  unfold HandleRead_one. destruct rx as [p from].
  destruct (RemoveHeader p) as [[h rest]|]; [|discriminate].
  destruct (m_isAck h);
    [destruct (m_waitingForAck c && (m_ackNumber h =? m_pendingAckSequence c))|];
    intros H; inversion H; subst; split; reflexivity.
Qed.

Lemma HandleRead_keeps_gate socket : forall c sim c' sim' out,
  HandleRead socket c sim = Done (c', sim', out) ->
  m_maxPackets c' = m_maxPackets c /\ m_nextSequence c' = m_nextSequence c.
Proof.
  induction socket as [|rx socket IH]; intros c sim c' sim' out H.
  - inversion H; subst. split; reflexivity.
  - cbn [HandleRead] in H.
    destruct (HandleRead_one rx c sim) as [[c1 sim1]|] eqn:E1; [|discriminate].
    apply HandleRead_one_keeps_gate in E1. apply IH in H.
    destruct E1 as [E1a E1b], H as [Ha Hb]. split; congruence.
Qed.

Lemma later_keeps_gate c c' :
  Sender.later SendTo c c' ->
  m_maxPackets c <= m_nextSequence c ->
  m_maxPackets c' = m_maxPackets c /\ m_nextSequence c' = m_nextSequence c.
Proof.
  induction 1 as [c | c c1 s c2 s2 out _ IH Hcall
                    | c c1 seq s c2 s2 out _ IH Hcall
                    | c c1 socket s c2 s2 out _ IH Hcall]; intros Hgate.
  - split; reflexivity.
  - destruct (IH Hgate) as [Em En].
    rewrite SendPacket_closed in Hcall by lia.
    inversion Hcall; subst. split; assumption.
  - destruct (IH Hgate) as [Em En].
    apply TimeoutHandler_keeps_gate in Hcall. destruct Hcall as [Ha Hb].
    split; congruence.
  - destruct (IH Hgate) as [Em En].
    apply HandleRead_keeps_gate in Hcall. destruct Hcall as [Ha Hb].
    split; congruence.
Qed.
End SendGate.

(** C2, as the claim has it, fails.  With [maxPackets = 2]: sequence number
    0 is sent, times out and is sent again, then acknowledged.  Two packets
    have been sent, the limit, and the next [SendPacket] transmits sequence
    number 1. *)
Lemma send_after_retransmission_transmits :
  let '(c, sim) := after_one_retransmission in
  ReliableClient.m_maxPackets c <= ReliableClient.m_totalPacketsSent c
  /\ exists c' sim',
       ReliableClient.SendPacket Scenario.SendTo_ok c sim
       = (c', sim', [(Scenario.serverAddress, data_packet 1 1024)])
       /\ ReliableClient.m_totalPacketsSent c' = 3
       /\ ReliableClient.m_waitingForAck c' = true.
Proof.
  vm_compute. split; [discriminate|].
  eexists. eexists. repeat split.
Qed.

(** C2, amended.  [SendPacket] called when the next sequence number (the
    count of fresh segments, retransmissions not counted) has reached
    [maxPackets] transmits nothing and changes nothing, and so does every
    later [SendPacket], whatever timeouts and packets come in between. *)
Theorem send_at_sequence_limit_is_terminal (SendTo : Address * Packet -> Z)
    (c : ReliableClient.t) (sim : ReliableClient.Sim) :
  ReliableClient.m_maxPackets c <= ReliableClient.m_nextSequence c ->
  ReliableClient.SendPacket SendTo c sim = (c, sim, [])
  /\ forall c', Sender.later SendTo c c' ->
       forall sim', ReliableClient.SendPacket SendTo c' sim' = (c', sim', []).
Proof.
  intros Hgate. split.
  - apply SendPacket_closed. exact Hgate.
  - intros c' Hlater sim'.
    destruct (later_keeps_gate SendTo c c' Hlater Hgate) as [Em En].
    apply SendPacket_closed. lia.
Qed.

Lemma send_at_sequence_limit_is_terminal_witness :
  ReliableClient.m_maxPackets sent_all_10 <= ReliableClient.m_nextSequence sent_all_10
  /\ ReliableClient.SendPacket Scenario.SendTo_ok sent_all_10 Simulator.empty
     = (sent_all_10, Simulator.empty, []).
Proof.
  assert (Hgate : ReliableClient.m_maxPackets sent_all_10
                  <= ReliableClient.m_nextSequence sent_all_10)
    by (simpl; lia).
  split; [exact Hgate|].
  exact (proj1 (send_at_sequence_limit_is_terminal Scenario.SendTo_ok
                  sent_all_10 Simulator.empty Hgate)).
Defined.

(** ** Send failures *)

Lemma existsb_insert {E : Type} (f : Simulator.Scheduled E -> bool)
    (x : Simulator.Scheduled E) (q : list (Simulator.Scheduled E)) :
  existsb f (Simulator.insert x q) = f x || existsb f q.
Proof.
  induction q as [|y q IH]; cbn [Simulator.insert existsb].
  - reflexivity.
  - destruct (Simulator.ts y <=? Simulator.ts x); cbn [existsb].
    + rewrite IH. destruct (f x), (f y); reflexivity.
    + reflexivity.
Qed.

(** An event just scheduled is pending. *)
Lemma IsPending_Schedule {E : Type} (delay : Z) (e : E) (s : Simulator.t E) :
  Simulator.IsPending (Some (Simulator.next_uid s))
    (Simulator.mk (Simulator.Now s) (S (Simulator.next_uid s))
       (Simulator.insert
          (Simulator.mkScheduled (Simulator.Now s + delay) (Simulator.next_uid s) e)
          (Simulator.events s))) = true.
Proof.
  unfold Simulator.IsPending. cbn [Simulator.events].
  rewrite existsb_insert. unfold Simulator.names at 1. cbn [Simulator.uid].
  rewrite Nat.eqb_refl. reflexivity.
Qed.

Lemma SendPacket_ignores_send_result (SendTo SendTo' : Address * Packet -> Z)
    (c : ReliableClient.t) (sim : ReliableClient.Sim) :
  ReliableClient.SendPacket SendTo c sim = ReliableClient.SendPacket SendTo' c sim.
Proof. reflexivity. Qed.

Lemma TimeoutHandler_ignores_send_result (SendTo SendTo' : Address * Packet -> Z)
    (seq : Z) (c : ReliableClient.t) (sim : ReliableClient.Sim) :
  ReliableClient.TimeoutHandler SendTo seq c sim
  = ReliableClient.TimeoutHandler SendTo' seq c sim.
Proof. reflexivity. Qed.

(** C7, as the claim has it, fails.  The stop-and-wait client does not read
    what [SendTo] returns: a failed send is counted as a packet sent and
    moves the client to waiting for the acknowledgment. *)
Lemma failed_send_is_counted_and_awaited :
  let c := ReliableClient.new Scenario.serverAddress 10 (Seconds 1) 1024 (MilliSeconds 500) in
  let '(c', _, _) :=
    ReliableClient.SendPacket Scenario.SendTo_fail c (Simulator.mk (MilliSeconds 2100) 0 []) in
  ReliableClient.m_waitingForAck c = false
  /\ ReliableClient.m_totalPacketsSent c = 0
  /\ ReliableClient.m_waitingForAck c' = true
  /\ ReliableClient.m_totalPacketsSent c' = 1.
Proof. vm_compute. repeat split. Qed.

Lemma run_nothing_pending (Send : EnhancedUdp.UdpPacket -> Z)
    (st : EnhancedUdp.State) (n : nat) :
  Simulator.events (EnhancedUdp.sim st) = [] -> EnhancedUdp.run Send n st = st.
Proof.
  intros Hnil. induction n as [|n IH]; [reflexivity|].
  unfold EnhancedUdp.run in *. rewrite Nat.iter_succ, IH.
  unfold EnhancedUdp.fire. rewrite Hnil. reflexivity.
Qed.

(** In the rate-controlled client the branch of a failed send does not call
    [ScheduleTransmit]: after one failed send no event is pending and no
    later packet is sent, although the socket accepts packets again. *)
Lemma failed_send_leaves_nothing_scheduled :
  let st := EnhancedUdp.run EnhancedUdp.Send_fail 1 (EnhancedUdp.start 1024 100) in
  Simulator.events (EnhancedUdp.sim st) = []
  /\ EnhancedUdp.totalLostPackets (EnhancedUdp.globals st) = 1
  /\ forall n, EnhancedUdp.run EnhancedUdp.Send_ok n st = st.
Proof.
  cbv zeta. split; [reflexivity | split; [reflexivity|]].
  intros n. apply run_nothing_pending. reflexivity.
Qed.

(** C7, amended.  When the socket reports a failure, the rate-controlled
    client adds one to [totalLostPackets] (modulo 2^32) and leaves its sent
    count and its window state (cwnd, ssthresh, phase, interval) unchanged.
    The stop-and-wait client does not read the result of [SendTo]: on a
    failure it makes the transition of a successful send or retransmission,
    so the segment is counted as sent, no loss is counted, and the armed
    timer governs the retry. *)
Theorem send_failure_effects :
  (forall (Send : EnhancedUdp.UdpPacket -> Z) (c : EnhancedUdp.t)
          (g : EnhancedUdp.Globals) (sim : EnhancedUdp.Sim),
      EnhancedUdp.m_packetsSent c < EnhancedUdp.m_maxPackets c ->
      (forall p, Send p <= 0) ->
      exists c' g' sim' out,
        EnhancedUdp.SendPacket Send c g sim = (c', g', sim', out)
        /\ EnhancedUdp.totalLostPackets g'
           = wrap32 (EnhancedUdp.totalLostPackets g + 1)
        /\ EnhancedUdp.m_packetsSent c' = EnhancedUdp.m_packetsSent c
        /\ EnhancedUdp.m_cwnd c' = EnhancedUdp.m_cwnd c
        /\ EnhancedUdp.m_ssthresh c' = EnhancedUdp.m_ssthresh c
        /\ EnhancedUdp.m_congestionAvoidance c' = EnhancedUdp.m_congestionAvoidance c
        /\ EnhancedUdp.m_interval c' = EnhancedUdp.m_interval c)
  /\ (forall (SendTo : Address * Packet -> Z) (c : ReliableClient.t)
             (sim : ReliableClient.Sim),
        (forall x, SendTo x <= 0) ->
        ReliableClient.SendPacket SendTo c sim
        = ReliableClient.SendPacket Scenario.SendTo_ok c sim
        /\ (forall seq,
              ReliableClient.TimeoutHandler SendTo seq c sim
              = ReliableClient.TimeoutHandler Scenario.SendTo_ok seq c sim)
        /\ (ReliableClient.m_nextSequence c < ReliableClient.m_maxPackets c ->
            exists c' sim' out,
              ReliableClient.SendPacket SendTo c sim = (c', sim', out)
              /\ ReliableClient.m_totalPacketsSent c'
                 = wrap32 (ReliableClient.m_totalPacketsSent c + 1)
              /\ ReliableClient.m_retransmissions c'
                 = ReliableClient.m_retransmissions c
              /\ ReliableClient.m_waitingForAck c' = true
              /\ ReliableClient.m_pendingAckSequence c'
                 = ReliableClient.m_nextSequence c
              /\ Simulator.IsPending (ReliableClient.m_timerEvent c') sim' = true)).
Proof.
  split.
  - intros Send c g sim Hmax Hfail. unfold EnhancedUdp.SendPacket.
    destruct (Z.leb_spec (EnhancedUdp.m_maxPackets c) (EnhancedUdp.m_packetsSent c));
      [lia|].
    match goal with
    | |- context [0 <? Send ?p] =>
        destruct (Z.ltb_spec 0 (Send p)) as [Hpos|_];
        [specialize (Hfail p); lia|]
    end.
    do 4 eexists. repeat split.
  - intros SendTo c sim _.
    split; [reflexivity | split; [intros seq; reflexivity|]].
    intros Hopen. unfold ReliableClient.SendPacket.
    destruct (Z.leb_spec (ReliableClient.m_maxPackets c)
                (ReliableClient.m_nextSequence c)); [lia|].
    do 3 eexists. split; [reflexivity|].
    cbn [ReliableClient.m_totalPacketsSent ReliableClient.m_retransmissions
         ReliableClient.m_waitingForAck ReliableClient.m_pendingAckSequence
         ReliableClient.m_timerEvent].
    repeat (split; [reflexivity|]).
    apply IsPending_Schedule.
Qed.

Lemma send_failure_effects_witness :
  EnhancedUdp.m_packetsSent EnhancedUdp.new < EnhancedUdp.m_maxPackets EnhancedUdp.new
  /\ (forall p, EnhancedUdp.Send_fail p <= 0)
  /\ exists c' g' sim' out,
       EnhancedUdp.SendPacket EnhancedUdp.Send_fail EnhancedUdp.new
         EnhancedUdp.globals_reset Simulator.empty = (c', g', sim', out)
       /\ EnhancedUdp.totalLostPackets g' = 1.
Proof.
  assert (Hmax : EnhancedUdp.m_packetsSent EnhancedUdp.new
                 < EnhancedUdp.m_maxPackets EnhancedUdp.new) by (simpl; lia).
  assert (Hfail : forall p, EnhancedUdp.Send_fail p <= 0)
    by (intros p; unfold EnhancedUdp.Send_fail; lia).
  split; [exact Hmax | split; [exact Hfail|]].
  destruct (proj1 send_failure_effects EnhancedUdp.Send_fail EnhancedUdp.new
              EnhancedUdp.globals_reset Simulator.empty Hmax Hfail)
    as (c' & g' & sim' & out & Hrun & Hlost & _).
  exists c', g', sim', out. split; [exact Hrun | exact Hlost].
Defined.

(** ** The simulated congestion window *)

(** The loss branch of [CongestionControl]: what one simulated loss does. *)
Lemma CongestionControl_loss (c : EnhancedUdp.t) (g : EnhancedUdp.Globals) :
  EnhancedUdp.m_packetsSent c mod 40 = 0 -> 0 < EnhancedUdp.m_packetsSent c ->
  let grown :=
    if negb (EnhancedUdp.m_congestionAvoidance c)
    then Z.min (wrap32 (EnhancedUdp.m_cwnd c + 2)) (EnhancedUdp.m_ssthresh c)
    else wrap32 (EnhancedUdp.m_cwnd c + 1) in
  let '(c', g') := EnhancedUdp.CongestionControl c g in
  EnhancedUdp.m_ssthresh c' = Z.max (grown / 2) 4
  /\ EnhancedUdp.m_cwnd c' = 4
  /\ EnhancedUdp.m_congestionAvoidance c' = false
  /\ EnhancedUdp.totalLostPackets g' = wrap32 (EnhancedUdp.totalLostPackets g + 2).
Proof.
  intros Hmod Hpos. unfold EnhancedUdp.CongestionControl.
  rewrite Hmod. cbn [Z.eqb andb].
  destruct (Z.ltb_spec 0 (EnhancedUdp.m_packetsSent c)); [|lia].
  destruct (EnhancedUdp.m_congestionAvoidance c); cbn [negb].
  - repeat split.
  - destruct (_ <=? _); repeat split.
Qed.

(** A successful send records a simulated loss exactly when the new count
    of packets sent passes both tests, the one of [SendPacket] modulo 15 and
    the one of [CongestionControl] modulo 40. *)
Lemma SendPacket_loss_condition (Send : EnhancedUdp.UdpPacket -> Z)
    (c : EnhancedUdp.t) (g : EnhancedUdp.Globals) (sim : EnhancedUdp.Sim) :
  EnhancedUdp.m_packetsSent c < EnhancedUdp.m_maxPackets c ->
  (forall p, 0 < Send p) ->
  let n := wrap32 (EnhancedUdp.m_packetsSent c + 1) in
  EnhancedUdp.totalLostPackets
    (snd (fst (fst (EnhancedUdp.SendPacket Send c g sim))))
  = if (n mod 15 =? 0) && (n mod 40 =? 0) && (0 <? n)
    then wrap32 (EnhancedUdp.totalLostPackets g + 2)
    else EnhancedUdp.totalLostPackets g.
Proof.
  intros Hmax Hok n. unfold EnhancedUdp.SendPacket.
  destruct (Z.leb_spec (EnhancedUdp.m_maxPackets c) (EnhancedUdp.m_packetsSent c));
    [lia|].
  match goal with
  | |- context [0 <? Send ?p] =>
      destruct (Z.ltb_spec 0 (Send p)) as [_|Hneg];
      [|specialize (Hok p); lia]
  end.
  cbn [EnhancedUdp.m_packetsSent]. fold n.
  destruct (n mod 15 =? 0); cbn [andb].
  - unfold EnhancedUdp.CongestionControl.
    cbn [EnhancedUdp.m_packetsSent EnhancedUdp.m_congestionAvoidance]. fold n.
    destruct ((n mod 40 =? 0) && (0 <? n));
      destruct (EnhancedUdp.m_congestionAvoidance c); cbn [negb];
      try destruct (_ <=? _);
      cbn [EnhancedUdp.m_packetsSent EnhancedUdp.m_maxPackets];
      destruct (n <? EnhancedUdp.m_maxPackets c); reflexivity.
  - cbn [EnhancedUdp.m_packetsSent EnhancedUdp.m_maxPackets].
    destruct (n <? EnhancedUdp.m_maxPackets c); reflexivity.
Qed.

(** With room for 200 packets the first simulated loss comes with send 120,
    the first count that is a multiple of 15 and of 40: it halves the grown
    window of 20 into [ssthresh], resets [cwnd] to 4 and records two lost
    packets. *)
Lemma first_simulated_loss_at_send_120 :
  let before := EnhancedUdp.run EnhancedUdp.Send_ok 119 (EnhancedUdp.start 1024 200) in
  let after := EnhancedUdp.run EnhancedUdp.Send_ok 120 (EnhancedUdp.start 1024 200) in
  EnhancedUdp.totalLostPackets (EnhancedUdp.globals before) = 0
  /\ EnhancedUdp.m_cwnd (EnhancedUdp.client before) = 18
  /\ EnhancedUdp.totalLostPackets (EnhancedUdp.globals after) = 2
  /\ EnhancedUdp.m_cwnd (EnhancedUdp.client after) = 4
  /\ EnhancedUdp.m_ssthresh (EnhancedUdp.client after) = 10
  /\ EnhancedUdp.m_congestionAvoidance (EnhancedUdp.client after) = false.
Proof. vm_compute. repeat split. Qed.

(** C1.  The claim's scenario on the code: forty successful sends of the
    client as [main] configures it.  [CongestionControl] has run at sends 15
    and 30 and grown the window from 4 to 8; the loss branch, reached only
    when the count is a multiple of 15 and of 40, has not run: no lost
    packet is recorded, [ssthresh] is still 32 and [cwnd] is not reset. *)
Theorem forty_sends_fire_no_simulated_loss :
  let st := EnhancedUdp.run EnhancedUdp.Send_ok 40 (EnhancedUdp.start 1024 100) in
  EnhancedUdp.m_packetsSent (EnhancedUdp.client st) = 40
  /\ length (EnhancedUdp.sent st) = 40%nat
  /\ EnhancedUdp.totalLostPackets (EnhancedUdp.globals st) = 0
  /\ EnhancedUdp.m_cwnd (EnhancedUdp.client st) = 8
  /\ EnhancedUdp.m_ssthresh (EnhancedUdp.client st) = 32.
Proof. vm_compute. repeat split. Qed.

(** ** The stop-and-wait sender: one segment in flight *)

Section OneInFlight.
Import ReliableClient Sender.
Variable SendTo : Address * Packet -> Z.

Lemma pending_sends_app (q1 q2 : list (Simulator.Scheduled Event)) :
  pending_sends (q1 ++ q2) = (pending_sends q1 + pending_sends q2)%nat.
Proof.
  unfold pending_sends. rewrite map_app, list_sum_app. reflexivity.
Qed.

Lemma pending_sends_cons (y : Simulator.Scheduled Event) q :
  pending_sends (y :: q) = (spawns y + pending_sends q)%nat.
Proof. reflexivity. Qed.

Lemma pending_sends_insert (x : Simulator.Scheduled Event) q :
  pending_sends (Simulator.insert x q) = (spawns x + pending_sends q)%nat.
Proof.
  induction q as [|y q IH]; cbn [Simulator.insert].
  - reflexivity.
  - destruct (Simulator.ts y <=? Simulator.ts x).
    + rewrite !pending_sends_cons, IH. lia.
    + rewrite !pending_sends_cons. reflexivity.
Qed.

Lemma pending_sends_filter (f : Simulator.Scheduled Event -> bool) q :
  (pending_sends (filter f q) <= pending_sends q)%nat.
Proof.
  induction q as [|y q IH]; cbn [filter]; [lia|].
  destruct (f y); rewrite !pending_sends_cons; lia.
Qed.

Lemma pending_sends_fired before (e : Simulator.Scheduled Event) after :
  pending_sends (before ++ e :: after)
  = (spawns e + pending_sends (before ++ after))%nat.
Proof.
  rewrite !pending_sends_app, pending_sends_cons. lia.
Qed.

Lemma wrap32_u32 (z : Z) : u32 (wrap32 z).
Proof. unfold u32, wrap32. apply Z.mod_pos_bound. lia. Qed.

Lemma tx_of_data (peer : Address) (s sz : Z) :
  u32 s ->
  tx_of [(peer, AddHeader
                  (SetIsAck false (SetSequenceNumber s ReliableHeader_new))
                  (Create sz))]
  = [Tx s].
Proof.
  intros Hs. unfold tx_of. cbn [flat_map snd app].
  rewrite RemoveHeader_AddHeader.
  - reflexivity.
  - split; cbn; [exact Hs | unfold u32; lia].
Qed.

Lemma outstanding_filter_all (a : Z) (l : list Z) :
  (forall s, In s l -> s = a) -> filter (fun s => negb (s =? a)) l = [].
Proof.
  induction l as [|x l IH]; intros Hall; [reflexivity|].
  cbn [filter]. rewrite (Hall x (or_introl eq_refl)), Z.eqb_refl. cbn [negb].
  apply IH. intros s Hs. apply Hall. right. exact Hs.
Qed.

(** *** The member functions keep the invariant *)

Ltac split_invariant :=
  unfold invariant; refine (conj _ (conj _ (conj _ _))).

Lemma StartApplication_invariant c now uid before e after tr :
  Simulator.impl e = EvStartApplication ->
  invariant c (before ++ e :: after) tr ->
  let '(c', s') := StartApplication c (Simulator.mk now uid (before ++ after)) in
  invariant c' (Simulator.events s') tr.
Proof.
  intros He (Hn & Hone & Hp & Hout).
  rewrite pending_sends_fired in Hone.
  unfold spawns in Hone. rewrite He in Hone.
  cbn [StartApplication Simulator.Schedule snd Simulator.events Simulator.Now
       Simulator.next_uid].
  split_invariant; try assumption.
  rewrite pending_sends_insert. cbn [spawns Simulator.impl]. lia.
Qed.

Lemma SendPacket_invariant c now uid before e after tr :
  Simulator.impl e = EvSendPacket ->
  invariant c (before ++ e :: after) tr ->
  let '(c', s', out) := SendPacket SendTo c (Simulator.mk now uid (before ++ after)) in
  invariant c' (Simulator.events s') (rev (tx_of out) ++ tr).
Proof.
  intros He (Hn & Hone & Hp & Hout).
  rewrite pending_sends_fired in Hone.
  unfold spawns in Hone. rewrite He in Hone.
  unfold SendPacket.
  destruct (m_maxPackets c <=? m_nextSequence c).
  - cbn [tx_of flat_map rev app Simulator.events].
    split_invariant; try assumption. lia.
  - cbn [Simulator.Schedule Simulator.events Simulator.Now Simulator.next_uid].
    rewrite tx_of_data by exact Hn. cbn [rev app].
    assert (Hnone : outstanding tr = []).
    { destruct (outstanding tr) as [|x l] eqn:E; [reflexivity|].
      destruct (Hout x (or_introl eq_refl)) as [Hw _].
      unfold awaited in Hone. rewrite Hw in Hone. lia. }
    split_invariant;
      cbn [m_nextSequence m_waitingForAck m_pendingAckSequence outstanding awaited].
    + apply wrap32_u32.
    + rewrite pending_sends_insert. cbn [spawns Simulator.impl]. lia.
    + intros _. exact Hn.
    + rewrite Hnone. intros s [<-|[]]. split; reflexivity.
Qed.

Lemma TimeoutHandler_invariant seq c now uid before e after tr :
  Simulator.impl e = EvTimeoutHandler seq ->
  invariant c (before ++ e :: after) tr ->
  let '(c', s', out) :=
    TimeoutHandler SendTo seq c (Simulator.mk now uid (before ++ after)) in
  invariant c' (Simulator.events s') (rev (tx_of out) ++ tr).
Proof.
  intros He (Hn & Hone & Hp & Hout).
  rewrite pending_sends_fired in Hone.
  unfold spawns in Hone. rewrite He in Hone.
  unfold TimeoutHandler.
  destruct (m_waitingForAck c && (seq =? m_pendingAckSequence c)) eqn:Hact.
  - apply andb_prop in Hact. destruct Hact as [Hw Heq].
    apply Z.eqb_eq in Heq. subst seq.
    cbn [Simulator.Schedule Simulator.events Simulator.Now Simulator.next_uid].
    rewrite tx_of_data by (apply Hp; exact Hw). cbn [rev app].
    split_invariant;
      cbn [m_nextSequence m_waitingForAck m_pendingAckSequence outstanding].
    + exact Hn.
    + rewrite pending_sends_insert. cbn [spawns Simulator.impl].
      unfold awaited in *. cbn [m_waitingForAck]. lia.
    + exact Hp.
    + intros s [<-|Hin]; [split; [exact Hw | reflexivity] | apply (Hout s Hin)].
  - cbn [tx_of flat_map rev app Simulator.events].
    split_invariant; assumption.
Qed.

Lemma HandleRead_one_invariant rx c now uid q tr c' s' :
  invariant c q tr ->
  HandleRead_one rx c (Simulator.mk now uid q) = Done (c', s') ->
  invariant c' (Simulator.events s') (rev (acks_of [rx]) ++ tr)
  /\ Simulator.Now s' = now.
Proof.
  intros (Hn & Hone & Hp & Hout). unfold HandleRead_one, acks_of.
  destruct rx as [p from]. cbn [flat_map fst app].
  destruct (RemoveHeader p) as [[h rest]|]; [|discriminate].
  rewrite app_nil_r.
  destruct (m_isAck h).
  2:{ intros H; inversion H; subst. split; [|reflexivity].
      cbn [rev app Simulator.events]. split_invariant; assumption. }
  cbn [rev app].
  destruct (m_waitingForAck c && (m_ackNumber h =? m_pendingAckSequence c))
    eqn:Hact; intros H; inversion H; subst; clear H.
  - apply andb_prop in Hact. destruct Hact as [Hw Heq].
    apply Z.eqb_eq in Heq.
    split; [|destruct (Simulator.IsPending _ _); reflexivity].
    assert (Hq : pending_sends q = 0%nat)
      by (unfold awaited in Hone; rewrite Hw in Hone; lia).
    split_invariant;
      cbn [m_nextSequence m_waitingForAck m_pendingAckSequence outstanding awaited].
    + exact Hn.
    + cbn [Simulator.Schedule snd Simulator.events].
      rewrite pending_sends_insert. cbn [spawns Simulator.impl].
      destruct (Simulator.IsPending _ _); cbn [Simulator.Cancel Simulator.events].
      * pose proof (pending_sends_filter
                      (fun x => negb (Simulator.names (m_timerEvent c) x)) q).
        lia.
      * lia.
    + discriminate.
    + rewrite outstanding_filter_all; [intros s []|].
      intros s Hs. rewrite Heq. apply (Hout s Hs).
  - split; [|reflexivity]. cbn [Simulator.events].
    split_invariant; try assumption.
    cbn [outstanding]. intros s Hs. apply filter_In in Hs.
    apply Hout. apply Hs.
Qed.

Lemma HandleRead_invariant socket : forall c now uid q tr c' s' out,
  invariant c q tr ->
  HandleRead socket c (Simulator.mk now uid q) = Done (c', s', out) ->
  invariant c' (Simulator.events s') (rev (tx_of out) ++ rev (acks_of socket) ++ tr).
Proof.
  induction socket as [|rx socket IH]; intros c now uid q tr c' s' out Hinv H.
  - inversion H; subst. exact Hinv.
  - cbn [HandleRead] in H.
    destruct (HandleRead_one rx c (Simulator.mk now uid q)) as [[c1 s1]|] eqn:E1;
      [|discriminate].
    apply (HandleRead_one_invariant _ _ _ _ _ _ _ _ Hinv) in E1.
    destruct E1 as [Hinv1 _]. destruct s1 as [now1 uid1 q1].
    specialize (IH _ _ _ _ _ _ _ _ Hinv1 H).
    change (rx :: socket) with ([rx] ++ socket).
    unfold acks_of in *. rewrite flat_map_app, rev_app_distr, <- app_assoc.
    exact IH.
Qed.

Lemma step_invariant (st st' : State) :
  step SendTo st st' ->
  invariant (client st) (Simulator.events (sim st)) (trace st) ->
  invariant (client st') (Simulator.events (sim st')) (trace st').
Proof.
  intros Hstep Hinv.
  destruct Hstep as [st before e after c s out Hq Hcall
                    | st now socket c s out Hcall];
    cbn [client sim trace].
  - rewrite Hq in Hinv. unfold invoke in Hcall.
    destruct (Simulator.impl e) as [| |seq|p from|p from] eqn:He;
      try discriminate.
    + pose proof (StartApplication_invariant _ (Simulator.ts e)
                    (Simulator.next_uid (sim st)) _ _ _ _ He Hinv) as Hnew.
      destruct (StartApplication _ _) as [c1 s1].
      inversion Hcall; subst. exact Hnew.
    + pose proof (SendPacket_invariant _ (Simulator.ts e)
                    (Simulator.next_uid (sim st)) _ _ _ _ He Hinv) as Hnew.
      inversion Hcall as [Hcall']. rewrite Hcall' in Hnew. exact Hnew.
    + pose proof (TimeoutHandler_invariant seq _ (Simulator.ts e)
                    (Simulator.next_uid (sim st)) _ _ _ _ He Hinv) as Hnew.
      inversion Hcall as [Hcall']. rewrite Hcall' in Hnew. exact Hnew.
  - apply (HandleRead_invariant _ _ _ _ _ _ _ _ _ Hinv Hcall).
Qed.

Lemma reachable_invariant peer maxPackets interval packetSize timeout st :
  reachable SendTo (new peer maxPackets interval packetSize timeout) st ->
  invariant (client st) (Simulator.events (sim st)) (trace st).
Proof.
  induction 1 as [|st st' _ IH Hstep].
  - split_invariant; cbn.
    + unfold u32. lia.
    + lia.
    + discriminate.
    + intros s [].
  - apply (step_invariant st st' Hstep IH).
Qed.
End OneInFlight.

(** C8. In every state the stop-and-wait client reaches from its start,
    whatever the order in which its pending events fire and whatever packets
    arrive, at most one sequence number is sent and not yet acknowledged: any
    two outstanding sequence numbers are the same.  So between sending a new
    sequence number and the arrival of its acknowledgment no other sequence
    number is put on the wire. *)
Theorem at_most_one_in_flight (SendTo : Address * Packet -> Z)
    (peer : Address) (maxPackets interval packetSize timeout : Z)
    (st : Sender.State) :
  Sender.reachable SendTo
    (ReliableClient.new peer maxPackets interval packetSize timeout) st ->
  forall a b,
    In a (Sender.outstanding (Sender.trace st)) ->
    In b (Sender.outstanding (Sender.trace st)) ->
    a = b.
Proof.
  intros Hreach a b Ha Hb.
  destruct (reachable_invariant SendTo _ _ _ _ _ st Hreach)
    as (_ & _ & _ & Hout).
  destruct (Hout a Ha) as [_ ->]. destruct (Hout b Hb) as [_ ->]. reflexivity.
Qed.

Lemma at_most_one_in_flight_witness :
  exists st,
    Sender.reachable Scenario.SendTo_ok
      (ReliableClient.new Scenario.serverAddress 10 (Seconds 1) 1024 (MilliSeconds 500)) st
    /\ Sender.outstanding (Sender.trace st) = [0]
    /\ forall a b,
         In a (Sender.outstanding (Sender.trace st)) ->
         In b (Sender.outstanding (Sender.trace st)) ->
         a = b.
Proof.
  assert (H : exists st,
             Sender.reachable Scenario.SendTo_ok
               (ReliableClient.new Scenario.serverAddress 10 (Seconds 1) 1024 (MilliSeconds 500)) st
             /\ Sender.outstanding (Sender.trace st) = [0]).
  { eexists. split.
    - eapply Sender.reachable_step.
      + eapply Sender.reachable_step.
        * apply Sender.reachable_initial.
        * eapply (Sender.step_event _ _ [] _ []); reflexivity.
      + eapply (Sender.step_event _ _ [] _ []); reflexivity.
    - reflexivity. }
  destruct H as (st & Hr & Ho).
  exists st. split; [exact Hr | split; [exact Ho|]].
  apply (at_most_one_in_flight _ _ _ _ _ _ st Hr).
Defined.

(** ** The error-free run of ten packets *)

Section ErrorFreeRun.
Import Scenario.

Lemma Run_step (w w' : World) (fuel : nat) :
  step w = Some (Done w') -> Run (S fuel) w = Run fuel w'.
Proof. intros H. cbn [Run]. rewrite H. reflexivity. Qed.

Lemma Run_finished (w : World) (fuel : nat) :
  step w = None -> Run fuel w = Some (Done w).
Proof. intros H. destruct fuel; cbn [Run]; rewrite H; reflexivity. Qed.

Lemma wrap32_small (z : Z) : 0 <= z < 2 ^ 32 -> wrap32 z = z.
Proof. intros Hz. unfold wrap32. apply Z.mod_small. exact Hz. Qed.

Variables (packetSize d : Z).
Hypothesis HpacketSize : 0 <= packetSize <= 65498.
Hypothesis Hdelay : 0 <= d.
Hypothesis Hrtt : 2 * d < MilliSeconds 500.

Ltac resolve_tests :=
  repeat match goal with
  | |- context [?a <=? ?b] =>
      first [ replace (a <=? b) with true by (symmetry; apply Z.leb_le; lia)
            | replace (a <=? b) with false by (symmetry; apply Z.leb_gt; lia) ]
  | |- context [?a <? ?b] =>
      first [ replace (a <? b) with true by (symmetry; apply Z.ltb_lt; lia)
            | replace (a <? b) with false by (symmetry; apply Z.ltb_ge; lia) ]
  | |- context [Z.eqb ?a ?b] =>
      first [ replace (Z.eqb a b) with true by (symmetry; apply Z.eqb_eq; lia)
            | replace (Z.eqb a b) with false by (symmetry; apply Z.eqb_neq; lia) ]
  end.

Ltac exec :=
  cbn -[Z.add Z.mul wrap32 AddHeader RemoveHeader Create GetSize];
  resolve_tests;
  unfold with_client, with_server;
  cbn -[Z.add Z.mul wrap32 AddHeader RemoveHeader Create GetSize].

Ltac unwrap :=
  repeat rewrite wrap32_small by (change (2 ^ 32) with 4294967296; lia).

Ltac valid := split; cbn; unfold u32; change (2 ^ 32) with 4294967296; lia.

Lemma run_start :
  exists w, at_round packetSize d 0 w
            /\ forall fuel, Run (S fuel) (errorFreeRun packetSize d) = Run fuel w.
Proof.
  eexists. split.
  2:{ intros fuel. apply Run_step. reflexivity. }
  unfold at_round. do 10 eexists.
  split; [cbn; reflexivity | repeat split; cbn; lia].
Qed.
Ltac accept :=
  rewrite ?GetSize_AddHeader, ?GetSize_Create by lia;
  unfold UdpSocket.MAX_IPV4_UDP_DATAGRAM_SIZE;
  exec; exec.

Ltac fire_send :=
  unfold step; exec; accept; unwrap; reflexivity.

Ltac fire_server_recv :=
  unfold step; exec;
  rewrite RemoveHeader_AddHeader by valid;
  exec; accept;
  unwrap; reflexivity.

Ltac fire_client_recv :=
  unfold step; exec;
  rewrite RemoveHeader_AddHeader by valid;
  exec; rewrite ?Nat.eqb_refl; exec; rewrite ?Nat.eqb_refl; exec;
  reflexivity.

Lemma run_round (k : Z) (w : World) :
  0 <= k < 10 -> at_round packetSize d k w ->
  exists w', at_round packetSize d (k + 1) w'
             /\ forall fuel, Run (S (S (S fuel))) w = Run fuel w'.
Proof.
  intros Hk (timer & pend & now & uid & id & n & hist & sent & received & t
             & -> & -> & -> & -> & Hacks).
  unfold MilliSeconds, Seconds in *.
  change 65498 with 65498 in HpacketSize.
  assert (Hcases : k = 0 \/ k = 1 \/ k = 2 \/ k = 3 \/ k = 4 \/ k = 5
                   \/ k = 6 \/ k = 7 \/ k = 8 \/ k = 9) by lia.
  clear Hk.
  destruct Hcases as [->|[->|[->|[->|[->|[->|[->|[->|[->| ->]]]]]]]]];
    (eexists; split;
     [| intros fuel;
        erewrite Run_step; [|fire_send];
        erewrite Run_step; [|fire_server_recv];
        erewrite Run_step; [|fire_client_recv];
        reflexivity ];
     unfold at_round, MilliSeconds, Seconds;
     do 10 eexists; split; [reflexivity|];
     split; [lia|]; split; [lia|]; split; [lia|];
     cbn [filter is_ack_arrival];
     rewrite RemoveHeader_AddHeader by valid;
     cbn [m_isAck SetAckNumber SetIsAck ReliableHeader_new length];
     lia).
Qed.

Lemma run_last (w : World) :
  at_round packetSize d 10 w ->
  exists w', (forall fuel, Run (S fuel) w = Some (Done w'))
             /\ ReliableClient.m_totalPacketsSent (client w') = 10
             /\ acksReceived w' = 10
             /\ ReliableClient.m_retransmissions (client w') = 0
             /\ ReliableClient.m_totalBytesSent (client w') = 10 * (packetSize + 9)
             /\ ReliableServer.m_totalPacketsReceived (server w') = 10.
Proof.
  intros (timer & pend & now & uid & id & n & hist & sent & received & t
          & -> & -> & -> & -> & Hacks).
  unfold MilliSeconds, Seconds in *.
  eexists. split.
  - intros fuel. erewrite Run_step.
    2:{ unfold step. exec. reflexivity. }
    apply Run_finished. reflexivity.
  - unfold acksReceived. cbn [client server history filter is_ack_arrival
      ReliableClient.m_totalPacketsSent ReliableClient.m_retransmissions
      ReliableClient.m_totalBytesSent ReliableServer.m_totalPacketsReceived].
    repeat split; try reflexivity. exact Hacks.
Qed.

Lemma run_rounds (n : nat) :
  (n <= 10)%nat ->
  exists w, at_round packetSize d (Z.of_nat n) w
            /\ forall fuel, Run (S (3 * n + fuel)) (errorFreeRun packetSize d) = Run fuel w.
Proof.
  induction n as [|n IH]; intros Hn.
  - destruct run_start as (w & Hw & Hrun). exists w. split; [exact Hw|].
    intros fuel. apply Hrun.
  - destruct IH as (w & Hw & Hrun); [lia|].
    destruct (run_round (Z.of_nat n) w) as (w' & Hw' & Hrun'); [lia | exact Hw |].
    exists w'. split.
    + replace (Z.of_nat (S n)) with (Z.of_nat n + 1) by lia. exact Hw'.
    + intros fuel.
      replace (3 * S n + fuel)%nat with (3 * n + S (S (S fuel)))%nat by lia.
      rewrite Hrun. apply Hrun'.
Qed.

Lemma run_completes (fuel : nat) :
  (32 <= fuel)%nat ->
  exists w,
    Run fuel (errorFreeRun packetSize d) = Some (Done w)
    /\ ReliableClient.m_totalPacketsSent (client w) = 10
    /\ acksReceived w = 10
    /\ ReliableClient.m_retransmissions (client w) = 0
    /\ ReliableClient.m_totalBytesSent (client w) = 10 * (packetSize + 9)
    /\ ReliableServer.m_totalPacketsReceived (server w) = 10.
Proof.
  intros Hfuel.
  destruct (run_rounds 10) as (w & Hw & Hrun); [lia|].
  destruct (run_last w Hw) as (w' & Hlast & Hfinal).
  exists w'. split; [|exact Hfinal].
  replace fuel with (S (3 * 10 + S (fuel - 32)))%nat by lia.
  rewrite Hrun. apply Hlast.
Qed.
End ErrorFreeRun.

(** C6, as the claim has it, fails, however the client is told where the
    server is.  When its peer address is the socket address of the server,
    ten packets of 1024 payload bytes are sent over the 2 ms link of [main],
    none again, and the byte counter, fed with the size of the packet after
    [AddHeader], ends at 10330, not 10240.  In [main] itself the peer
    address has no port, the socket sends nothing, no acknowledgment ever
    arrives, and the first packet is retransmitted until the simulation
    stops. *)
Lemma error_free_run_counts_header_bytes :
  (exists w,
     Scenario.Run 32 (Scenario.errorFreeRun 1024 (MilliSeconds 2)) = Some (Done w)
     /\ ReliableClient.m_totalPacketsSent (Scenario.client w) = 10
     /\ ReliableClient.m_retransmissions (Scenario.client w) = 0
     /\ ReliableClient.m_packetSize (Scenario.client w) = 1024
     /\ ReliableClient.m_totalBytesSent (Scenario.client w) = 10330
     /\ ReliableClient.m_totalBytesSent (Scenario.client w) <> 10 * 1024)
  /\ (exists w,
        Scenario.Run 57
          (Scenario.main 10 1024 (Seconds 1) (MilliSeconds 500) (Seconds 30)
             (MilliSeconds 2) Scenario.errorFree) = Some (Done w)
        /\ ReliableClient.m_nextSequence (Scenario.client w) = 1
        /\ Scenario.acksReceived w = 0
        /\ ReliableClient.m_retransmissions (Scenario.client w) = 55
        /\ ReliableClient.m_totalBytesSent (Scenario.client w) = 56 * (1024 + 9)).
Proof.
  split.
  - eexists. split; [vm_compute; reflexivity|].
    repeat split. cbn. discriminate.
  - eexists. split; [vm_compute; reflexivity|]. repeat split.
Qed.

(** The link has to answer within the timeout: over a link of 300 ms each
    way every packet is sent twice although no packet is lost. *)
Lemma slow_link_retransmits :
  exists w,
    Scenario.Run 52 (Scenario.errorFreeRun 1024 (MilliSeconds 300)) = Some (Done w)
    /\ ReliableClient.m_totalPacketsSent (Scenario.client w) = 20
    /\ ReliableClient.m_retransmissions (Scenario.client w) = 10.
Proof.
  eexists. split; [vm_compute; reflexivity|]. split; reflexivity.
Qed.

(** C6, amended.  The run with [maxPackets = 10] of a client whose peer
    address is the socket address of the server, over an error-free link
    that answers within the timeout (twice its delay is below 0.5 s), with
    timeout 0.5 s and interval 1 s, comes to an end (32 events; any fuel
    from 32 on suffices) with exactly 10 data packets sent, 10
    acknowledgments received, no retransmission, and [m_totalBytesSent]
    equal to 10 times the packet size plus the 9 header bytes.  The packet
    with its header has to fit a UDP datagram. *)
Theorem error_free_run_of_ten (packetSize d : Z) (fuel : nat) :
  0 <= packetSize <= 65498 ->
  0 <= d ->
  2 * d < MilliSeconds 500 ->
  (32 <= fuel)%nat ->
  exists w,
    Scenario.Run fuel
      (Scenario.setup Scenario.serverAddress 10 packetSize (Seconds 1)
         (MilliSeconds 500) (Seconds 30) d Scenario.errorFree) = Some (Done w)
    /\ ReliableClient.m_totalPacketsSent (Scenario.client w) = 10
    /\ Scenario.acksReceived w = 10
    /\ ReliableClient.m_retransmissions (Scenario.client w) = 0
    /\ ReliableClient.m_totalBytesSent (Scenario.client w) = 10 * (packetSize + 9).
Proof.
  intros Hp Hd Hrtt Hfuel.
  destruct (run_completes packetSize d Hp Hrtt fuel Hfuel)
    as (w & Hrun & Hsent & Hacks & Hretx & Hbytes & _).
  exists w. repeat split; assumption.
Qed.

Lemma error_free_run_of_ten_witness :
  exists w,
    Scenario.Run 32
      (Scenario.setup Scenario.serverAddress 10 1024 (Seconds 1)
         (MilliSeconds 500) (Seconds 30) (MilliSeconds 2) Scenario.errorFree)
    = Some (Done w)
    /\ ReliableClient.m_totalPacketsSent (Scenario.client w) = 10
    /\ Scenario.acksReceived w = 10
    /\ ReliableClient.m_retransmissions (Scenario.client w) = 0
    /\ ReliableClient.m_totalBytesSent (Scenario.client w) = 10 * (1024 + 9).
Proof.
  apply (error_free_run_of_ten 1024 (MilliSeconds 2) 32);
    unfold MilliSeconds; lia.
Defined.

(** * Further properties of the code *)

(** ** Arithmetic modulo 2^32 *)

Lemma wrap32_add_l (a b : Z) : wrap32 (wrap32 a + b) = wrap32 (a + b).
Proof. unfold wrap32. apply Z.add_mod_idemp_l. lia. Qed.

Lemma wrap32_mul_l (a b : Z) : wrap32 (wrap32 a * b) = wrap32 (a * b).
Proof. unfold wrap32. apply Z.mul_mod_idemp_l. lia. Qed.

Lemma Some_eq {A : Type} (a b : A) : Some a = Some b -> a = b.
Proof. intros H. injection H as H. exact H. Qed.

(** ** The codec on arbitrary bytes *)

Lemma Z_of_byte_bounds (b : byte) : 0 <= Z_of_byte b < 256.
Proof. unfold Z_of_byte. pose proof (Byte.to_N_bounded b). lia. Qed.

Lemma byte_of_Z_of_byte (b : byte) : byte_of_Z (Z_of_byte b) = b.
Proof.
  unfold byte_of_Z. rewrite Z.mod_small by apply Z_of_byte_bounds.
  unfold Z_of_byte. rewrite N2Z.id, Byte.of_to_N. reflexivity.
Qed.

Lemma ntoh_value (b3 b2 b1 b0 : Z) :
  0 <= b3 < 256 -> 0 <= b2 < 256 -> 0 <= b1 < 256 -> 0 <= b0 < 256 ->
  Z.lor (wrap32 (Z.shiftl
    (Z.lor (wrap32 (Z.shiftl
      (Z.lor (wrap32 (Z.shiftl (Z.lor 0 b3) 8)) b2) 8)) b1) 8)) b0
  = ((b3 * 256 + b2) * 256 + b1) * 256 + b0.
Proof.
  intros H3 H2 H1 H0. rewrite Z.lor_0_l.
  rewrite (lor_wrap_shiftl_8 b3) by lia.
  rewrite (lor_wrap_shiftl_8 (_ + _)) by lia.
  rewrite (lor_wrap_shiftl_8 (_ + _)) by lia.
  reflexivity.
Qed.

Lemma RemoveHeader_bytes (a3 a2 a1 a0 c3 c2 c1 c0 f : byte) (rest : Packet) :
  RemoveHeader (a3 :: a2 :: a1 :: a0 :: c3 :: c2 :: c1 :: c0 :: f :: rest)
  = Done (mkHeader
            (be32 (Z_of_byte a3) (Z_of_byte a2) (Z_of_byte a1) (Z_of_byte a0))
            (be32 (Z_of_byte c3) (Z_of_byte c2) (Z_of_byte c1) (Z_of_byte c0))
            (Z_of_byte f =? 1),
          rest).
Proof.
  unfold RemoveHeader, Deserialize, ReadNtohU32, Begin, bind, ReadU8, ret.
  cbn [data current nth_error skipn GetSerializedSize Nat.add].
  rewrite !ntoh_value by apply Z_of_byte_bounds. reflexivity.
Qed.

Lemma be32_u32 (b3 b2 b1 b0 : byte) :
  u32 (be32 (Z_of_byte b3) (Z_of_byte b2) (Z_of_byte b1) (Z_of_byte b0)).
Proof.
  pose proof (Z_of_byte_bounds b3). pose proof (Z_of_byte_bounds b2).
  pose proof (Z_of_byte_bounds b1). pose proof (Z_of_byte_bounds b0).
  unfold u32, be32. change (2 ^ 32) with 4294967296. lia.
Qed.

Lemma RemoveHeader_long (p : Packet) :
  (9 <= length p)%nat -> exists h rest, RemoveHeader p = Done (h, rest).
Proof.
  intros Hlen.
  do 9 (destruct p as [|? p]; [simpl in Hlen; lia|]).
  rewrite RemoveHeader_bytes. do 2 eexists. reflexivity.
Qed.

(** X1. [RemoveHeader] decodes every packet of at least nine bytes, whatever
    the bytes are: it returns a header whose two numbers are 32-bit values
    and the packet without its first nine bytes.  With [RemoveHeader_short]
    this makes the length the only cause of a read past the end. *)
Theorem decode_of_nine_bytes (p : Packet) :
  (9 <= length p)%nat ->
  exists h, RemoveHeader p = Done (h, skipn 9 p) /\ valid_header h.
Proof.
  intros Hlen.
  do 9 (destruct p as [|? p]; [simpl in Hlen; lia|]).
  rewrite RemoveHeader_bytes. eexists. split; [reflexivity|].
  split; apply be32_u32.
Qed.

Lemma decode_of_nine_bytes_witness :
  exists h,
    RemoveHeader [xff; xff; xff; xff; x00; x00; x00; x2a; x07; x61]
    = Done (h, skipn 9 [xff; xff; xff; xff; x00; x00; x00; x2a; x07; x61])
    /\ valid_header h.
Proof.
  apply (decode_of_nine_bytes [xff; xff; xff; xff; x00; x00; x00; x2a; x07; x61]).
  simpl. lia.
Defined.

Lemma hton_bytes (b3 b2 b1 b0 : byte) (out : list byte) :
  WriteHtonU32 (be32 (Z_of_byte b3) (Z_of_byte b2) (Z_of_byte b1) (Z_of_byte b0)) out
  = out ++ [b3; b2; b1; b0].
Proof.
  pose proof (Z_of_byte_bounds b3) as H3. pose proof (Z_of_byte_bounds b2) as H2.
  pose proof (Z_of_byte_bounds b1) as H1. pose proof (Z_of_byte_bounds b0) as H0.
  rewrite <- (byte_of_Z_of_byte b3) at 2. rewrite <- (byte_of_Z_of_byte b2) at 2.
  rewrite <- (byte_of_Z_of_byte b1) at 2. rewrite <- (byte_of_Z_of_byte b0) at 2.
  unfold be32.
  generalize dependent (Z_of_byte b3). generalize dependent (Z_of_byte b2).
  generalize dependent (Z_of_byte b1). generalize dependent (Z_of_byte b0).
  intros z0 H0 z1 H1 z2 H2 z3 H3.
  unfold WriteHtonU32, WriteU8.
  change 255 with (Z.ones 8). rewrite !Z.land_ones by lia.
  rewrite !Z.shiftr_div_pow2 by lia.
  change (2 ^ 0) with 1. change (2 ^ 8) with 256.
  change (2 ^ 16) with (256 * 256). change (2 ^ 24) with (256 * 256 * 256).
  rewrite <- !Z.div_div by lia. rewrite Z.div_1_r.
  set (v := ((z3 * 256 + z2) * 256 + z1) * 256 + z0).
  assert (E3 : (v / 256 / 256 / 256) mod 256 = z3)
    by (subst v; Z.to_euclidean_division_equations; lia).
  assert (E2 : (v / 256 / 256) mod 256 = z2)
    by (subst v; Z.to_euclidean_division_equations; lia).
  assert (E1 : (v / 256) mod 256 = z1)
    by (subst v; Z.to_euclidean_division_equations; lia).
  assert (E0 : v mod 256 = z0)
    by (subst v; Z.to_euclidean_division_equations; lia).
  rewrite E3, E2, E1, E0, <- !app_assoc. reflexivity.
Qed.

(** X2. Decoding and encoding again gives back the packet exactly when its
    flag byte is 0 or 1: [Deserialize] reads every other flag byte as
    "not an acknowledgment" and [Serialize] writes that as 0, so the codec
    is not injective on the bytes of the wire. *)
Theorem encode_of_decode (p : Packet) (h : ReliableHeader) (rest : Packet) :
  RemoveHeader p = Done (h, rest) ->
  (AddHeader h rest = p <-> nth_error p 8 = Some x00 \/ nth_error p 8 = Some x01).
Proof.
  intros Hdec.
  destruct (Nat.lt_ge_cases (length p) 9) as [Hshort|Hlong].
  { rewrite RemoveHeader_short in Hdec by exact Hshort. discriminate. }
  do 9 (destruct p as [|? p]; [simpl in Hlong; lia|]).
  clear Hlong. rewrite RemoveHeader_bytes in Hdec.
  inversion Hdec; subst; clear Hdec.
  unfold AddHeader, Serialize. cbn [m_sequenceNumber m_ackNumber m_isAck].
  rewrite !hton_bytes. unfold WriteU8. cbn [app nth_error].
  split.
  - intros E. inversion E as [E7].
    destruct (Z_of_byte b7 =? 1); [right | left]; reflexivity.
  - intros [E|E]; inversion E; subst; reflexivity.
Qed.

Lemma encode_of_decode_witness :
  AddHeader (mkHeader 4294967295 42 false) [x61]
  = [xff; xff; xff; xff; x00; x00; x00; x2a; x07; x61]
  <-> nth_error [xff; xff; xff; xff; x00; x00; x00; x2a; x07; x61] 8 = Some x00
      \/ nth_error [xff; xff; xff; xff; x00; x00; x00; x2a; x07; x61] 8 = Some x01.
Proof.
  apply (encode_of_decode [xff; xff; xff; xff; x00; x00; x00; x2a; x07; x61]
           (mkHeader 4294967295 42 false) [x61]).
  vm_compute. reflexivity.
Defined.

(** ** The receiver on a whole socket *)

Section ReceiverOrder.
Import ReliableServer.

Lemma RemoveHeader_done (p : Packet) (h : ReliableHeader) (rest : Packet) :
  RemoveHeader p = Done (h, rest) ->
  (9 <= length p)%nat /\ valid_header h /\ GetSize rest = GetSize p - 9.
Proof.
  intros Hdec.
  destruct (Nat.lt_ge_cases (length p) 9) as [Hshort|Hlong].
  { rewrite RemoveHeader_short in Hdec by exact Hshort. discriminate. }
  split; [exact Hlong|].
  do 9 (destruct p as [|? p]; [simpl in Hlong; lia|]).
  rewrite RemoveHeader_bytes in Hdec. injection Hdec as <- <-.
  split; [split; apply be32_u32|].
  unfold GetSize. cbn [length]. lia.
Qed.

Lemma seq_shift_map {A : Type} (f : nat -> A) (n : nat) :
  map f (seq 1 n) = map (fun i => f (S i)) (seq 0 n).
Proof. rewrite <- seq_shift, map_map. reflexivity. Qed.

Lemma HandleRead_in_sequence (socket : list (Packet * Address)) :
  forall s s' out,
    u32 (m_expectedSequence s) -> u32 (m_totalPacketsReceived s) ->
    u32 (m_totalBytesReceived s) ->
    HandleRead socket s = Done (s', out) ->
    map snd out
    = map (fun i => ack_packet (wrap32 (m_expectedSequence s + Z.of_nat i)))
          (seq 0 (length out))
    /\ m_expectedSequence s' = wrap32 (m_expectedSequence s + Z.of_nat (length out))
    /\ m_totalPacketsReceived s'
       = wrap32 (m_totalPacketsReceived s + Z.of_nat (length out))
    /\ m_totalBytesReceived s'
       = wrap32 (m_totalBytesReceived s
                 + fold_right Z.add 0 (map (fun rx => GetSize (fst rx) - 9) socket))
    /\ incl (map fst out) (map snd socket)
    /\ Forall (fun rx => (9 <= length (fst rx))%nat) socket.
Proof.
  induction socket as [|[p from] socket IH]; intros s s' out Hexp Hrecv Hbytes Hrun.
  - cbn [HandleRead] in Hrun. injection Hrun as <- <-. cbn.
    rewrite !Z.add_0_r, !wrap32_small by assumption.
    repeat (split; [reflexivity|]). split; [apply incl_nil_l | constructor].
  - cbn [HandleRead] in Hrun. unfold HandleRead_one in Hrun.
    destruct (RemoveHeader p) as [[h rest]|] eqn:Hdec; [|discriminate].
    destruct (RemoveHeader_done p h rest Hdec) as (Hlen & [Hseq _] & Hsize).
    cbn [m_expectedSequence m_totalPacketsReceived m_totalBytesReceived] in Hrun.
    cbn [map fold_right fst snd]. rewrite <- Hsize.
    destruct (m_isAck h); cbn [negb] in Hrun;
      [|destruct (Z.eqb_spec (m_sequenceNumber h) (m_expectedSequence s))
          as [Heq|Hne]].
    + (* an acknowledgment: only its bytes are counted *)
      destruct (HandleRead socket _) as [[s1 out1]|] eqn:Hrest; [|discriminate].
      injection Hrun as <- <-. cbn [app].
      apply IH in Hrest; [|exact Hexp|exact Hrecv|apply wrap32_u32].
      destruct Hrest as (H1 & H2 & H3 & H4 & H5 & H6).
      cbn [m_expectedSequence m_totalPacketsReceived m_totalBytesReceived]
        in H1, H2, H3, H4.
      split; [exact H1|]. split; [exact H2|]. split; [exact H3|].
      split; [rewrite H4, wrap32_add_l; f_equal; lia|].
      split; [apply incl_tl; exact H5|]. constructor; assumption.
    + (* the expected segment *)
      destruct (HandleRead socket _) as [[s1 out1]|] eqn:Hrest; [|discriminate].
      injection Hrun as <- <-. cbn [app length map fst snd].
      apply IH in Hrest; try apply wrap32_u32.
      destruct Hrest as (H1 & H2 & H3 & H4 & H5 & H6).
      cbn [m_expectedSequence m_totalPacketsReceived m_totalBytesReceived]
        in H1, H2, H3, H4.
      split.
      { cbn [seq map]. rewrite seq_shift_map, H1. f_equal.
        - rewrite Heq, Z.add_0_r, wrap32_small by exact Hexp. reflexivity.
        - apply map_ext. intros i. rewrite wrap32_add_l. do 2 f_equal. lia. }
      split; [rewrite H2, wrap32_add_l; f_equal; lia|].
      split; [rewrite H3, wrap32_add_l; f_equal; lia|].
      split; [rewrite H4, wrap32_add_l; f_equal; lia|].
      split; [|constructor; assumption].
      intros a [<-|Ha]; [left; reflexivity | right; apply H5; exact Ha].
    + (* any other segment *)
      destruct (HandleRead socket _) as [[s1 out1]|] eqn:Hrest; [|discriminate].
      injection Hrun as <- <-. cbn [app].
      apply IH in Hrest; [|exact Hexp|exact Hrecv|apply wrap32_u32].
      destruct Hrest as (H1 & H2 & H3 & H4 & H5 & H6).
      cbn [m_expectedSequence m_totalPacketsReceived m_totalBytesReceived]
        in H1, H2, H3, H4.
      split; [exact H1|]. split; [exact H2|]. split; [exact H3|].
      split; [rewrite H4, wrap32_add_l; f_equal; lia|].
      split; [apply incl_tl; exact H5|]. constructor; assumption.
Qed.

Lemma HandleRead_total (socket : list (Packet * Address)) :
  forall s,
    Forall (fun rx => (9 <= length (fst rx))%nat) socket ->
    exists s' out, HandleRead socket s = Done (s', out).
Proof.
  induction socket as [|[p from] socket IH]; intros s Hall.
  - do 2 eexists. reflexivity.
  - inversion Hall as [|rx l Hp Hrest]; subst. cbn [fst] in Hp.
    destruct (RemoveHeader_long p Hp) as (h & rest & Hdec).
    cbn [HandleRead]. unfold HandleRead_one. rewrite Hdec.
    destruct (negb (m_isAck h));
      [destruct (m_sequenceNumber h =? m_expectedSequence _)|];
      match goal with
      | |- context [HandleRead socket ?s1] =>
          destruct (IH s1 Hrest) as (s' & out & ->)
      end; do 2 eexists; reflexivity.
Qed.
End ReceiverOrder.

(** X17. [ReliableServer::HandleRead] on everything the socket holds, every
    packet at least nine bytes long: it returns, and the acknowledgments it
    sends carry the consecutive numbers from [m_expectedSequence] on, each
    once and each to an address a packet came from; the expected number and
    the packet counter advance by the number of acknowledgments, and the
    byte counter by the payload of every packet read, acknowledged or not
    (all modulo 2^32). *)
Theorem receiver_acknowledges_in_order (socket : list (Packet * Address))
    (s : ReliableServer.t) :
  u32 (ReliableServer.m_expectedSequence s) ->
  u32 (ReliableServer.m_totalPacketsReceived s) ->
  u32 (ReliableServer.m_totalBytesReceived s) ->
  Forall (fun rx => (9 <= length (fst rx))%nat) socket ->
  exists s' out,
    ReliableServer.HandleRead socket s = Done (s', out)
    /\ map snd out
       = map (fun i => ack_packet
                         (wrap32 (ReliableServer.m_expectedSequence s + Z.of_nat i)))
             (seq 0 (length out))
    /\ incl (map fst out) (map snd socket)
    /\ ReliableServer.m_expectedSequence s'
       = wrap32 (ReliableServer.m_expectedSequence s + Z.of_nat (length out))
    /\ ReliableServer.m_totalPacketsReceived s'
       = wrap32 (ReliableServer.m_totalPacketsReceived s + Z.of_nat (length out))
    /\ ReliableServer.m_totalBytesReceived s'
       = wrap32 (ReliableServer.m_totalBytesReceived s
                 + fold_right Z.add 0
                     (map (fun rx => GetSize (fst rx) - 9) socket)).
Proof.
  intros Hexp Hrecv Hbytes Hall.
  destruct (HandleRead_total socket s Hall) as (s' & out & Hrun).
  exists s', out. split; [exact Hrun|].
  destruct (HandleRead_in_sequence socket s s' out Hexp Hrecv Hbytes Hrun)
    as (H1 & H2 & H3 & H4 & H5 & _).
  repeat (split; [assumption|]). assumption.
Qed.

Lemma receiver_acknowledges_in_order_witness :
  let socket := [(data_packet 0 4, Scenario.clientAddress);
                 (data_packet 0 4, Scenario.clientAddress);
                 (data_packet 1 2, Scenario.clientAddress);
                 (ack_packet 5, Scenario.serverAddress);
                 (data_packet 3 2, Scenario.clientAddress)] in
  exists s' out,
    ReliableServer.HandleRead socket ReliableServer.new = Done (s', out)
    /\ map snd out
       = map (fun i => ack_packet
                         (wrap32 (ReliableServer.m_expectedSequence ReliableServer.new
                                  + Z.of_nat i)))
             (seq 0 (length out))
    /\ incl (map fst out) (map snd socket)
    /\ ReliableServer.m_expectedSequence s'
       = wrap32 (ReliableServer.m_expectedSequence ReliableServer.new
                 + Z.of_nat (length out))
    /\ ReliableServer.m_totalPacketsReceived s'
       = wrap32 (ReliableServer.m_totalPacketsReceived ReliableServer.new
                 + Z.of_nat (length out))
    /\ ReliableServer.m_totalBytesReceived s'
       = wrap32 (ReliableServer.m_totalBytesReceived ReliableServer.new
                 + fold_right Z.add 0
                     (map (fun rx => GetSize (fst rx) - 9) socket)).
Proof.
  intros socket.
  apply (receiver_acknowledges_in_order socket ReliableServer.new);
    try (unfold u32; simpl; lia).
  repeat constructor; simpl; lia.
Defined.

(** ** The stop-and-wait sender: its schedule *)

Section SenderSchedule.
Import ReliableClient Sender.
Variable SendTo : Address * Packet -> Z.

Lemma singleton_split {A : Type} (before after : list A) (e x : A) :
  [x] = before ++ e :: after -> before = [] /\ after = [] /\ e = x.
Proof.
  destruct before as [|b before]; cbn; intros H.
  - inversion H; subst. auto.
  - inversion H as [[Hb Hrest]]. destruct before; discriminate.
Qed.

Lemma names_fresh (timer : Simulator.EventId) (uid : nat) (tm : Z) (e : Event) :
  (forall id, timer = Some id -> (id < uid)%nat) ->
  Simulator.names timer (Simulator.mkScheduled tm uid e) = false.
Proof.
  intros Hlt. destruct timer as [id|]; [|reflexivity].
  cbn [Simulator.names Simulator.uid]. apply Nat.eqb_neq.
  specialize (Hlt id eq_refl). lia.
Qed.

Lemma invoke_schedule_shape e c now uid s' c' out :
  schedule_shape c (Simulator.mk now uid [e]) ->
  invoke SendTo (Simulator.impl e) c (Simulator.mk now uid []) = Some (c', s', out) ->
  schedule_shape c' s'.
Proof.
  intros [Hid Hshape] Hcall. unfold invoke in Hcall.
  cbn [Simulator.next_uid] in Hid.
  destruct Hshape as [[Hidle [[Hnil _]|(x & Hx & Hsp & _)]]
                     |(Hw & tm & id & Hq & Htimer)];
    cbn [Simulator.events] in *.
  - discriminate.
  - inversion Hx; subst x; clear Hx. unfold spawns in Hsp.
    destruct (Simulator.impl e) eqn:He; try discriminate.
    + cbn in Hcall. inversion Hcall; subst; clear Hcall.
      split; [intros id Hsome; specialize (Hid id Hsome);
              cbn [Simulator.next_uid]; lia|].
      left. split; [exact Hidle|]. right. eexists.
      split; [reflexivity|]. split; [reflexivity|].
      apply names_fresh. exact Hid.
    + unfold SendPacket in Hcall.
      destruct (Z.leb_spec (m_maxPackets c) (m_nextSequence c)) as [Hclosed|Hopen];
        inversion Hcall; subst; clear Hcall.
      * split; [exact Hid|].
        left. split; [exact Hidle|]. left. split; [reflexivity | exact Hclosed].
      * split; [intros id Hsome; inversion Hsome; subst;
                cbn [Simulator.next_uid]; lia|].
        right. split; [reflexivity|]. do 2 eexists.
        split; reflexivity.
  - inversion Hq; subst e; clear Hq. cbn [Simulator.impl] in Hcall.
    unfold TimeoutHandler in Hcall. rewrite Hw, Z.eqb_refl in Hcall.
    cbn [andb] in Hcall. inversion Hcall; subst; clear Hcall.
    split; [intros id' Hsome; inversion Hsome; subst;
            cbn [Simulator.next_uid]; lia|].
    right. split; [reflexivity|]. do 2 eexists. split; reflexivity.
Qed.

Lemma HandleRead_one_schedule_shape rx c now uid q c' s' :
  schedule_shape c (Simulator.mk now uid q) ->
  HandleRead_one rx c (Simulator.mk now uid q) = Done (c', s') ->
  schedule_shape c' s' /\ Simulator.Now s' = now.
Proof.
  intros Hshape. unfold HandleRead_one. destruct rx as [p from].
  destruct (RemoveHeader p) as [[h rest]|]; [|discriminate].
  destruct (m_isAck h);
    [|intros H; inversion H; subst; split; [exact Hshape | reflexivity]].
  destruct (m_waitingForAck c && (m_ackNumber h =? m_pendingAckSequence c))
    eqn:Hact; intros H; inversion H; subst; clear H;
    [|split; [exact Hshape | reflexivity]].
  apply andb_prop in Hact. destruct Hact as [Hw _].
  destruct Hshape as [Hid [[Hidle _]|(_ & tm & id & Hq & Htimer)]]; [congruence|].
  cbn [Simulator.events Simulator.next_uid] in *. subst q. rewrite Htimer.
  unfold Simulator.IsPending. cbn [Simulator.events existsb Simulator.names Simulator.uid].
  rewrite Nat.eqb_refl. cbn [orb].
  unfold Simulator.Cancel.
  cbn [Simulator.events filter Simulator.names Simulator.uid Simulator.Schedule snd
       Simulator.Now Simulator.next_uid].
  rewrite Nat.eqb_refl. cbn [negb Simulator.insert].
  split; [|reflexivity]. split.
  - cbn [m_timerEvent Simulator.next_uid]. intros id' Hsome.
    inversion Hsome; subst id'. specialize (Hid id Htimer). lia.
  - left. split; [reflexivity|]. right. eexists.
    split; [reflexivity|]. split; [reflexivity|].
    cbn [m_timerEvent]. apply names_fresh.
    intros id' Hsome. inversion Hsome; subst id'. apply (Hid id Htimer).
Qed.

Lemma HandleRead_schedule_shape socket : forall c now uid q c' s' out,
  schedule_shape c (Simulator.mk now uid q) ->
  HandleRead socket c (Simulator.mk now uid q) = Done (c', s', out) ->
  schedule_shape c' s'.
Proof.
  induction socket as [|rx socket IH]; intros c now uid q c' s' out Hshape H.
  - inversion H; subst. exact Hshape.
  - cbn [HandleRead] in H.
    destruct (HandleRead_one rx c (Simulator.mk now uid q)) as [[c1 s1]|] eqn:E1;
      [|discriminate].
    apply (HandleRead_one_schedule_shape _ _ _ _ _ _ _ Hshape) in E1.
    destruct E1 as [E1 _].
    destruct s1 as [now1 uid1 q1]. apply (IH _ _ _ _ _ _ _ E1 H).
Qed.

Lemma reachable_schedule_shape peer maxPackets interval packetSize timeout st :
  reachable SendTo (new peer maxPackets interval packetSize timeout) st ->
  schedule_shape (client st) (sim st).
Proof.
  induction 1 as [|st st' _ IH Hstep].
  - split; [discriminate|].
    left. split; [reflexivity|]. right. eexists.
    split; [reflexivity|]. split; reflexivity.
  - destruct Hstep as [st before e after c s out Hq Hcall
                      | st now socket c s out Hcall]; cbn [client sim].
    + assert (Hone : before = [] /\ after = []).
      { destruct IH as [_ [[_ [[Hnil _]|(x & Hx & _)]]|(_ & t & id & Hx & _)]];
          rewrite Hq in *.
        - destruct before; discriminate.
        - symmetry in Hx. apply singleton_split in Hx. tauto.
        - symmetry in Hx. apply singleton_split in Hx. tauto. }
      destruct Hone as [-> ->]. cbn [app] in *.
      refine (invoke_schedule_shape e _ (Simulator.ts e)
                (Simulator.next_uid (sim st)) _ _ _ _ Hcall).
      destruct (sim st) as [now0 uid0 q0]. cbn [Simulator.events] in Hq.
      subst q0. exact IH.
    + refine (HandleRead_schedule_shape _ _ _ _ _ _ _ _ _ Hcall).
      destruct (sim st) as [now0 uid0 q0]. exact IH.
Qed.
End SenderSchedule.

Lemma reachable_fire (SendTo : Address * Packet -> Z) (c0 : ReliableClient.t)
    (st : Sender.State) :
  Sender.reachable SendTo c0 st ->
  Sender.reachable SendTo c0 (Sender.fire SendTo st).
Proof.
  intros Hreach. unfold Sender.fire.
  destruct (Simulator.events (Sender.sim st)) as [|e rest] eqn:Hq;
    [exact Hreach|].
  destruct (Sender.invoke SendTo (Simulator.impl e) (Sender.client st) _)
    as [[[c s] out]|] eqn:Hcall; [|exact Hreach].
  eapply Sender.reachable_step; [exact Hreach|].
  apply (Sender.step_event SendTo st [] e rest c s out Hq Hcall).
Qed.

Lemma reachable_fires (SendTo : Address * Packet -> Z) (n : nat)
    (c0 : ReliableClient.t) :
  Sender.reachable SendTo c0 (Nat.iter n (Sender.fire SendTo) (Sender.initial c0)).
Proof.
  induction n as [|n IH]; [apply Sender.reachable_initial|].
  rewrite Nat.iter_succ. apply reachable_fire. exact IH.
Qed.

(** X3. In every state the stop-and-wait client reaches, at most one of its
    events is pending.  While it awaits an acknowledgment, that event is the
    timeout of the awaited sequence number and [m_timerEvent] names it; and
    when nothing is pending, nothing is awaited and the sequence limit is
    reached, so the client only falls silent after its last packet is
    acknowledged. *)
Theorem sender_schedule (SendTo : Address * Packet -> Z)
    (peer : Address) (maxPackets interval packetSize timeout : Z)
    (st : Sender.State) :
  Sender.reachable SendTo
    (ReliableClient.new peer maxPackets interval packetSize timeout) st ->
  (length (Simulator.events (Sender.sim st)) <= 1)%nat
  /\ (ReliableClient.m_waitingForAck (Sender.client st) = true ->
      exists t id,
        Simulator.events (Sender.sim st)
        = [Simulator.mkScheduled t id
             (EvTimeoutHandler (ReliableClient.m_pendingAckSequence (Sender.client st)))]
        /\ ReliableClient.m_timerEvent (Sender.client st) = Some id)
  /\ (Simulator.events (Sender.sim st) = [] ->
      ReliableClient.m_waitingForAck (Sender.client st) = false
      /\ ReliableClient.m_maxPackets (Sender.client st)
         <= ReliableClient.m_nextSequence (Sender.client st)).
Proof.
  intros Hreach.
  pose proof (reachable_schedule_shape SendTo _ _ _ _ _ st Hreach) as [_ Hshape].
  destruct Hshape as [[Hidle [[Hnil Hdone]|(x & Hx & _)]]|(Hw & t & id & Hq & Htimer)].
  - rewrite Hnil. split; [cbn; lia|]. split; [congruence|]. intros _. tauto.
  - rewrite Hx. split; [cbn; lia|]. split; [congruence | discriminate].
  - rewrite Hq. split; [cbn; lia|]. split; [|discriminate].
    intros _. exists t, id. tauto.
Qed.

Lemma sender_schedule_witness :
  let st := Nat.iter 2 (Sender.fire Scenario.SendTo_ok)
              (Sender.initial
                 (ReliableClient.new Scenario.serverAddress 10 (Seconds 1) 4 (MilliSeconds 500))) in
  (length (Simulator.events (Sender.sim st)) <= 1)%nat
  /\ (ReliableClient.m_waitingForAck (Sender.client st) = true ->
      exists t id,
        Simulator.events (Sender.sim st)
        = [Simulator.mkScheduled t id
             (EvTimeoutHandler (ReliableClient.m_pendingAckSequence (Sender.client st)))]
        /\ ReliableClient.m_timerEvent (Sender.client st) = Some id)
  /\ (Simulator.events (Sender.sim st) = [] ->
      ReliableClient.m_waitingForAck (Sender.client st) = false
      /\ ReliableClient.m_maxPackets (Sender.client st)
         <= ReliableClient.m_nextSequence (Sender.client st)).
Proof.
  intros st.
  apply (sender_schedule Scenario.SendTo_ok Scenario.serverAddress 10 (Seconds 1) 4 (MilliSeconds 500) st).
  apply (reachable_fires Scenario.SendTo_ok 2).
Defined.

(** X4. [ReliableClient::StopApplication], called in any state the client
    reaches, cancels the timeout that is pending and nothing else: right
    after it no timeout is scheduled, and a pending [SendPacket] stays
    scheduled.  So it does not stop the client: a [SendPacket] that is
    pending at the stop still fires when the gate is open, sends the next
    sequence number and arms a new timer, and that timeout retransmits. *)
Theorem stop_cancels_only_the_timer (SendTo : Address * Packet -> Z)
    (peer : Address) (maxPackets interval packetSize timeout : Z)
    (st : Sender.State) :
  Sender.reachable SendTo
    (ReliableClient.new peer maxPackets interval packetSize timeout) st ->
  (forall x seq,
      In x (Simulator.events (Sender.sim (Sender.stopped st))) ->
      Simulator.impl x <> EvTimeoutHandler seq)
  /\ Sender.pending_sends (Simulator.events (Sender.sim (Sender.stopped st)))
     = Sender.pending_sends (Simulator.events (Sender.sim st))
  /\ (forall t id,
        Simulator.events (Sender.sim st) = [Simulator.mkScheduled t id EvSendPacket] ->
        ReliableClient.m_nextSequence (Sender.client st)
        < ReliableClient.m_maxPackets (Sender.client st) ->
        let later := Nat.iter 2 (Sender.fire SendTo) (Sender.stopped st) in
        ReliableClient.m_retransmissions (Sender.client later)
        = wrap32 (ReliableClient.m_retransmissions (Sender.client st) + 1)
        /\ Sender.trace later
           = Sender.Tx (ReliableClient.m_nextSequence (Sender.client st))
             :: Sender.Tx (ReliableClient.m_nextSequence (Sender.client st))
             :: Sender.trace st
        /\ exists t' id',
             Simulator.events (Sender.sim later)
             = [Simulator.mkScheduled t' id'
                  (EvTimeoutHandler
                     (ReliableClient.m_nextSequence (Sender.client st)))]).
Proof.
  intros Hreach.
  pose proof (reachable_schedule_shape SendTo _ _ _ _ _ st Hreach) as [_ Hshape].
  pose proof (reachable_invariant SendTo _ _ _ _ _ st Hreach) as (Hu32 & _).
  unfold Sender.stopped. cbn [Sender.sim Sender.client Sender.trace].
  unfold ReliableClient.StopApplication, Simulator.IsPending.
  destruct Hshape as [[Hidle [[Hnil _]|(x & Hx & Hsp & Hfresh)]]
                     |(Hw & tm & id & Hq & Htimer)].
  - rewrite Hnil. cbn [existsb]. rewrite Hnil.
    split; [intros y seq [] | split; [reflexivity|]].
    intros t id Hq. discriminate.
  - rewrite Hx. cbn [existsb]. rewrite Hfresh. cbn [orb]. rewrite Hx.
    split; [|split; [reflexivity|]].
    { intros y seq [<-|[]] E. unfold Sender.spawns in Hsp. rewrite E in Hsp.
      discriminate. }
    intros t id Hq Hopen. injection Hq as ->.
    destruct st as [c [now uid q] tr].
    cbn [Sender.sim Sender.client Sender.trace Simulator.events] in *. subst q.
    cbn zeta. unfold Nat.iter. cbn [nat_rect]. unfold Sender.fire.
    cbn [Sender.sim Sender.client Sender.trace Simulator.events Simulator.impl
         Simulator.ts Simulator.next_uid Sender.invoke].
    unfold ReliableClient.SendPacket.
    replace (ReliableClient.m_maxPackets c <=? ReliableClient.m_nextSequence c)
      with false by (symmetry; apply Z.leb_gt; lia).
    cbn [Simulator.Schedule Simulator.insert Simulator.events Simulator.Now
         Simulator.next_uid Sender.sim Sender.client Sender.trace Simulator.impl
         Simulator.ts Sender.invoke].
    unfold ReliableClient.TimeoutHandler.
    cbn [ReliableClient.m_waitingForAck ReliableClient.m_pendingAckSequence
         andb].
    rewrite Z.eqb_refl.
    cbn [Simulator.Schedule Simulator.insert Simulator.events Simulator.Now
         Simulator.next_uid Sender.client Sender.sim Sender.trace
         ReliableClient.m_retransmissions].
    split; [reflexivity|]. split.
    + unfold Sender.tx_of. cbn [flat_map snd app rev].
      repeat (rewrite (RemoveHeader_AddHeader _ _)
                by (split; cbn; [exact Hu32 | unfold u32; lia]);
              cbn [m_isAck m_sequenceNumber SetIsAck SetSequenceNumber
                   ReliableHeader_new app rev]).
      reflexivity.
    + eexists _, _. reflexivity.
  - rewrite Hq, Htimer.
    cbn [existsb Simulator.names Simulator.uid]. rewrite Nat.eqb_refl. cbn [orb].
    cbn [Simulator.Cancel Simulator.events]. rewrite Hq.
    cbn [filter Simulator.names Simulator.uid]. rewrite Nat.eqb_refl. cbn [negb].
    split; [intros y seq [] | split; [reflexivity|]].
    intros t id' E. discriminate.
Qed.

Lemma stop_cancels_only_the_timer_witness :
  let st := Nat.iter 1 (Sender.fire Scenario.SendTo_ok)
              (Sender.initial
                 (ReliableClient.new Scenario.serverAddress 10 (Seconds 1) 4
                    (MilliSeconds 500))) in
  (forall x seq,
      In x (Simulator.events (Sender.sim (Sender.stopped st))) ->
      Simulator.impl x <> EvTimeoutHandler seq)
  /\ Sender.pending_sends (Simulator.events (Sender.sim (Sender.stopped st)))
     = Sender.pending_sends (Simulator.events (Sender.sim st))
  /\ (forall t id,
        Simulator.events (Sender.sim st) = [Simulator.mkScheduled t id EvSendPacket] ->
        ReliableClient.m_nextSequence (Sender.client st)
        < ReliableClient.m_maxPackets (Sender.client st) ->
        let later := Nat.iter 2 (Sender.fire Scenario.SendTo_ok) (Sender.stopped st) in
        ReliableClient.m_retransmissions (Sender.client later)
        = wrap32 (ReliableClient.m_retransmissions (Sender.client st) + 1)
        /\ Sender.trace later
           = Sender.Tx (ReliableClient.m_nextSequence (Sender.client st))
             :: Sender.Tx (ReliableClient.m_nextSequence (Sender.client st))
             :: Sender.trace st
        /\ exists t' id',
             Simulator.events (Sender.sim later)
             = [Simulator.mkScheduled t' id'
                  (EvTimeoutHandler
                     (ReliableClient.m_nextSequence (Sender.client st)))]).
Proof.
  intros st.
  apply (stop_cancels_only_the_timer Scenario.SendTo_ok Scenario.serverAddress
           10 (Seconds 1) 4 (MilliSeconds 500) st).
  apply (reachable_fires Scenario.SendTo_ok 1).
Defined.

(** A [SendPacket] is pending right after the start, before the first
    packet, and between an acknowledgment and the next packet: the state the
    stop has to meet for the client to go on. *)
Lemma retransmission_after_stop :
  let st := Nat.iter 1 (Sender.fire Scenario.SendTo_ok)
              (Sender.initial
                 (ReliableClient.new Scenario.serverAddress 10 (Seconds 1) 4
                    (MilliSeconds 500))) in
  let later := Nat.iter 2 (Sender.fire Scenario.SendTo_ok) (Sender.stopped st) in
  ReliableClient.m_retransmissions (Sender.client st) = 0
  /\ ReliableClient.m_retransmissions (Sender.client later) = 1
  /\ Sender.trace later = [Sender.Tx 0; Sender.Tx 0].
Proof. repeat split. Qed.

(** ** The stop-and-wait sender: its counters *)

Section SenderCounters.
Import ReliableClient Sender.
Variable SendTo : Address * Packet -> Z.

Variable packetSize : Z.
Hypothesis HpacketSize : 0 <= packetSize.

Lemma data_packet_size (h : ReliableHeader) :
  GetSize (AddHeader h (Create packetSize)) = packetSize + 9.
Proof. rewrite GetSize_AddHeader, GetSize_Create by exact HpacketSize. lia. Qed.

Lemma accounted_bytes (total bytes : Z) :
  bytes = wrap32 (total * (packetSize + 9)) ->
  wrap32 (bytes + (packetSize + 9))
  = wrap32 (wrap32 (total + 1) * (packetSize + 9)).
Proof.
  intros Hb. rewrite Hb, wrap32_add_l, wrap32_mul_l. f_equal. lia.
Qed.

Lemma SendPacket_accounted c sim c' sim' out :
  accounted packetSize c -> SendPacket SendTo c sim = (c', sim', out) -> accounted packetSize c'.
Proof.
  intros (Hp & Ht & Hb). unfold SendPacket.
  destruct (m_maxPackets c <=? m_nextSequence c);
    intros H; inversion H; subst c' sim' out; clear H.
  - repeat split; assumption.
  - unfold accounted.
    cbn [m_packetSize m_totalPacketsSent m_nextSequence m_retransmissions
         m_totalBytesSent].
    rewrite Hp, data_packet_size.
    split; [reflexivity|]. split.
    + rewrite Ht, !wrap32_add_l. f_equal. lia.
    + apply accounted_bytes. exact Hb.
Qed.

Lemma TimeoutHandler_accounted seq c sim c' sim' out :
  accounted packetSize c -> TimeoutHandler SendTo seq c sim = (c', sim', out) -> accounted packetSize c'.
Proof.
  intros (Hp & Ht & Hb). unfold TimeoutHandler.
  destruct (m_waitingForAck c && (seq =? m_pendingAckSequence c));
    intros H; inversion H; subst c' sim' out; clear H.
  - unfold accounted.
    cbn [m_packetSize m_totalPacketsSent m_nextSequence m_retransmissions
         m_totalBytesSent].
    rewrite Hp, data_packet_size.
    split; [reflexivity|]. split.
    + rewrite Ht, (Z.add_comm (m_nextSequence c) (wrap32 _)), !wrap32_add_l.
      f_equal. lia.
    + apply accounted_bytes. exact Hb.
  - repeat split; assumption.
Qed.

Lemma HandleRead_one_accounted rx c sim c' sim' :
  accounted packetSize c -> HandleRead_one rx c sim = Done (c', sim') -> accounted packetSize c'.
Proof.
  intros Hacc. unfold HandleRead_one. destruct rx as [p from].
  destruct (RemoveHeader p) as [[h rest]|]; [|discriminate].
  destruct (m_isAck h);
    [destruct (m_waitingForAck c && (m_ackNumber h =? m_pendingAckSequence c))|];
    intros H; inversion H; subst; exact Hacc.
Qed.

Lemma HandleRead_accounted socket : forall c sim c' sim' out,
  accounted packetSize c -> HandleRead socket c sim = Done (c', sim', out) -> accounted packetSize c'.
Proof.
  induction socket as [|rx socket IH]; intros c sim c' sim' out Hacc H.
  - inversion H; subst. exact Hacc.
  - cbn [HandleRead] in H.
    destruct (HandleRead_one rx c sim) as [[c1 s1]|] eqn:E1; [|discriminate].
    apply (HandleRead_one_accounted _ _ _ _ _ Hacc) in E1.
    apply (IH _ _ _ _ _ E1 H).
Qed.

Lemma later_accounted c c' :
  later SendTo c c' -> accounted packetSize c -> accounted packetSize c'.
Proof.
  induction 1 as [c | c c1 s c2 s2 out _ IH Hcall
                    | c c1 seq s c2 s2 out _ IH Hcall
                    | c c1 socket s c2 s2 out _ IH Hcall]; intros Hacc.
  - exact Hacc.
  - apply (SendPacket_accounted _ _ _ _ _ (IH Hacc) Hcall).
  - apply (TimeoutHandler_accounted _ _ _ _ _ _ (IH Hacc) Hcall).
  - apply (HandleRead_accounted _ _ _ _ _ _ (IH Hacc) Hcall).
Qed.
End SenderCounters.

(** X5. After any calls of the client's member functions, its counters agree
    modulo 2^32: the packets sent are the new sequence numbers plus the
    retransmissions, and the bytes sent are [packetSize + 9] for each of
    them, the nine header bytes included. *)
Theorem sender_counters (SendTo : Address * Packet -> Z)
    (peer : Address) (maxPackets interval packetSize timeout : Z)
    (c : ReliableClient.t) :
  0 <= packetSize ->
  Sender.later SendTo
    (ReliableClient.new peer maxPackets interval packetSize timeout) c ->
  ReliableClient.m_totalPacketsSent c
  = wrap32 (ReliableClient.m_nextSequence c + ReliableClient.m_retransmissions c)
  /\ ReliableClient.m_totalBytesSent c
     = wrap32 (ReliableClient.m_totalPacketsSent c * (packetSize + 9)).
Proof.
  intros Hp Hlater.
  destruct (later_accounted SendTo packetSize Hp _ _ Hlater) as (_ & Ht & Hb).
  - repeat split.
  - split; assumption.
Qed.

Lemma sender_counters_witness :
  let c0 := ReliableClient.new Scenario.serverAddress 10 (Seconds 1) 1024 (MilliSeconds 500) in
  let r1 := ReliableClient.SendPacket Scenario.SendTo_ok c0 Simulator.empty in
  let r2 := ReliableClient.TimeoutHandler Scenario.SendTo_ok 0 (fst (fst r1))
              Simulator.empty in
  let c := fst (fst r2) in
  ReliableClient.m_totalPacketsSent c
  = wrap32 (ReliableClient.m_nextSequence c + ReliableClient.m_retransmissions c)
  /\ ReliableClient.m_totalBytesSent c
     = wrap32 (ReliableClient.m_totalPacketsSent c * (1024 + 9)).
Proof.
  intros c0 r1 r2 c.
  apply (sender_counters Scenario.SendTo_ok Scenario.serverAddress 10 (Seconds 1) 1024
           (MilliSeconds 500) c); [lia|].
  apply (Sender.later_timeout Scenario.SendTo_ok c0 (fst (fst r1)) 0
           Simulator.empty c (snd (fst r2)) (snd r2)).
  - apply (Sender.later_send Scenario.SendTo_ok c0 c0 Simulator.empty
             (fst (fst r1)) (snd (fst r1)) (snd r1)).
    + apply Sender.later_now.
    + reflexivity.
  - reflexivity.
Defined.

(** ** The stop-and-wait sender: the sequence numbers on the wire *)

Section SenderOrder.
Import ReliableClient Sender.
Variable SendTo : Address * Packet -> Z.
Variable maxPackets : Z.
Hypothesis Hmax : maxPackets < 2 ^ 32.

Lemma sent_seqs_app (t1 t2 : list Obs) :
  sent_seqs (t1 ++ t2) = sent_seqs t1 ++ sent_seqs t2.
Proof.
  induction t1 as [|[s|a] t1 IH]; cbn [app sent_seqs]; [reflexivity| |exact IH].
  rewrite IH. reflexivity.
Qed.

Lemma sent_seqs_acks (socket : list (Packet * Address)) :
  sent_seqs (rev (acks_of socket)) = [].
Proof.
  assert (H : forall l, Forall (fun o => exists a, o = RxAck a) l -> sent_seqs l = []).
  { induction 1 as [|o l [a ->] _ IH]; [reflexivity | exact IH]. }
  apply H. apply Forall_rev. unfold acks_of.
  apply Forall_flat_map. apply Forall_forall. intros x _.
  destruct (RemoveHeader (fst x)) as [[h rest]|]; [|constructor].
  destruct (m_isAck h); repeat constructor. eexists. reflexivity.
Qed.

Lemma in_order_sent c tr c' seq :
  in_order maxPackets c tr ->
  m_maxPackets c' = maxPackets ->
  0 <= seq < 2 ^ 32 ->
  m_pendingAckSequence c' = seq ->
  (seq = m_nextSequence c /\ m_nextSequence c' = seq + 1 /\ seq < maxPackets
   \/ seq = m_nextSequence c - 1 /\ m_nextSequence c' = m_nextSequence c) ->
  in_order maxPackets c' (Tx seq :: tr).
Proof.
  intros (Hm & H0 & Hle & Hw & Hin & Hsorted) Hm' Hseq Hp Hcase.
  unfold in_order. cbn [sent_seqs].
  split; [exact Hm'|].
  destruct Hcase as [(-> & Hn & Hlt)|(-> & Hn)]; rewrite Hn.
  - split; [lia|]. split; [right; lia|]. split; [intros _; lia|]. split.
    + intros s. cbn [In]. rewrite Hin. lia.
    + constructor; [exact Hsorted|]. apply Forall_forall.
      intros s Hs. apply Hin in Hs. lia.
  - split; [lia|]. split; [exact Hle|]. split; [intros _; lia|]. split.
    + intros s. cbn [In]. rewrite Hin. lia.
    + constructor; [exact Hsorted|]. apply Forall_forall.
      intros s Hs. apply Hin in Hs. lia.
Qed.

Lemma invoke_in_order e c s c' s' out tr :
  in_order maxPackets c tr ->
  invoke SendTo e c s = Some (c', s', out) ->
  in_order maxPackets c' (rev (tx_of out) ++ tr).
Proof.
  intros Hord Hcall. pose proof Hord as (Hm & H0 & Hle & Hw & Hin & Hsorted).
  unfold invoke in Hcall. destruct e as [| |seq|p from|p from]; try discriminate.
  - cbn in Hcall. inversion Hcall; subst. exact Hord.
  - unfold SendPacket in Hcall. rewrite Hm in Hcall.
    destruct (Z.leb_spec maxPackets (m_nextSequence c)) as [Hclosed|Hopen];
      inversion Hcall; subst c' s' out; clear Hcall.
    + exact Hord.
    + rewrite tx_of_data by (unfold u32; lia). cbn [rev app].
      apply (in_order_sent c tr); try assumption; try reflexivity; [lia|].
      left. cbn [m_nextSequence]. split; [reflexivity|]. split; [|lia].
      apply wrap32_small. lia.
  - unfold TimeoutHandler in Hcall.
    destruct (m_waitingForAck c && (seq =? m_pendingAckSequence c)) eqn:Hact;
      inversion Hcall; subst c' s' out; clear Hcall; [|exact Hord].
    apply andb_prop in Hact. destruct Hact as [Hwait Heq].
    apply Z.eqb_eq in Heq. destruct (Hw Hwait) as [Hp Hpos].
    rewrite tx_of_data by (unfold u32; lia). cbn [rev app].
    apply (in_order_sent c tr); try assumption; try reflexivity.
    + lia.
    + cbn [m_pendingAckSequence]. lia.
    + right. cbn [m_nextSequence]. split; [lia | reflexivity].
Qed.

Lemma HandleRead_one_in_order rx c sim c' sim' tr :
  in_order maxPackets c tr -> HandleRead_one rx c sim = Done (c', sim') -> in_order maxPackets c' tr.
Proof.
  intros Hord. unfold HandleRead_one. destruct rx as [p from].
  destruct (RemoveHeader p) as [[h rest]|]; [|discriminate].
  destruct (m_isAck h);
    [destruct (m_waitingForAck c && (m_ackNumber h =? m_pendingAckSequence c))|];
    intros H; inversion H; subst; try exact Hord.
  destruct Hord as (Hm & H0 & Hle & Hw & Hin & Hsorted).
  unfold in_order. cbn [m_maxPackets m_nextSequence m_waitingForAck].
  repeat (split; [assumption|]). split; [discriminate|]. split; assumption.
Qed.

Lemma HandleRead_in_order socket : forall c sim c' sim' out tr,
  in_order maxPackets c tr -> HandleRead socket c sim = Done (c', sim', out) ->
  in_order maxPackets c' tr /\ out = [].
Proof.
  induction socket as [|rx socket IH]; intros c sim c' sim' out tr Hord H.
  - inversion H; subst. split; [exact Hord | reflexivity].
  - cbn [HandleRead] in H.
    destruct (HandleRead_one rx c sim) as [[c1 s1]|] eqn:E1; [|discriminate].
    apply (HandleRead_one_in_order _ _ _ _ _ _ Hord) in E1.
    apply (IH _ _ _ _ _ _ E1 H).
Qed.

Lemma in_order_acks c tr l :
  sent_seqs l = [] -> in_order maxPackets c tr -> in_order maxPackets c (l ++ tr).
Proof.
  intros Hl (Hm & H0 & Hle & Hw & Hin & Hsorted).
  unfold in_order. rewrite sent_seqs_app, Hl. cbn [app].
  repeat (split; [assumption|]). assumption.
Qed.

Lemma reachable_in_order peer interval packetSize timeout st :
  reachable SendTo (new peer maxPackets interval packetSize timeout) st ->
  in_order maxPackets (client st) (trace st).
Proof.
  induction 1 as [|st st' _ IH Hstep].
  - unfold in_order. cbn. split; [reflexivity|]. split; [lia|].
    split; [left; reflexivity|]. split; [discriminate|]. split; [|constructor].
    intros s. split; [intros [] | lia].
  - destruct Hstep as [st before e after c s out Hq Hcall
                      | st now socket c s out Hcall]; cbn [client trace].
    + apply (invoke_in_order _ _ _ _ _ _ _ IH Hcall).
    + destruct (HandleRead_in_order _ _ _ _ _ _ _ IH Hcall) as [Hord ->].
      cbn [tx_of flat_map rev app].
      apply in_order_acks; [apply sent_seqs_acks | exact Hord].
Qed.
End SenderOrder.

(** X6. The sequence numbers the client puts on the wire, in every state it
    reaches: they are exactly the numbers below [m_nextSequence], none is
    skipped, all are below [maxPackets], and they never decrease in time
    (a retransmission repeats the newest one). *)
Theorem sender_sequence_numbers (SendTo : Address * Packet -> Z)
    (peer : Address) (maxPackets interval packetSize timeout : Z)
    (st : Sender.State) :
  maxPackets < 2 ^ 32 ->
  Sender.reachable SendTo
    (ReliableClient.new peer maxPackets interval packetSize timeout) st ->
  (forall s, In s (Sender.sent_seqs (Sender.trace st)) <->
             0 <= s < ReliableClient.m_nextSequence (Sender.client st))
  /\ (forall s, In s (Sender.sent_seqs (Sender.trace st)) -> s < maxPackets)
  /\ StronglySorted Z.ge (Sender.sent_seqs (Sender.trace st)).
Proof.
  intros Hmax Hreach.
  destruct (reachable_in_order SendTo maxPackets Hmax _ _ _ _ st Hreach)
    as (_ & H0 & Hle & _ & Hin & Hsorted).
  split; [exact Hin|]. split; [|exact Hsorted].
  intros s Hs. apply Hin in Hs. lia.
Qed.

Lemma sender_sequence_numbers_witness :
  let st := Nat.iter 3 (Sender.fire Scenario.SendTo_ok)
              (Sender.initial
                 (ReliableClient.new Scenario.serverAddress 10 (Seconds 1) 4 (MilliSeconds 500))) in
  (forall s, In s (Sender.sent_seqs (Sender.trace st)) <->
             0 <= s < ReliableClient.m_nextSequence (Sender.client st))
  /\ (forall s, In s (Sender.sent_seqs (Sender.trace st)) -> s < 10)
  /\ StronglySorted Z.ge (Sender.sent_seqs (Sender.trace st)).
Proof.
  intros st.
  apply (sender_sequence_numbers Scenario.SendTo_ok Scenario.serverAddress 10 (Seconds 1) 4
           (MilliSeconds 500) st); [lia|].
  apply (reachable_fires Scenario.SendTo_ok 3).
Defined.

(** ** The stop-and-wait sender: retransmissions *)

(** X7. The packet a timeout retransmits is byte for byte the packet
    [SendPacket] sent: the same sequence number over the same payload, to
    the same peer.  The timeout counts one retransmission, leaves
    [m_nextSequence] alone, keeps waiting for the same acknowledgment and
    arms a new timer. *)
Theorem retransmission_repeats_packet (SendTo : Address * Packet -> Z)
    (c : ReliableClient.t) (sim : ReliableClient.Sim)
    (c1 : ReliableClient.t) (s1 : ReliableClient.Sim)
    (out : list (Address * Packet)) :
  ReliableClient.m_nextSequence c < ReliableClient.m_maxPackets c ->
  ReliableClient.SendPacket SendTo c sim = (c1, s1, out) ->
  out = [(ReliableClient.m_peerAddress c,
          data_packet (ReliableClient.m_nextSequence c) (ReliableClient.m_packetSize c))]
  /\ forall sim', exists c2 s2,
       ReliableClient.TimeoutHandler SendTo (ReliableClient.m_nextSequence c) c1 sim'
       = (c2, s2, out)
       /\ ReliableClient.m_retransmissions c2
          = wrap32 (ReliableClient.m_retransmissions c + 1)
       /\ ReliableClient.m_nextSequence c2 = ReliableClient.m_nextSequence c1
       /\ ReliableClient.m_waitingForAck c2 = true
       /\ ReliableClient.m_pendingAckSequence c2 = ReliableClient.m_nextSequence c
       /\ Simulator.IsPending (ReliableClient.m_timerEvent c2) s2 = true.
Proof.
  intros Hopen Hsend. unfold ReliableClient.SendPacket in Hsend.
  destruct (Z.leb_spec (ReliableClient.m_maxPackets c) (ReliableClient.m_nextSequence c));
    [lia|].
  inversion Hsend; subst c1 s1 out; clear Hsend.
  split; [reflexivity|]. intros sim'.
  unfold ReliableClient.TimeoutHandler.
  cbn [ReliableClient.m_waitingForAck ReliableClient.m_pendingAckSequence andb].
  rewrite Z.eqb_refl. do 2 eexists. split; [reflexivity|].
  cbn [ReliableClient.m_retransmissions ReliableClient.m_nextSequence
       ReliableClient.m_waitingForAck ReliableClient.m_pendingAckSequence
       ReliableClient.m_timerEvent].
  repeat (split; [reflexivity|]).
  apply IsPending_Schedule.
Qed.

Lemma retransmission_repeats_packet_witness :
  let c := ReliableClient.new Scenario.serverAddress 10 (Seconds 1) 4 (MilliSeconds 500) in
  let r := ReliableClient.SendPacket Scenario.SendTo_ok c Simulator.empty in
  snd r = [(ReliableClient.m_peerAddress c,
            data_packet (ReliableClient.m_nextSequence c)
              (ReliableClient.m_packetSize c))]
  /\ forall sim', exists c2 s2,
       ReliableClient.TimeoutHandler Scenario.SendTo_ok
         (ReliableClient.m_nextSequence c) (fst (fst r)) sim'
       = (c2, s2, snd r)
       /\ ReliableClient.m_retransmissions c2
          = wrap32 (ReliableClient.m_retransmissions c + 1)
       /\ ReliableClient.m_nextSequence c2
          = ReliableClient.m_nextSequence (fst (fst r))
       /\ ReliableClient.m_waitingForAck c2 = true
       /\ ReliableClient.m_pendingAckSequence c2 = ReliableClient.m_nextSequence c
       /\ Simulator.IsPending (ReliableClient.m_timerEvent c2) s2 = true.
Proof.
  intros c r.
  apply (retransmission_repeats_packet Scenario.SendTo_ok c Simulator.empty
           (fst (fst r)) (snd (fst r)) (snd r)).
  - simpl. lia.
  - reflexivity.
Defined.

Section Retransmissions.
Import ReliableClient Sender.
Variable SendTo : Address * Packet -> Z.

Lemma fire_timeout (st : State) t id :
  m_waitingForAck (client st) = true ->
  u32 (m_pendingAckSequence (client st)) ->
  Simulator.events (sim st)
  = [Simulator.mkScheduled t id (EvTimeoutHandler (m_pendingAckSequence (client st)))] ->
  m_retransmissions (client (fire SendTo st))
  = wrap32 (m_retransmissions (client st) + 1)
  /\ m_waitingForAck (client (fire SendTo st)) = true
  /\ m_pendingAckSequence (client (fire SendTo st))
     = m_pendingAckSequence (client st)
  /\ m_nextSequence (client (fire SendTo st)) = m_nextSequence (client st)
  /\ trace (fire SendTo st) = Tx (m_pendingAckSequence (client st)) :: trace st
  /\ exists t' id',
       Simulator.events (sim (fire SendTo st))
       = [Simulator.mkScheduled t' id'
            (EvTimeoutHandler (m_pendingAckSequence (client st)))].
Proof.
  intros Hw Hp Hq. unfold fire. rewrite Hq. cbn [Simulator.impl invoke].
  unfold TimeoutHandler. rewrite Hw, Z.eqb_refl. cbn [andb].
  cbn [Simulator.Schedule Simulator.Now Simulator.next_uid Simulator.events
       Simulator.insert client sim trace
       m_retransmissions m_waitingForAck m_pendingAckSequence m_nextSequence].
  rewrite tx_of_data by exact Hp. cbn [rev app].
  do 5 (split; [reflexivity|]). do 2 eexists. reflexivity.
Qed.

Lemma fire_timeouts (n : nat) : forall (st : State) tm uid,
  m_waitingForAck (client st) = true ->
  u32 (m_pendingAckSequence (client st)) ->
  u32 (m_retransmissions (client st)) ->
  Simulator.events (sim st)
  = [Simulator.mkScheduled tm uid (EvTimeoutHandler (m_pendingAckSequence (client st)))] ->
  m_retransmissions (client (Nat.iter n (fire SendTo) st))
  = wrap32 (m_retransmissions (client st) + Z.of_nat n)
  /\ m_waitingForAck (client (Nat.iter n (fire SendTo) st)) = true
  /\ m_pendingAckSequence (client (Nat.iter n (fire SendTo) st))
     = m_pendingAckSequence (client st)
  /\ m_nextSequence (client (Nat.iter n (fire SendTo) st))
     = m_nextSequence (client st)
  /\ trace (Nat.iter n (fire SendTo) st)
     = repeat (Tx (m_pendingAckSequence (client st))) n ++ trace st
  /\ exists t' id',
       Simulator.events (sim (Nat.iter n (fire SendTo) st))
       = [Simulator.mkScheduled t' id'
            (EvTimeoutHandler (m_pendingAckSequence (client st)))].
Proof.
  induction n as [|n IH]; intros st tm uid Hw Hp Hr0 Hq.
  - change (Nat.iter 0 (fire SendTo) st) with st.
    cbn [repeat app]. rewrite Z.add_0_r.
    split; [rewrite wrap32_small by exact Hr0; reflexivity|].
    split; [exact Hw|]. do 3 (split; [reflexivity|]). exists tm, uid. exact Hq.
  - rewrite Nat.iter_succ.
    destruct (IH st tm uid Hw Hp Hr0 Hq)
      as (Hr & Hw' & Hp' & Hn' & Htr & t' & id' & Hq').
    set (st1 := Nat.iter n (fire SendTo) st) in *.
    assert (Hp1 : u32 (m_pendingAckSequence (client st1)))
      by (rewrite Hp'; exact Hp).
    rewrite <- Hp' in Hq'.
    destruct (fire_timeout st1 t' id' Hw' Hp1 Hq')
      as (Hr2 & Hw2 & Hp2 & Hn2 & Htr2 & t2 & id2 & Hq2).
    split; [rewrite Hr2, Hr, wrap32_add_l; f_equal; lia|].
    split; [exact Hw2|].
    split; [rewrite Hp2; exact Hp'|].
    split; [rewrite Hn2; exact Hn'|].
    split; [rewrite Htr2, Htr, Hp'; reflexivity|].
    exists t2, id2. rewrite Hq2, Hp'. reflexivity.
Qed.
End Retransmissions.

(** X8. The client has no retry limit: while the acknowledgment it awaits
    does not arrive, every timeout retransmits the same sequence number and
    arms the next timeout, so after [n] timeouts the packet has been sent
    [n] more times and the client still waits. *)
Theorem retransmission_is_unbounded (SendTo : Address * Packet -> Z)
    (st : Sender.State) (tm : Z) (uid : nat) (n : nat) :
  ReliableClient.m_waitingForAck (Sender.client st) = true ->
  u32 (ReliableClient.m_pendingAckSequence (Sender.client st)) ->
  u32 (ReliableClient.m_retransmissions (Sender.client st)) ->
  Simulator.events (Sender.sim st)
  = [Simulator.mkScheduled tm uid
       (EvTimeoutHandler (ReliableClient.m_pendingAckSequence (Sender.client st)))] ->
  ReliableClient.m_retransmissions (Sender.client (Nat.iter n (Sender.fire SendTo) st))
  = wrap32 (ReliableClient.m_retransmissions (Sender.client st) + Z.of_nat n)
  /\ ReliableClient.m_waitingForAck (Sender.client (Nat.iter n (Sender.fire SendTo) st))
     = true
  /\ Sender.trace (Nat.iter n (Sender.fire SendTo) st)
     = repeat (Sender.Tx (ReliableClient.m_pendingAckSequence (Sender.client st))) n
       ++ Sender.trace st
  /\ exists t' id',
       Simulator.events (Sender.sim (Nat.iter n (Sender.fire SendTo) st))
       = [Simulator.mkScheduled t' id'
            (EvTimeoutHandler
               (ReliableClient.m_pendingAckSequence (Sender.client st)))].
Proof.
  intros Hw Hp Hr Hq.
  destruct (fire_timeouts SendTo n st tm uid Hw Hp Hr Hq)
    as (H1 & H2 & _ & _ & H5 & H6).
  split; [exact H1|]. split; [exact H2|]. split; [exact H5 | exact H6].
Qed.

Lemma retransmission_is_unbounded_witness :
  let st := Sender.mkState (fst awaiting_3) (snd awaiting_3) [] in
  ReliableClient.m_retransmissions
    (Sender.client (Nat.iter 1000 (Sender.fire Scenario.SendTo_ok) st))
  = wrap32 (0 + 1000)
  /\ Sender.trace (Nat.iter 1000 (Sender.fire Scenario.SendTo_ok) st)
     = repeat (Sender.Tx 3) 1000 ++ [].
Proof.
  cbv zeta.
  assert (Hp : u32 3) by (unfold u32; lia).
  assert (Hr : u32 0) by (unfold u32; lia).
  destruct (retransmission_is_unbounded Scenario.SendTo_ok
              (Sender.mkState (fst awaiting_3) (snd awaiting_3) [])
              (Seconds 5 + MilliSeconds 500) 0 1000 eq_refl Hp Hr eq_refl)
    as (H1 & _ & H3 & _).
  split; [exact H1 | exact H3].
Defined.

(** ** The rate-controlled sender: the window *)

Section Window.
Import EnhancedUdp.
Variable Send : UdpPacket -> Z.
Variable maxPackets : Z.
Hypothesis Hmax : maxPackets < 2 ^ 32.

Lemma interval_of_cwnd_range (cwnd : Z) :
  4 <= cwnd -> MilliSeconds 1 <= interval_of_cwnd cwnd <= MilliSeconds 250.
Proof.
  intros Hc. unfold interval_of_cwnd, MilliSeconds, Seconds.
  assert ((2 * (1 * 1000000000) + cwnd) / (2 * cwnd) < 250 * 1000000 + 1)
    by (apply Z.div_lt_upper_bound; lia).
  lia.
Qed.

Lemma CongestionControl_bounds (c : t) (g : Globals) (bound : Z) :
  4 <= m_cwnd c <= bound -> bound + 2 < 2 ^ 32 ->
  4 <= m_ssthresh c ->
  (m_congestionAvoidance c = false -> m_cwnd c <= m_ssthresh c) ->
  (m_congestionAvoidance c = true -> m_ssthresh c <= m_cwnd c) ->
  let c' := fst (CongestionControl c g) in
  4 <= m_cwnd c' <= bound + 2
  /\ 4 <= m_ssthresh c'
  /\ (m_congestionAvoidance c' = false -> m_cwnd c' <= m_ssthresh c')
  /\ (m_congestionAvoidance c' = true -> m_ssthresh c' <= m_cwnd c')
  /\ MilliSeconds 1 <= m_interval c' <= MilliSeconds 250
  /\ m_maxPackets c' = m_maxPackets c
  /\ m_packetsSent c' = m_packetsSent c.
Proof.
  intros Hcw Hb Hss Hslow Hca. change (2 ^ 32) with 4294967296 in Hb.
  assert (Hgrow2 : wrap32 (m_cwnd c + 2) = m_cwnd c + 2)
    by (apply wrap32_small; change (2 ^ 32) with 4294967296; lia).
  assert (Hgrow1 : wrap32 (m_cwnd c + 1) = m_cwnd c + 1)
    by (apply wrap32_small; change (2 ^ 32) with 4294967296; lia).
  unfold CongestionControl. rewrite Hgrow2, Hgrow1.
  destruct (m_congestionAvoidance c) eqn:Hphase; cbn [negb].
  - specialize (Hca eq_refl).
    destruct ((m_packetsSent c mod 40 =? 0) && (0 <? m_packetsSent c));
      cbn [fst m_cwnd m_ssthresh m_congestionAvoidance m_interval m_maxPackets
           m_packetsSent].
    + split; [lia|]. split; [lia|]. split; [intros _; lia|].
      split; [discriminate|].
      split; [apply interval_of_cwnd_range; lia|]. split; reflexivity.
    + split; [lia|]. split; [lia|]. split; [discriminate|].
      split; [intros _; lia|].
      split; [apply interval_of_cwnd_range; lia|]. split; reflexivity.
  - specialize (Hslow eq_refl).
    destruct (Z.leb_spec (m_ssthresh c) (Z.min (m_cwnd c + 2) (m_ssthresh c)));
      destruct ((m_packetsSent c mod 40 =? 0) && (0 <? m_packetsSent c));
      cbn [fst m_cwnd m_ssthresh m_congestionAvoidance m_interval m_maxPackets
           m_packetsSent];
      (split; [lia|]); (split; [lia|]);
      (split; [try discriminate; intros _; lia|]);
      (split; [try discriminate; intros _; lia|]);
      (split; [apply interval_of_cwnd_range; lia|]); split; reflexivity.
Qed.

Lemma window_ok_ext (c c' : t) :
  m_maxPackets c' = m_maxPackets c -> m_packetsSent c' = m_packetsSent c ->
  m_cwnd c' = m_cwnd c -> m_ssthresh c' = m_ssthresh c ->
  m_congestionAvoidance c' = m_congestionAvoidance c ->
  m_interval c' = m_interval c ->
  window_ok maxPackets c -> window_ok maxPackets c'.
Proof.
  unfold window_ok. intros -> -> -> -> -> ->. exact (fun H => H).
Qed.

Lemma window_ok_next (c : t) :
  window_ok maxPackets c -> m_packetsSent c < maxPackets ->
  (m_packetsSent c + 1) mod 15 <> 0 ->
  window_ok maxPackets
    (mk (m_sendEvent c) (m_packetSize c) (m_maxPackets c) (m_packetsSent c + 1)
        (m_interval c) (m_cwnd c) (m_ssthresh c) (m_congestionAvoidance c)
        (m_sequenceNumber c)).
Proof.
  intros (Hm & H0 & Hle & Hcw & Hss & Hslow & Hca & Hint) Hopen Hmod.
  unfold window_ok.
  cbn [m_maxPackets m_packetsSent m_cwnd m_ssthresh m_congestionAvoidance
       m_interval].
  split; [exact Hm|]. split; [lia|]. split; [right; lia|].
  split; [Z.to_euclidean_division_equations; lia|].
  repeat (split; [assumption|]). assumption.
Qed.

Lemma SendPacket_window_ok c g sim :
  window_ok maxPackets c ->
  window_ok maxPackets (fst (fst (fst (SendPacket Send c g sim)))).
Proof.
  intros Hok. pose proof Hok as (Hm & H0 & Hle & Hcw & Hss & Hslow & Hca & Hint).
  unfold SendPacket.
  destruct (Z.leb_spec (m_maxPackets c) (m_packetsSent c)) as [Hclosed|Hopen];
    [exact Hok|].
  rewrite Hm in Hopen.
  destruct (0 <? Send _);
    [|cbn [fst]; apply (window_ok_ext c); try reflexivity; exact Hok].
  cbn [m_packetsSent m_maxPackets].
  change (2 ^ 32) with 4294967296 in Hmax.
  assert (Hnext : wrap32 (m_packetsSent c + 1) = m_packetsSent c + 1)
    by (apply wrap32_small; change (2 ^ 32) with 4294967296; lia).
  rewrite Hnext.
  destruct (Z.eqb_spec ((m_packetsSent c + 1) mod 15) 0) as [Hmod|Hmod].
  - match goal with
    | |- context [CongestionControl ?c1 g] =>
        pose proof (CongestionControl_bounds c1 g
                      (4 + 2 * (m_packetsSent c / 15))) as Hcc;
        destruct (CongestionControl c1 g) as [c2 g2]
    end.
    cbn [m_cwnd m_ssthresh m_congestionAvoidance fst m_maxPackets m_packetsSent]
      in Hcc.
    destruct Hcc as (Hcw2 & Hss2 & Hslow2 & Hca2 & Hint2 & Hm2 & Hp2);
      try assumption.
    { change (2 ^ 32) with 4294967296.
      Z.to_euclidean_division_equations. lia. }
    assert (Hok2 : window_ok maxPackets c2).
    { unfold window_ok. rewrite Hm2, Hp2.
      split; [exact Hm|]. split; [lia|]. split; [right; lia|].
      split; [Z.to_euclidean_division_equations; lia|].
      repeat (split; [assumption|]). assumption. }
    destruct (m_packetsSent c2 <? m_maxPackets c2); cbn [fst]; [|exact Hok2].
    apply (window_ok_ext c2); try reflexivity. exact Hok2.
  - pose proof (window_ok_next c Hok Hopen Hmod) as Hok2.
    cbn [m_packetsSent m_maxPackets m_sendEvent m_packetSize m_interval m_cwnd
         m_ssthresh m_congestionAvoidance m_sequenceNumber].
    match goal with |- context [if ?b then _ else _] => destruct b end;
      cbn [fst]; refine (window_ok_ext _ _ _ _ _ _ _ _ Hok2); reflexivity.
Qed.

Lemma fire_window_ok (st : State) :
  window_ok maxPackets (client st) -> window_ok maxPackets (client (fire Send st)).
Proof.
  intros Hok. unfold fire.
  destruct (Simulator.events (sim st)) as [|e rest]; [exact Hok|].
  match goal with
  | |- context [SendPacket Send ?c ?g ?s] =>
      pose proof (SendPacket_window_ok c g s Hok) as Hnew;
      destruct (SendPacket Send c g s) as [[[c' g'] s'] out]
  end.
  exact Hnew.
Qed.

Lemma run_window_ok (n : nat) (st : State) :
  window_ok maxPackets (client st) -> window_ok maxPackets (client (run Send n st)).
Proof.
  intros Hok. induction n as [|n IH]; [exact Hok|].
  unfold run in *. rewrite Nat.iter_succ. apply fire_window_ok. exact IH.
Qed.
End Window.

(** X9. Whatever the socket returns, the window state of the rate-controlled
    client stays in bounds throughout a run: [cwnd] and [ssthresh] are at
    least 4, [cwnd] is at most [ssthresh] in slow start and at least
    [ssthresh] in congestion avoidance, the send interval stays between 1 ms
    and 250 ms, and no more than [maxPackets] packets are counted as sent. *)
Theorem window_stays_in_bounds (Send : EnhancedUdp.UdpPacket -> Z)
    (packetSize maxPackets : Z) (n : nat) :
  maxPackets < 2 ^ 32 ->
  let c := EnhancedUdp.client
             (EnhancedUdp.run Send n (EnhancedUdp.start packetSize maxPackets)) in
  4 <= EnhancedUdp.m_cwnd c
  /\ 4 <= EnhancedUdp.m_ssthresh c
  /\ (EnhancedUdp.m_congestionAvoidance c = false ->
      EnhancedUdp.m_cwnd c <= EnhancedUdp.m_ssthresh c)
  /\ (EnhancedUdp.m_congestionAvoidance c = true ->
      EnhancedUdp.m_ssthresh c <= EnhancedUdp.m_cwnd c)
  /\ MilliSeconds 1 <= EnhancedUdp.m_interval c <= MilliSeconds 250
  /\ EnhancedUdp.m_packetsSent c <= Z.max 0 maxPackets.
Proof.
  intros Hmax c.
  assert (Hstart : EnhancedUdp.window_ok maxPackets
                     (EnhancedUdp.client (EnhancedUdp.start packetSize maxPackets))).
  { unfold EnhancedUdp.window_ok. cbn. unfold MilliSeconds. repeat split; try lia; discriminate. }
  destruct (run_window_ok Send maxPackets Hmax n _ Hstart)
    as (_ & H0 & Hle & Hcw & Hss & Hslow & Hca & Hint).
  fold c in H0, Hle, Hcw, Hss, Hslow, Hca, Hint.
  repeat (split; [first [assumption | lia]|]). lia.
Qed.

Lemma window_stays_in_bounds_witness :
  let c := EnhancedUdp.client
             (EnhancedUdp.run EnhancedUdp.Send_ok 150 (EnhancedUdp.start 1024 100)) in
  4 <= EnhancedUdp.m_cwnd c
  /\ 4 <= EnhancedUdp.m_ssthresh c
  /\ (EnhancedUdp.m_congestionAvoidance c = false ->
      EnhancedUdp.m_cwnd c <= EnhancedUdp.m_ssthresh c)
  /\ (EnhancedUdp.m_congestionAvoidance c = true ->
      EnhancedUdp.m_ssthresh c <= EnhancedUdp.m_cwnd c)
  /\ MilliSeconds 1 <= EnhancedUdp.m_interval c <= MilliSeconds 250
  /\ EnhancedUdp.m_packetsSent c <= Z.max 0 100.
Proof.
  apply (window_stays_in_bounds EnhancedUdp.Send_ok 1024 100 150). lia.
Defined.

(** ** The rate-controlled sender: the run *)

Section RateRun.
Import EnhancedUdp.

Lemma CongestionControl_frame (c : t) (g : Globals) :
  let '(c', g') := CongestionControl c g in
  m_sendEvent c' = m_sendEvent c /\ m_packetSize c' = m_packetSize c
  /\ m_maxPackets c' = m_maxPackets c /\ m_packetsSent c' = m_packetsSent c
  /\ m_sequenceNumber c' = m_sequenceNumber c
  /\ 0 < m_interval c'
  /\ totalLostPackets g'
     = (if (m_packetsSent c mod 40 =? 0) && (0 <? m_packetsSent c)
        then wrap32 (totalLostPackets g + 2) else totalLostPackets g)
  /\ totalReceivedPackets g' = totalReceivedPackets g
  /\ totalBytesReceived g' = totalBytesReceived g
  /\ totalDelay g' = totalDelay g.
Proof.
  unfold CongestionControl.
  assert (Hpos : forall w, 0 < interval_of_cwnd w)
    by (intros w; unfold interval_of_cwnd, MilliSeconds; lia).
  destruct (m_congestionAvoidance c); cbn [negb];
    try destruct (_ <=? _);
    destruct ((m_packetsSent c mod 40 =? 0) && (0 <? m_packetsSent c));
    cbn [m_sendEvent m_packetSize m_maxPackets m_packetsSent m_sequenceNumber
         m_interval totalLostPackets totalReceivedPackets totalBytesReceived
         totalDelay];
    repeat (split; [first [reflexivity | apply Hpos]|]); reflexivity.
Qed.

Lemma packet_of_size (c : t) (now : Z) :
  16 <= m_packetSize c < 2 ^ 32 -> size (packet_of c now) = m_packetSize c.
Proof.
  intros Hsz. unfold packet_of. cbn [size]. unfold CustomHeader_GetSize.
  change (4 + 8 + 4) with 16.
  rewrite (wrap32_small (m_packetSize c - 16)) by lia.
  destruct (Z.ltb_spec 0 (m_packetSize c - 16)).
  - replace (16 + (m_packetSize c - 16)) with (m_packetSize c) by lia.
    apply wrap32_small. lia.
  - lia.
Qed.

Lemma SendPacket_sent (Send : UdpPacket -> Z) (c : t) (g : Globals) (sim : Sim) :
  0 <= m_packetsSent c < m_maxPackets c -> m_maxPackets c < 2 ^ 32 ->
  0 < Send (packet_of c (Simulator.Now sim)) ->
  exists c' g' sim',
    SendPacket Send c g sim = (c', g', sim', [packet_of c (Simulator.Now sim)])
    /\ m_packetsSent c' = m_packetsSent c + 1
    /\ m_sequenceNumber c' = wrap32 (m_sequenceNumber c + 1)
    /\ m_maxPackets c' = m_maxPackets c
    /\ m_packetSize c' = m_packetSize c
    /\ totalLostPackets g'
       = (if ((m_packetsSent c + 1) mod 15 =? 0) && ((m_packetsSent c + 1) mod 40 =? 0)
          then wrap32 (totalLostPackets g + 2) else totalLostPackets g)
    /\ (if m_packetsSent c + 1 <? m_maxPackets c
        then exists tm,
               Simulator.events sim'
               = Simulator.insert
                   (Simulator.mkScheduled tm (Simulator.next_uid sim) EvUdpSendPacket)
                   (Simulator.events sim)
               /\ m_sendEvent c' = Some (Simulator.next_uid sim)
               /\ Simulator.next_uid sim' = S (Simulator.next_uid sim)
        else sim' = sim).
Proof.
  intros Hp Hm Hsend. unfold SendPacket.
  destruct (Z.leb_spec (m_maxPackets c) (m_packetsSent c)); [lia|].
  cbn [m_sequenceNumber m_packetSize m_packetsSent m_maxPackets m_sendEvent
       m_interval m_cwnd m_ssthresh m_congestionAvoidance].
  fold (packet_of c (Simulator.Now sim)).
  destruct (Z.ltb_spec 0 (Send (packet_of c (Simulator.Now sim)))) as [_|Hbad];
    [|lia].
  change (2 ^ 32) with 4294967296 in Hm.
  rewrite (wrap32_small (m_packetsSent c + 1))
    by (change (2 ^ 32) with 4294967296; lia).
  destruct (Z.eqb_spec ((m_packetsSent c + 1) mod 15) 0) as [Hmod|Hmod];
    cbn [andb].
  - match goal with
    | |- context [CongestionControl ?c1 g] =>
        pose proof (CongestionControl_frame c1 g) as Hcc;
        destruct (CongestionControl c1 g) as [c2 g2]
    end.
    cbn [m_sendEvent m_packetSize m_maxPackets m_packetsSent m_sequenceNumber]
      in Hcc.
    destruct Hcc as (Hev & Hps & Hmx & Hsent & Hseq & _ & Hlost & _).
    assert (Hposn : (0 <? m_packetsSent c + 1) = true) by (apply Z.ltb_lt; lia).
    rewrite Hposn, andb_true_r in Hlost.
    rewrite Hsent, Hmx.
    destruct (m_packetsSent c + 1 <? m_maxPackets c).
    + unfold ScheduleTransmit. cbn [Simulator.Schedule].
      do 3 eexists. split; [reflexivity|].
      cbn [m_packetsSent m_sequenceNumber m_maxPackets m_packetSize m_sendEvent
           Simulator.events Simulator.next_uid].
      repeat (split; [assumption|]).
      eexists. split; [reflexivity|]. split; reflexivity.
    + do 3 eexists. split; [reflexivity|].
      repeat (split; [assumption|]). reflexivity.
  - cbn [m_packetsSent m_maxPackets].
    destruct (m_packetsSent c + 1 <? m_maxPackets c).
    + unfold ScheduleTransmit. cbn [Simulator.Schedule m_interval].
      do 3 eexists. split; [reflexivity|].
      cbn [m_packetsSent m_sequenceNumber m_maxPackets m_packetSize m_sendEvent
           Simulator.events Simulator.next_uid].
      repeat (split; [reflexivity|]).
      eexists. split; [reflexivity|]. split; reflexivity.
    + do 3 eexists. split; [reflexivity|].
      cbn [m_packetsSent m_sequenceNumber m_maxPackets m_packetSize].
      repeat (split; [reflexivity|]). reflexivity.
Qed.

Lemma SendPacket_ok (c : t) (g : Globals) (sim : Sim) :
  16 <= m_packetSize c < 2 ^ 32 ->
  0 <= m_packetsSent c < m_maxPackets c -> m_maxPackets c < 2 ^ 32 ->
  exists c' g' sim',
    SendPacket Send_ok c g sim = (c', g', sim', [packet_of c (Simulator.Now sim)])
    /\ m_packetsSent c' = m_packetsSent c + 1
    /\ m_sequenceNumber c' = wrap32 (m_sequenceNumber c + 1)
    /\ m_maxPackets c' = m_maxPackets c
    /\ m_packetSize c' = m_packetSize c
    /\ totalLostPackets g'
       = (if ((m_packetsSent c + 1) mod 15 =? 0) && ((m_packetsSent c + 1) mod 40 =? 0)
          then wrap32 (totalLostPackets g + 2) else totalLostPackets g)
    /\ (if m_packetsSent c + 1 <? m_maxPackets c
        then exists tm,
               Simulator.events sim'
               = Simulator.insert
                   (Simulator.mkScheduled tm (Simulator.next_uid sim) EvUdpSendPacket)
                   (Simulator.events sim)
               /\ m_sendEvent c' = Some (Simulator.next_uid sim)
               /\ Simulator.next_uid sim' = S (Simulator.next_uid sim)
        else sim' = sim).
Proof.
  intros Hsz Hp Hm. apply SendPacket_sent; try assumption.
  unfold Send_ok. rewrite packet_of_size by exact Hsz. lia.
Qed.

Lemma SendPacket_failed (Send : UdpPacket -> Z) (c : t) (g : Globals) (sim : Sim) :
  m_packetsSent c < m_maxPackets c ->
  Send (packet_of c (Simulator.Now sim)) <= 0 ->
  SendPacket Send c g sim
  = (mk (m_sendEvent c) (m_packetSize c) (m_maxPackets c) (m_packetsSent c)
        (m_interval c) (m_cwnd c) (m_ssthresh c) (m_congestionAvoidance c)
        (wrap32 (m_sequenceNumber c + 1)),
     mkGlobals (totalReceivedPackets g) (wrap32 (totalLostPackets g + 1))
               (totalDelay g) (totalBytesReceived g),
     sim, []).
Proof.
  intros Hopen Hfail. unfold SendPacket.
  destruct (Z.leb_spec (m_maxPackets c) (m_packetsSent c)); [lia|].
  cbn [m_sequenceNumber m_packetSize m_packetsSent m_maxPackets m_sendEvent
       m_interval m_cwnd m_ssthresh m_congestionAvoidance].
  fold (packet_of c (Simulator.Now sim)).
  destruct (Z.ltb_spec 0 (Send (packet_of c (Simulator.Now sim)))); [lia|].
  reflexivity.
Qed.

Lemma start_progress (packetSize maxPackets : Z) :
  progress packetSize maxPackets 0 (start packetSize maxPackets).
Proof.
  unfold progress.
  replace (Z.min (Z.of_nat 0) (Z.max 0 maxPackets)) with 0 by lia.
  unfold start. cbn.
  repeat (split; [first [reflexivity | constructor]|]).
  eexists. split; reflexivity.
Qed.

Lemma seq_snoc (k : Z) :
  0 <= k ->
  map Z.of_nat (seq 0 (Z.to_nat (k + 1)))
  = map Z.of_nat (seq 0 (Z.to_nat k)) ++ [k].
Proof.
  intros Hk. replace (Z.to_nat (k + 1)) with (Z.to_nat k + 1)%nat by lia.
  rewrite seq_app, map_app. cbn. rewrite Z2Nat.id by lia. reflexivity.
Qed.

Lemma fire_progress (packetSize maxPackets : Z) (n : nat) (st : State) :
  16 <= packetSize < 2 ^ 32 ->
  maxPackets < 2 ^ 32 ->
  progress packetSize maxPackets n st ->
  progress packetSize maxPackets (S n) (fire Send_ok st).
Proof.
  intros Hsize Hm (Hmax & Hps & Hsent & Hseq & Hmap & Hall & Hlost & Hev).
  unfold fire.
  destruct ((Z.of_nat n =? 0) || (Z.of_nat n <? maxPackets)) eqn:Hcase.
  - destruct Hev as (e & Hq & Hname). rewrite Hq.
    destruct (Z.leb_spec (m_maxPackets (client st)) (m_packetsSent (client st)))
      as [Hclosed|Hopen].
    + (* the limit is not positive: the first event sends nothing *)
      assert (Hn : maxPackets <= 0).
      { apply orb_true_iff in Hcase. rewrite Z.eqb_eq, Z.ltb_lt in Hcase. lia. }
      unfold SendPacket.
      replace (m_maxPackets (client st) <=? m_packetsSent (client st)) with true
        by (symmetry; apply Z.leb_le; lia).
      rewrite app_nil_r. unfold progress.
      cbn [client globals sim sent Simulator.events].
      replace (Z.min (Z.of_nat (S n)) (Z.max 0 maxPackets)) with
        (Z.min (Z.of_nat n) (Z.max 0 maxPackets)) by lia.
      replace ((Z.of_nat (S n) =? 0) || (Z.of_nat (S n) <? maxPackets)) with false
        by (symmetry; apply orb_false_iff; rewrite Z.eqb_neq, Z.ltb_ge; lia).
      repeat (split; [assumption|]). reflexivity.
    + assert (Hk : Z.min (Z.of_nat n) (Z.max 0 maxPackets) = Z.of_nat n).
      { apply orb_true_iff in Hcase. rewrite Z.eqb_eq, Z.ltb_lt in Hcase. lia. }
      rewrite Hk in *.
      destruct (SendPacket_ok (client st) (globals st)
                  (Simulator.mk (Simulator.ts e) (Simulator.next_uid (sim st)) []))
        as (c' & g' & sim' & Hrun & Hsent' & Hseq' & Hmax' & Hps' & Hlost' & Hev');
        [rewrite Hps; exact Hsize | lia | lia |].
      rewrite Hrun. unfold progress.
      cbn [client globals sim sent Simulator.events Simulator.Now
           Simulator.next_uid] in *.
      rewrite Hsent, Hmax in *. rewrite Hseq in Hseq'.
      replace (Z.min (Z.of_nat (S n)) (Z.max 0 maxPackets)) with (Z.of_nat n + 1)
        by lia.
      change (2 ^ 32) with 4294967296 in Hm.
      rewrite wrap32_small in Hseq' by (change (2 ^ 32) with 4294967296; lia).
      split; [assumption|]. split; [congruence|]. split; [assumption|].
      split; [assumption|].
      split.
      { rewrite map_app, Hmap, seq_snoc by lia. cbn. rewrite Hseq. reflexivity. }
      assert (Hsz : forall now, size (packet_of c' now)
                                = size (packet_of (client st) 0))
        by (intros now; unfold packet_of; cbn [size]; rewrite Hps'; reflexivity).
      split.
      { apply Forall_app. split.
        - eapply Forall_impl; [|exact Hall]. cbn beta.
          intros p [Hp1 Hp2]. split; [assumption|]. rewrite Hsz. assumption.
        - constructor; [|constructor]. split; [exact Hps|]. rewrite Hsz.
          reflexivity. }
      split.
      { rewrite Hlost', Hlost.
        destruct (Z.eqb_spec ((Z.of_nat n + 1) mod 15) 0) as [H15|H15];
          destruct (Z.eqb_spec ((Z.of_nat n + 1) mod 40) 0) as [H40|H40];
          cbn [andb];
          try (rewrite wrap32_small
                by (change (2 ^ 32) with 4294967296;
                    Z.to_euclidean_division_equations; lia));
          Z.to_euclidean_division_equations; lia. }
      replace (Z.of_nat (S n) =? 0) with false by (symmetry; apply Z.eqb_neq; lia).
      cbn [orb]. replace (Z.of_nat (S n)) with (Z.of_nat n + 1) by lia.
      destruct (Z.of_nat n + 1 <? maxPackets).
      * destruct Hev' as (tm & Hq' & Hid & _). rewrite Hq', Hid. cbn.
        eexists. split; [reflexivity|]. cbn. apply Nat.eqb_refl.
      * rewrite Hev'. reflexivity.
  - rewrite Hev. unfold progress.
    apply orb_false_iff in Hcase. rewrite Z.eqb_neq, Z.ltb_ge in Hcase.
    replace (Z.min (Z.of_nat (S n)) (Z.max 0 maxPackets)) with
      (Z.min (Z.of_nat n) (Z.max 0 maxPackets)) by lia.
    replace ((Z.of_nat (S n) =? 0) || (Z.of_nat (S n) <? maxPackets)) with false
      by (symmetry; apply orb_false_iff; rewrite Z.eqb_neq, Z.ltb_ge; lia).
    rewrite Hev.
    repeat (split; [assumption|]). reflexivity.
Qed.

Lemma run_progress (packetSize maxPackets : Z) (n : nat) :
  16 <= packetSize < 2 ^ 32 ->
  maxPackets < 2 ^ 32 ->
  progress packetSize maxPackets n (run Send_ok n (start packetSize maxPackets)).
Proof.
  intros Hsize Hm. induction n as [|n IH].
  - apply start_progress.
  - unfold run. rewrite Nat.iter_succ. apply fire_progress; assumption.
Qed.

(** X10. The run of the rate-controlled client over a socket that accepts
    every packet, for a packet size that holds the header (16 bytes at
    least, and a [uint32_t]): after [n] events it has sent
    [min n maxPackets] packets, with the sequence numbers 0, 1, 2, ... in
    this order, each once; it has recorded two simulated losses for every
    120 packets sent; and no event is pending exactly when the last packet
    is out (or, for [maxPackets = 0], the first event has fired). *)
Theorem rate_sender_run (packetSize maxPackets : Z) (n : nat) :
  16 <= packetSize < 2 ^ 32 ->
  maxPackets < 2 ^ 32 ->
  let st := run Send_ok n (start packetSize maxPackets) in
  let k := Z.min (Z.of_nat n) (Z.max 0 maxPackets) in
  m_packetsSent (client st) = k
  /\ map sequenceNumber (sent st) = map Z.of_nat (seq 0 (Z.to_nat k))
  /\ totalLostPackets (globals st) = 2 * (k / 120)
  /\ (Simulator.events (sim st) = [] <-> (1 <= n)%nat /\ maxPackets <= Z.of_nat n).
Proof.
  intros Hsize Hm st k.
  destruct (run_progress packetSize maxPackets n Hsize Hm)
    as (_ & _ & Hsent & _ & Hmap & _ & Hlost & Hev).
  fold st in Hsent, Hmap, Hlost, Hev. fold k in Hsent, Hmap, Hlost.
  split; [assumption|]. split; [assumption|]. split; [assumption|].
  destruct ((Z.of_nat n =? 0) || (Z.of_nat n <? maxPackets)) eqn:Hcase.
  - apply orb_true_iff in Hcase. rewrite Z.eqb_eq, Z.ltb_lt in Hcase.
    destruct Hev as (e & Hq & _). rewrite Hq. split; [discriminate | lia].
  - apply orb_false_iff in Hcase. rewrite Z.eqb_neq, Z.ltb_ge in Hcase.
    split; [lia | intros _; assumption].
Qed.

Lemma rate_sender_run_witness :
  let st := run Send_ok 150 (start 1024 130) in
  let k := Z.min (Z.of_nat 150) (Z.max 0 130) in
  m_packetsSent (client st) = k
  /\ map sequenceNumber (sent st) = map Z.of_nat (seq 0 (Z.to_nat k))
  /\ totalLostPackets (globals st) = 2 * (k / 120)
  /\ (Simulator.events (sim st) = [] <-> (1 <= 150)%nat /\ 130 <= Z.of_nat 150).
Proof.
  apply (rate_sender_run 1024 130 150); lia.
Defined.

(** *** The pending send *)

Lemma SendPacket_send_shape (Send : UdpPacket -> Z) (c : t) (g : Globals)
      (now : Z) (uid : nat) :
  let '(c', _, s', _) := SendPacket Send c g (Simulator.mk now uid []) in
  send_shape c' s'.
Proof.
  unfold SendPacket.
  destruct (m_maxPackets c <=? m_packetsSent c); [left; reflexivity|].
  destruct (0 <? Send _); [|left; reflexivity].
  cbn [m_sequenceNumber m_packetSize m_packetsSent m_maxPackets m_sendEvent
       m_interval m_cwnd m_ssthresh m_congestionAvoidance].
  destruct (_ mod 15 =? 0).
  - match goal with
    | |- context [CongestionControl ?c1 g] =>
        destruct (CongestionControl c1 g) as [c2 g2]
    end.
    destruct (m_packetsSent c2 <? m_maxPackets c2); [|left; reflexivity].
    unfold ScheduleTransmit. cbn. right. eexists. split; [reflexivity|].
    cbn. apply Nat.eqb_refl.
  - cbn [m_packetsSent m_maxPackets].
    destruct (_ <? _); [|left; reflexivity].
    unfold ScheduleTransmit. cbn. right. eexists. split; [reflexivity|].
    cbn. apply Nat.eqb_refl.
Qed.

Lemma fire_send_shape (Send : UdpPacket -> Z) (st : State) :
  send_shape (client st) (sim st) ->
  send_shape (client (fire Send st)) (sim (fire Send st)).
Proof.
  intros [Hq | (e & Hq & _)]; unfold fire; rewrite Hq.
  - left. assumption.
  - pose proof (SendPacket_send_shape Send (client st) (globals st)
                  (Simulator.ts e) (Simulator.next_uid (sim st))) as H.
    destruct (SendPacket Send (client st) (globals st) _) as [[[c' g'] s'] out].
    exact H.
Qed.

Lemma run_send_shape (Send : UdpPacket -> Z) (packetSize maxPackets : Z) (n : nat) :
  let st := run Send n (start packetSize maxPackets) in
  send_shape (client st) (sim st).
Proof.
  induction n as [|n IH].
  - right. eexists. split; reflexivity.
  - cbn zeta. unfold run. rewrite Nat.iter_succ. apply fire_send_shape. exact IH.
Qed.

Lemma StopApplication_send_shape (c : t) (s : Sim) :
  send_shape c s -> Simulator.events (StopApplication c s) = [].
Proof.
  unfold StopApplication, Simulator.IsPending, Simulator.Cancel.
  intros [Hq | (e & Hq & Hname)]; rewrite Hq; cbn.
  - assumption.
  - rewrite Hname. reflexivity.
Qed.

(** X11. [EnhancedUdpClient::StopApplication], called at any point of a run
    and whatever the socket has returned so far, cancels the pending send:
    nothing is pending afterwards and the client sends nothing more. *)
Theorem rate_sender_stop (Send : UdpPacket -> Z) (packetSize maxPackets : Z)
        (n k : nat) :
  let st := stopped (run Send n (start packetSize maxPackets)) in
  Simulator.events (sim st) = [] /\ run Send k st = st.
Proof.
  cbn zeta.
  assert (Hq : Simulator.events
                 (sim (stopped (run Send n (start packetSize maxPackets)))) = []).
  { unfold stopped. cbn [sim]. apply StopApplication_send_shape.
    apply run_send_shape. }
  split; [exact Hq|].
  generalize dependent (stopped (run Send n (start packetSize maxPackets))).
  intros st Hq.
  induction k as [|k IH]; [reflexivity|].
  unfold run in *. rewrite Nat.iter_succ, IH. unfold fire. rewrite Hq.
  reflexivity.
Qed.

(** *** The receiver's counters *)

(** X12. [EnhancedUdpServer::HandleRead] on everything the socket holds: it
    counts the packets of at least 16 bytes and their sizes, modulo 2^32,
    skips the shorter ones, and never touches the loss counter, which only
    the client writes. *)
Theorem rate_server_counts (now : Z) (socket : list UdpPacket) :
  forall g,
    u32 (totalReceivedPackets g) -> u32 (totalBytesReceived g) ->
    let g' := Server_HandleRead now socket g in
    totalReceivedPackets g'
    = wrap32 (totalReceivedPackets g
              + Z.of_nat (length (filter accepted socket)))
    /\ totalBytesReceived g'
       = wrap32 (totalBytesReceived g
                 + fold_right Z.add 0 (map size (filter accepted socket)))
    /\ totalLostPackets g' = totalLostPackets g.
Proof.
  induction socket as [|p socket IH]; intros g Hr Hb; cbn zeta.
  - cbn. rewrite !Z.add_0_r, !wrap32_small by assumption. repeat split.
  - unfold Server_HandleRead. cbn [fold_left].
    fold (Server_HandleRead now socket (Server_HandleRead_one now p g)).
    unfold Server_HandleRead_one at 1 2 3. cbn [filter].
    change (CustomHeader_GetSize <=? size p) with (accepted p).
    destruct (accepted p).
    + match goal with
      | |- context [Server_HandleRead now socket ?g1] =>
          destruct (IH g1) as (H1 & H2 & H3);
            [apply wrap32_u32 | apply wrap32_u32 |]
      end.
      cbn zeta in H1, H2, H3. rewrite H1, H2, H3.
      cbn [totalReceivedPackets totalBytesReceived totalLostPackets length map
           fold_right].
      rewrite !wrap32_add_l. repeat split; f_equal; lia.
    + apply IH; assumption.
Qed.

Lemma rate_server_counts_witness :
  let socket := [mkUdpPacket 0 0 1024 1024; mkUdpPacket 1 0 8 8;
                 mkUdpPacket 2 0 16 16] in
  let g' := Server_HandleRead (Seconds 3) socket globals_reset in
  totalReceivedPackets g'
  = wrap32 (totalReceivedPackets globals_reset
            + Z.of_nat (length (filter accepted socket)))
  /\ totalBytesReceived g'
     = wrap32 (totalBytesReceived globals_reset
               + fold_right Z.add 0 (map size (filter accepted socket)))
  /\ totalLostPackets g' = totalLostPackets globals_reset.
Proof.
  apply (rate_server_counts (Seconds 3)
           [mkUdpPacket 0 0 1024 1024; mkUdpPacket 1 0 8 8; mkUdpPacket 2 0 16 16]
           globals_reset);
    unfold u32; simpl; lia.
Defined.

Lemma Server_HandleRead_uniform (now packetSize : Z) (socket : list UdpPacket) :
  CustomHeader_GetSize <= packetSize ->
  Forall (fun p => size p = packetSize) socket ->
  forall g,
    u32 (totalReceivedPackets g) -> u32 (totalBytesReceived g) ->
    let g' := Server_HandleRead now socket g in
    totalReceivedPackets g'
    = wrap32 (totalReceivedPackets g + Z.of_nat (length socket))
    /\ totalBytesReceived g'
       = wrap32 (totalBytesReceived g + Z.of_nat (length socket) * packetSize)
    /\ totalLostPackets g' = totalLostPackets g.
Proof.
  intros Hps Hall.
  induction Hall as [|p socket Hp _ IH]; intros g Hr Hb; cbn zeta.
  - cbn. rewrite !Z.add_0_r, !wrap32_small by assumption. repeat split.
  - unfold Server_HandleRead. cbn [fold_left].
    fold (Server_HandleRead now socket (Server_HandleRead_one now p g)).
    unfold Server_HandleRead_one at 1 2 3. rewrite Hp.
    destruct (Z.leb_spec CustomHeader_GetSize packetSize); [|lia].
    match goal with
    | |- context [Server_HandleRead now socket ?g1] =>
        destruct (IH g1) as (H1 & H2 & H3);
          [apply wrap32_u32 | apply wrap32_u32 |]
    end.
    cbn zeta in H1, H2, H3. rewrite H1, H2, H3.
    cbn [totalReceivedPackets totalBytesReceived totalLostPackets length].
    rewrite !wrap32_add_l. repeat split; f_equal; lia.
Qed.

(** X13. Client and server of the rate-controlled variant together: with a
    packet size of at least 16 bytes, every packet the client sends passes
    the server's size check, so the server counts as many packets as the
    client sent and [packetSize] bytes for each, modulo 2^32. *)
Theorem rate_transfer_counts (packetSize maxPackets now : Z) (n : nat)
        (g : Globals) :
  maxPackets < 2 ^ 32 -> 16 <= packetSize < 2 ^ 32 ->
  u32 (totalReceivedPackets g) -> u32 (totalBytesReceived g) ->
  let st := run Send_ok n (start packetSize maxPackets) in
  let g' := Server_HandleRead now (sent st) g in
  totalReceivedPackets g'
  = wrap32 (totalReceivedPackets g + m_packetsSent (client st))
  /\ totalBytesReceived g'
     = wrap32 (totalBytesReceived g + m_packetsSent (client st) * packetSize)
  /\ totalLostPackets g' = totalLostPackets g.
Proof.
  intros Hm Hps Hr Hb st g'.
  destruct (run_progress packetSize maxPackets n Hps Hm)
    as (_ & Hsz & Hsent & _ & Hmap & Hall & _).
  fold st in Hsz, Hsent, Hmap, Hall.
  assert (Hsize : Forall (fun p => size p = packetSize) (sent st)).
  { eapply Forall_impl; [|exact Hall]. cbn beta. intros p [_ ->].
    rewrite packet_of_size by (rewrite Hsz; exact Hps). exact Hsz. }
  assert (Hlen : Z.of_nat (length (sent st)) = m_packetsSent (client st)).
  { rewrite <- (length_map sequenceNumber), Hmap, length_map, length_seq, Hsent.
    lia. }
  destruct (Server_HandleRead_uniform now packetSize (sent st)
              ltac:(unfold CustomHeader_GetSize; lia) Hsize g Hr Hb)
    as (H1 & H2 & H3).
  fold g' in H1, H2, H3. rewrite Hlen in H1, H2.
  split; [assumption|]. split; assumption.
Qed.

Lemma rate_transfer_counts_witness :
  let st := run Send_ok 150 (start 1024 100) in
  let g' := Server_HandleRead (Seconds 10) (sent st) globals_reset in
  totalReceivedPackets g'
  = wrap32 (totalReceivedPackets globals_reset + m_packetsSent (client st))
  /\ totalBytesReceived g'
     = wrap32 (totalBytesReceived globals_reset + m_packetsSent (client st) * 1024)
  /\ totalLostPackets g' = totalLostPackets globals_reset.
Proof.
  apply (rate_transfer_counts 1024 100 (Seconds 10) 150 globals_reset);
    unfold u32; simpl; lia.
Defined.

(** *** Send failures in the run *)

Lemma fire_attempted (Send : UdpPacket -> Z) (maxPackets failed : Z) (st : State) :
  maxPackets < 2 ^ 32 ->
  attempted maxPackets failed st ->
  exists failed', attempted maxPackets failed' (fire Send st).
Proof.
  intros Hm (Hmax & H0 & Hle & Hf & Hseq & Hlost & Hmap & Hlen).
  unfold fire.
  destruct (Simulator.events (sim st)) as [|e rest] eqn:Hq.
  { exists failed. unfold attempted. rewrite Hq. repeat (split; [assumption|]).
    assumption. }
  assert (rest = []) by (destruct rest; [reflexivity | cbn in Hlen; lia]).
  subst rest.
  destruct Hf as [->|(_ & Hnil & _)]; [|discriminate].
  rewrite Z.add_0_r in Hseq, Hlost.
  change (2 ^ 32) with 4294967296 in Hm.
  destruct (Z.leb_spec (m_maxPackets (client st)) (m_packetsSent (client st)))
    as [Hclosed|Hopen].
  - (* the limit is reached *)
    unfold SendPacket.
    replace (m_maxPackets (client st) <=? m_packetsSent (client st)) with true
      by (symmetry; apply Z.leb_le; lia).
    rewrite app_nil_r. exists 0. unfold attempted.
    cbn [client globals sim sent Simulator.events length].
    rewrite !Z.add_0_r.
    repeat (split; [first [assumption | left; reflexivity]|]). lia.
  - set (s0 := Simulator.mk (Simulator.ts e) (Simulator.next_uid (sim st)) []).
    destruct (Z.lt_ge_cases 0 (Send (packet_of (client st) (Simulator.Now s0))))
      as [Hsend|Hfail].
    + destruct (SendPacket_sent Send (client st) (globals st) s0)
        as (c' & g' & sim' & Hrun & Hsent' & Hseq' & Hmax' & _ & Hlost' & Hev');
        [lia | rewrite Hmax; change (2 ^ 32) with 4294967296; lia | exact Hsend |].
      rewrite Hrun. exists 0. unfold attempted.
      cbn [client globals sim sent]. rewrite !Z.add_0_r.
      rewrite Hmax in *.
      split; [assumption|]. split; [lia|]. split; [right; lia|].
      split; [left; reflexivity|].
      split.
      { rewrite Hseq', Hsent', Hseq.
        apply wrap32_small. change (2 ^ 32) with 4294967296. lia. }
      split.
      { rewrite Hlost', Hlost, Hsent'.
        destruct (Z.eqb_spec ((m_packetsSent (client st) + 1) mod 15) 0);
          destruct (Z.eqb_spec ((m_packetsSent (client st) + 1) mod 40) 0);
          cbn [andb];
          try (rewrite wrap32_small
                by (change (2 ^ 32) with 4294967296;
                    Z.to_euclidean_division_equations; lia));
          Z.to_euclidean_division_equations; lia. }
      split.
      { rewrite map_app, Hmap, Hsent', seq_snoc by lia. cbn. rewrite Hseq.
        reflexivity. }
      destruct (m_packetsSent (client st) + 1 <? maxPackets).
      * destruct Hev' as (tm & -> & _). cbn. lia.
      * rewrite Hev'. cbn. lia.
    + rewrite (SendPacket_failed Send (client st) (globals st) s0)
        by (cbn [Simulator.Now] in *; assumption || lia).
      rewrite app_nil_r. exists 1. unfold attempted.
      cbn [client globals sim sent m_maxPackets m_packetsSent m_sequenceNumber
           totalLostPackets Simulator.events length].
      rewrite Hmax in *.
      split; [reflexivity|]. split; [assumption|]. split; [assumption|].
      split; [right; split; [reflexivity|]; split; [reflexivity | lia]|].
      split; [rewrite Hseq; apply wrap32_small;
              change (2 ^ 32) with 4294967296; lia|].
      split; [rewrite Hlost; apply wrap32_small;
              change (2 ^ 32) with 4294967296;
              Z.to_euclidean_division_equations; lia|].
      split; [assumption | cbn; lia].
Qed.

Lemma run_attempted (Send : UdpPacket -> Z) (packetSize maxPackets : Z) (n : nat) :
  maxPackets < 2 ^ 32 ->
  exists failed,
    attempted maxPackets failed (run Send n (start packetSize maxPackets)).
Proof.
  intros Hm. induction n as [|n IH].
  - exists 0. unfold attempted. cbn.
    repeat (split; [first [reflexivity | lia | left; reflexivity]|]). lia.
  - destruct IH as (failed & IH). unfold run. rewrite Nat.iter_succ.
    apply (fire_attempted Send maxPackets failed); assumption.
Qed.

(** X18. The rate-controlled client stops at its first failed send, whatever
    socket it runs over.  At most one send ever fails: the failure consumes a
    sequence number, is counted once in [totalLostPackets] (beside the two
    simulated losses per 120 packets sent) and schedules nothing, so the run
    ends there, short of [maxPackets].  Up to that point the packets carry
    the sequence numbers 0, 1, 2, ... without a gap. *)
Theorem rate_sender_stops_at_first_failure (Send : UdpPacket -> Z)
        (packetSize maxPackets : Z) (n : nat) :
  maxPackets < 2 ^ 32 ->
  let st := run Send n (start packetSize maxPackets) in
  let failed := m_sequenceNumber (client st) - m_packetsSent (client st) in
  (failed = 0 \/ failed = 1)
  /\ (failed = 1 ->
      Simulator.events (sim st) = []
      /\ m_packetsSent (client st) < maxPackets)
  /\ totalLostPackets (globals st)
     = 2 * (m_packetsSent (client st) / 120) + failed
  /\ map sequenceNumber (sent st)
     = map Z.of_nat (seq 0 (Z.to_nat (m_packetsSent (client st)))).
Proof.
  intros Hm st failed.
  destruct (run_attempted Send packetSize maxPackets n Hm)
    as (f & _ & _ & _ & Hf & Hseq & Hlost & Hmap & _).
  fold st in Hf, Hseq, Hlost, Hmap.
  assert (Hfailed : failed = f) by (unfold failed; lia).
  rewrite Hfailed.
  split; [destruct Hf as [->|(-> & _)]; [left | right]; reflexivity|].
  split; [intros ->; destruct Hf as [Hf|(_ & Hq & Hlt)]; [lia | split; assumption]|].
  split; assumption.
Qed.

Lemma rate_sender_stops_at_first_failure_witness :
  let st := run (Send_fails_at 7) 20 (start 1024 100) in
  let failed := m_sequenceNumber (client st) - m_packetsSent (client st) in
  (failed = 0 \/ failed = 1)
  /\ (failed = 1 ->
      Simulator.events (sim st) = []
      /\ m_packetsSent (client st) < 100)
  /\ totalLostPackets (globals st)
     = 2 * (m_packetsSent (client st) / 120) + failed
  /\ map sequenceNumber (sent st)
     = map Z.of_nat (seq 0 (Z.to_nat (m_packetsSent (client st)))).
Proof.
  apply (rate_sender_stops_at_first_failure (Send_fails_at 7) 1024 100 20). lia.
Defined.
End RateRun.

(** ** The transfer as a whole *)

Section Safety.
Import Scenario Transfer.

Lemma Forall_insert {E : Type} (P : Simulator.Scheduled E -> Prop)
      (x : Simulator.Scheduled E) (q : list (Simulator.Scheduled E)) :
  P x -> Forall P q -> Forall P (Simulator.insert x q).
Proof.
  intros Hx Hq. induction Hq as [|y q Hy Hq IH]; cbn [Simulator.insert].
  - constructor; [assumption | constructor].
  - destruct (Simulator.ts y <=? Simulator.ts x).
    + constructor; assumption.
    + constructor; [assumption|]. constructor; assumption.
Qed.

Lemma Forall_filter_keep {A : Type} (P : A -> Prop) (f : A -> bool) (l : list A) :
  Forall P l -> Forall P (filter f l).
Proof.
  intros Hl. apply Forall_forall. intros x Hx. apply filter_In in Hx.
  rewrite Forall_forall in Hl. apply Hl. apply Hx.
Qed.

Lemma link_ok_mono (n e n' e' : Z) (ev : Event) :
  n <= n' -> e <= e' -> link_ok n e ev -> link_ok n' e' ev.
Proof.
  intros Hn He. destruct ev as [| |seq|p from|p from]; cbn; try exact id.
  - intros (Hfrom & s & sz & Hp & Hs). split; [assumption|].
    exists s, sz. split; [assumption | lia].
  - intros (a & Hp & Ha). exists a. split; [assumption | lia].
Qed.

Lemma RemoveHeader_data (s sz : Z) :
  u32 s -> RemoveHeader (data_packet s sz) = Done (mkHeader s 0 false, Create sz).
Proof.
  intros Hs. unfold data_packet. apply RemoveHeader_AddHeader.
  split; cbn; [exact Hs | unfold u32; lia].
Qed.

Lemma RemoveHeader_ack (a : Z) :
  u32 a -> RemoveHeader (ack_packet a) = Done (mkHeader 0 a true, []).
Proof.
  intros Ha. unfold ack_packet. apply RemoveHeader_AddHeader.
  split; cbn; [unfold u32; lia | exact Ha].
Qed.

Lemma arrival_at_server (from : Address) (p : Packet) :
  arrival from serverAddress p = Some (EvServerRecv p from).
Proof. reflexivity. Qed.

Lemma arrival_at_client (from : Address) (p : Packet) :
  arrival from clientAddress p = Some (EvClientRecv p from).
Proof. reflexivity. Qed.

(** The link adds at most the arrival of the packet to the schedule, and
    nothing when the socket refuses the packet. *)
Lemma carry_one (from to : Address) (p : Packet) (w : World) :
  let w' := carry from [(to, p)] w in
  client w' = client w /\ server w' = server w
  /\ stopTime w' = stopTime w /\ linkDelay w' = linkDelay w
  /\ corrupted w' = corrupted w /\ history w' = history w
  /\ (Simulator.events (sim w') = Simulator.events (sim w)
      \/ exists t id e,
           0 <= UdpSocket.SendTo (to, p)
           /\ arrival from to p = Some e
           /\ Simulator.events (sim w')
              = Simulator.insert (Simulator.mkScheduled t id e)
                  (Simulator.events (sim w))).
Proof.
  cbn [carry].
  destruct (Z.ltb_spec (UdpSocket.SendTo (to, p)) 0) as [Hrefused|Hsent].
  { repeat (split; [reflexivity|]). left. reflexivity. }
  cbn [client server stopTime linkDelay corrupted history sim].
  repeat (split; [reflexivity|]).
  destruct (corrupted w (carried w)); [left; reflexivity|].
  destruct (arrival from to p) as [e|] eqn:He; [|left; reflexivity].
  right. cbn. exists (Simulator.Now (sim w) + linkDelay w), (Simulator.next_uid (sim w)), e.
  split; [assumption|]. split; reflexivity.
Qed.

Lemma carry_safe (from to : Address) (p : Packet) (w : World) :
  (forall e, 0 <= UdpSocket.SendTo (to, p) -> arrival from to p = Some e ->
     Sender.spawns (Simulator.mkScheduled 0 0%nat e) = 0%nat
     /\ link_ok (ReliableClient.m_nextSequence (client w))
                (ReliableServer.m_expectedSequence (server w)) e) ->
  safe (client w) (server w) (Simulator.events (sim w)) ->
  let w' := carry from [(to, p)] w in
  safe (client w') (server w') (Simulator.events (sim w')).
Proof.
  intros Hok (Hmax & Hn & Hle & Hrecv & Hone & Hrel & Hall & Hpeer) w'.
  destruct (carry_one from to p w) as (Hc & Hs & _ & _ & _ & _ & Hq).
  fold w' in Hc, Hs, Hq. rewrite Hc, Hs.
  destruct Hq as [-> | (t & id & e & Hsent & He & ->)].
  - repeat (split; [assumption|]). assumption.
  - destruct (Hok e Hsent He) as [Hsp Hlink].
    repeat (split; [assumption|]).
    split.
    { rewrite pending_sends_insert. unfold Sender.spawns in *.
      cbn [Simulator.impl] in *. rewrite Hsp. exact Hone. }
    split; [assumption|].
    split; [|assumption].
    apply Forall_insert; assumption.
Qed.

(** What the client sends is a data segment for the server, when its peer
    address is one the socket accepts. *)
Lemma client_sends_data (c : ReliableClient.t) (s sz next expected : Z) (e : Event) :
  names_server (ReliableClient.m_peerAddress c) -> 0 <= s < next ->
  0 <= UdpSocket.SendTo (ReliableClient.m_peerAddress c, data_packet s sz) ->
  arrival clientAddress (ReliableClient.m_peerAddress c) (data_packet s sz) = Some e ->
  Sender.spawns (Simulator.mkScheduled 0 0%nat e) = 0%nat
  /\ link_ok next expected e.
Proof.
  intros [Hpeer|Hpeer] Hs; rewrite Hpeer.
  - cbn [UdpSocket.SendTo fst]. lia.
  - intros _. rewrite arrival_at_server. intros E. injection E as <-.
    split; [reflexivity|]. cbn [link_ok]. split; [reflexivity|].
    exists s, sz. split; [reflexivity | exact Hs].
Qed.

Ltac split_safe :=
  unfold safe;
  refine (conj _ (conj _ (conj _ (conj _ (conj _ (conj _ (conj _ _))))))).

Lemma dispatch_safe (x : Simulator.Scheduled Event) (w : World) :
  safe (client w) (server w) (x :: Simulator.events (sim w)) ->
  exists w', dispatch (Simulator.impl x) w = Done w'
             /\ safe (client w') (server w') (Simulator.events (sim w'))
             /\ ReliableClient.m_maxPackets (client w')
                = ReliableClient.m_maxPackets (client w).
Proof.
  intros (Hmax & Hn & Hle & Hrecv & Hone & Hrel & Hall & Hpeer).
  inversion Hall as [|x' q' Hx Hq]; subst x' q'. clear Hall.
  rewrite pending_sends_cons in Hone. unfold Sender.spawns in Hone.
  change (2 ^ 32) with 4294967296 in Hmax.
  destruct (Simulator.impl x) as [| |seq|p from|p from] eqn:He; cbn [dispatch].
  - (* StartApplication *)
    cbn [ReliableClient.StartApplication Simulator.Schedule snd].
    eexists. split; [reflexivity|]. split; [|reflexivity].
    cbn [with_client client server sim Simulator.events].
    split_safe; try assumption.
    + rewrite pending_sends_insert. cbn [Sender.spawns Simulator.impl]. lia.
    + apply Forall_insert; [exact I | assumption].
  - (* SendPacket *)
    assert (Hw : ReliableClient.m_waitingForAck (client w) = false).
    { unfold Sender.awaited in Hone.
      destruct (ReliableClient.m_waitingForAck (client w)); [lia | reflexivity]. }
    rewrite Hw in Hrel.
    unfold ReliableClient.SendPacket.
    destruct (Z.leb_spec (ReliableClient.m_maxPackets (client w))
                (ReliableClient.m_nextSequence (client w))) as [Hclosed|Hopen].
    + eexists. split; [reflexivity|]. split; [|reflexivity].
      cbn [carry with_client client server sim].
      split_safe; try assumption; [lia | rewrite Hw; assumption].
    + cbn [Simulator.Schedule].
      match goal with
      | |- context [carry ?from [(?to, ?p)] ?w0] =>
          pose proof (carry_one from to p w0) as (Hstop & _);
          pose proof (carry_safe from to p w0) as Hcarry
      end.
      eexists. split; [reflexivity|]. split; [|rewrite Hstop; reflexivity].
      assert (Hnext : wrap32 (ReliableClient.m_nextSequence (client w) + 1)
                      = ReliableClient.m_nextSequence (client w) + 1)
        by (apply wrap32_small; change (2 ^ 32) with 4294967296; lia).
      apply Hcarry; clear Hcarry Hstop.
      * cbn [with_client client server ReliableClient.m_nextSequence].
        intros e.
        apply (client_sends_data (client w)
                 (ReliableClient.m_nextSequence (client w))
                 (ReliableClient.m_packetSize (client w))); [assumption|].
        rewrite Hnext. lia.
      * cbn [with_client client server sim Simulator.events].
        split_safe;
          cbn [ReliableClient.m_nextSequence ReliableClient.m_maxPackets
               ReliableClient.m_waitingForAck ReliableClient.m_pendingAckSequence
               ReliableClient.m_peerAddress Sender.awaited];
          rewrite ?Hnext.
        -- change (2 ^ 32) with 4294967296. assumption.
        -- lia.
        -- lia.
        -- assumption.
        -- rewrite pending_sends_insert. cbn [Sender.spawns Simulator.impl].
           unfold Sender.awaited. cbn [ReliableClient.m_waitingForAck]. lia.
        -- split; [reflexivity|]. split; [assumption|]. left. assumption.
        -- apply Forall_insert; [exact I|].
           eapply Forall_impl; [|exact Hq]. cbn beta. intros y.
           apply link_ok_mono; lia.
        -- assumption.
  - (* TimeoutHandler *)
    unfold ReliableClient.TimeoutHandler.
    destruct (ReliableClient.m_waitingForAck (client w)
              && (seq =? ReliableClient.m_pendingAckSequence (client w)))
      eqn:Hact.
    + apply andb_prop in Hact. destruct Hact as [Hw Heq].
      apply Z.eqb_eq in Heq. subst seq. rewrite Hw in Hrel.
      destruct Hrel as (Hnp & Hp & Hexp).
      cbn [Simulator.Schedule].
      match goal with
      | |- context [carry ?from [(?to, ?p)] ?w0] =>
          pose proof (carry_one from to p w0) as (Hstop & _);
          pose proof (carry_safe from to p w0) as Hcarry
      end.
      eexists. split; [reflexivity|]. split; [|rewrite Hstop; reflexivity].
      apply Hcarry; clear Hcarry Hstop.
      * cbn [with_client client server ReliableClient.m_nextSequence].
        intros e.
        apply (client_sends_data (client w)
                 (ReliableClient.m_pendingAckSequence (client w))
                 (ReliableClient.m_packetSize (client w))); [assumption | lia].
      * cbn [with_client client server sim Simulator.events].
        split_safe;
          cbn [ReliableClient.m_nextSequence ReliableClient.m_maxPackets
               ReliableClient.m_waitingForAck ReliableClient.m_pendingAckSequence
               ReliableClient.m_peerAddress Sender.awaited]; try assumption.
        -- rewrite pending_sends_insert. cbn [Sender.spawns Simulator.impl].
           unfold Sender.awaited in *. cbn [ReliableClient.m_waitingForAck].
           rewrite Hw in *. lia.
        -- rewrite Hw. split; [assumption|]. split; assumption.
        -- apply Forall_insert; [exact I | assumption].
    + eexists. split; [reflexivity|]. split; [|reflexivity].
      cbn [carry with_client client server sim].
      split_safe; try assumption; try lia.
  - (* the server receives *)
    cbn [link_ok] in Hx. destruct Hx as (-> & s & sz & -> & Hs).
    assert (Hnext : ReliableClient.m_nextSequence (client w) < 4294967296).
    { destruct Hle as [Hz|Hz]; lia. }
    cbn [ReliableServer.HandleRead]. unfold ReliableServer.HandleRead_one.
    rewrite RemoveHeader_data by (unfold u32; change (2 ^ 32) with 4294967296; lia).
    cbn [m_isAck negb m_sequenceNumber ReliableServer.m_expectedSequence
         ReliableServer.m_totalPacketsReceived ReliableServer.m_totalBytesReceived].
    destruct (Z.eqb_spec s (ReliableServer.m_expectedSequence (server w)))
      as [Heq|Hne].
    + cbn [app].
      match goal with
      | |- context [carry ?from [(?to, ?p)] ?w0] =>
          pose proof (carry_one from to p w0) as (Hstop & _);
          pose proof (carry_safe from to p w0) as Hcarry
      end.
      eexists. split; [reflexivity|]. split; [|rewrite Hstop; reflexivity].
      assert (Hexp : wrap32 (ReliableServer.m_expectedSequence (server w) + 1)
                     = ReliableServer.m_expectedSequence (server w) + 1)
        by (apply wrap32_small; change (2 ^ 32) with 4294967296; lia).
      apply Hcarry; clear Hcarry Hstop.
      * intros e _. rewrite arrival_at_client. intros E. injection E as <-.
        split; [reflexivity|].
        cbn [with_server client server ReliableServer.m_expectedSequence link_ok].
        exists s. split; [reflexivity|]. rewrite Hexp. lia.
      * cbn [with_server client server sim].
        split_safe;
          cbn [ReliableServer.m_expectedSequence
               ReliableServer.m_totalPacketsReceived];
          rewrite ?Hexp; try assumption; try lia.
        -- rewrite Hrecv. apply Hexp.
        -- destruct (ReliableClient.m_waitingForAck (client w)); lia.
        -- eapply Forall_impl; [|exact Hq]. cbn beta. intros y.
           apply link_ok_mono; lia.
    + cbn [app].
      eexists. split; [reflexivity|]. split; [|reflexivity].
      cbn [carry with_server client server sim].
      split_safe;
        cbn [ReliableServer.m_expectedSequence
             ReliableServer.m_totalPacketsReceived]; try assumption; try lia.
  - (* the client receives *)
    cbn [link_ok] in Hx. destruct Hx as (a & -> & Ha).
    assert (Hexp : ReliableServer.m_expectedSequence (server w) < 4294967296).
    { destruct (ReliableClient.m_waitingForAck (client w)); destruct Hle; lia. }
    cbn [ReliableClient.HandleRead]. unfold ReliableClient.HandleRead_one.
    rewrite RemoveHeader_ack by (unfold u32; change (2 ^ 32) with 4294967296; lia).
    cbn [m_isAck m_ackNumber].
    destruct (ReliableClient.m_waitingForAck (client w)
              && (a =? ReliableClient.m_pendingAckSequence (client w)))
      eqn:Hact.
    + apply andb_prop in Hact. destruct Hact as [Hw Heq].
      apply Z.eqb_eq in Heq. subst a. rewrite Hw in Hrel.
      destruct Hrel as (Hnp & Hp & Hexp').
      unfold Sender.awaited in Hone. rewrite Hw in Hone.
      eexists. split; [reflexivity|]. split; [|reflexivity].
      cbn [carry with_client client server sim Simulator.Schedule snd
           Simulator.events].
      split_safe;
        cbn [ReliableClient.m_nextSequence ReliableClient.m_maxPackets
             ReliableClient.m_waitingForAck ReliableClient.m_pendingAckSequence
             ReliableClient.m_peerAddress];
        try assumption.
      * rewrite pending_sends_insert. cbn [Sender.spawns Simulator.impl].
        unfold Sender.awaited. cbn [ReliableClient.m_waitingForAck].
        destruct (Simulator.IsPending _ _); cbn [Simulator.Cancel Simulator.events].
        -- pose proof (pending_sends_filter
                         (fun y => negb (Simulator.names
                                           (ReliableClient.m_timerEvent (client w)) y))
                         (Simulator.events (sim w))).
           lia.
        -- lia.
      * lia.
      * apply Forall_insert; [exact I|].
        destruct (Simulator.IsPending _ _); cbn [Simulator.Cancel Simulator.events].
        -- apply Forall_filter_keep. assumption.
        -- assumption.
    + eexists. split; [reflexivity|]. split; [|reflexivity].
      cbn [carry with_client client server sim].
      split_safe; try assumption; try lia.
Qed.

Lemma step_safe (w : World) (r : outcome World) :
  safe (client w) (server w) (Simulator.events (sim w)) ->
  step w = Some r ->
  exists w', r = Done w'
             /\ safe (client w') (server w') (Simulator.events (sim w'))
             /\ ReliableClient.m_maxPackets (client w')
                = ReliableClient.m_maxPackets (client w).
Proof.
  intros Hsafe. unfold step.
  destruct (Simulator.events (sim w)) as [|x rest] eqn:Hq; [discriminate|].
  destruct (stopTime w <=? Simulator.ts x); [discriminate|].
  intros H. inversion H as [Hr]. clear H.
  match goal with
  | |- context [dispatch _ ?w0] => apply (dispatch_safe x w0)
  end.
  exact Hsafe.
Qed.

Lemma setup_safe (remote : Address)
      (maxPackets packetSize interval timeout simulationTime delay : Z)
      (errors : nat -> bool) :
  names_server remote -> maxPackets < 2 ^ 32 ->
  let w := setup remote maxPackets packetSize interval timeout simulationTime
             delay errors in
  safe (client w) (server w) (Simulator.events (sim w)).
Proof.
  intros Hremote Hmax. cbn. split_safe; cbn; try lia; try reflexivity.
  - constructor; [exact I | constructor].
  - exact Hremote.
Qed.

Lemma reaches_safe (w w' : World) :
  reaches w w' ->
  safe (client w) (server w) (Simulator.events (sim w)) ->
  safe (client w') (server w') (Simulator.events (sim w')).
Proof.
  induction 1 as [|w w1 w2 _ IH Hstep]; intros Hsafe; [assumption|].
  destruct (step_safe w1 _ (IH Hsafe) Hstep) as (w' & Hw & Hs & _).
  inversion Hw; subst. exact Hs.
Qed.

Lemma reaches_steps (n : nat) : forall w, reaches w (steps n w).
Proof.
  induction n as [|n IH]; intros w; cbn [steps]; [constructor|].
  destruct (step w) as [[w1|]|] eqn:Hstep; try constructor.
  clear - IH Hstep. specialize (IH w1).
  induction IH as [|w1 w2 w3 _ IH' Hs]; [econstructor; [constructor | exact Hstep]|].
  econstructor; [apply IH'; exact Hstep | exact Hs].
Qed.

Lemma steps_add (n m : nat) : forall w, steps (n + m) w = steps m (steps n w).
Proof.
  induction n as [|n IH]; intros w; cbn [steps Nat.add]; [reflexivity|].
  destruct (step w) as [[w1|]|] eqn:Hstep.
  - apply IH.
  - destruct m; cbn [steps]; [reflexivity | rewrite Hstep; reflexivity].
  - destruct m; cbn [steps]; [reflexivity | rewrite Hstep; reflexivity].
Qed.
Lemma reaches_setup_safe (remote : Address)
      (maxPackets packetSize interval timeout simulationTime delay : Z)
      (errors : nat -> bool) (w : World) :
  names_server remote -> maxPackets < 2 ^ 32 ->
  reaches (setup remote maxPackets packetSize interval timeout simulationTime
             delay errors) w ->
  safe (client w) (server w) (Simulator.events (sim w))
  /\ ReliableClient.m_maxPackets (client w) = maxPackets.
Proof.
  intros Hremote Hmax Hreach.
  remember (setup remote maxPackets packetSize interval timeout simulationTime
              delay errors) as w0 eqn:Hw0.
  induction Hreach as [|w0 w1 w2 _ IH Hstep].
  - subst. split; [apply setup_safe; assumption | reflexivity].
  - destruct (IH Hw0) as [Hsafe Hm].
    destruct (step_safe w1 _ Hsafe Hstep) as (w' & Hw & Hs & Hm').
    inversion Hw; subst w'. split; [exact Hs | congruence].
Qed.

(** X14. Safety of the stop-and-wait transfer over any link, whatever it
    loses and however long it delays, whether the client is given the
    address of the server without its port, as in [main], or the address of
    its socket: in every world of the simulation the server has accepted
    each sequence number below [m_expectedSequence] once and in order, it is
    never ahead of the client and at most the awaited segment behind it, the
    awaited number is the newest one sent, and no number of [maxPackets] or
    above is ever sent. *)
Theorem transfer_is_safe (remote : Address)
        (maxPackets packetSize interval timeout simulationTime delay : Z)
        (errors : nat -> bool) (w : World) :
  names_server remote ->
  maxPackets < 2 ^ 32 ->
  reaches (setup remote maxPackets packetSize interval timeout simulationTime
             delay errors) w ->
  ReliableServer.m_totalPacketsReceived (server w)
  = ReliableServer.m_expectedSequence (server w)
  /\ ReliableClient.m_nextSequence (client w) - Z.of_nat (Sender.awaited (client w))
     <= ReliableServer.m_expectedSequence (server w)
     <= ReliableClient.m_nextSequence (client w)
  /\ 0 <= ReliableClient.m_nextSequence (client w) <= Z.max 0 maxPackets
  /\ (ReliableClient.m_waitingForAck (client w) = true ->
      ReliableClient.m_pendingAckSequence (client w)
      = ReliableClient.m_nextSequence (client w) - 1).
Proof.
  intros Hremote Hmax Hreach.
  destruct (reaches_setup_safe _ _ _ _ _ _ _ _ _ Hremote Hmax Hreach)
    as [(_ & Hn & Hle & Hrecv & _ & Hrel & _) Hm].
  unfold Sender.awaited.
  destruct (ReliableClient.m_waitingForAck (client w)).
  - split; [assumption|]. split; [lia|]. split; [lia|]. intros _. lia.
  - split; [assumption|]. split; [lia|]. split; [lia|]. discriminate.
Qed.

Lemma transfer_is_safe_witness :
  let w := steps 9
             (setup serverAddress 10 4 (Seconds 1) (MilliSeconds 500)
                (Seconds 30) (MilliSeconds 2) (loses 1)) in
  ReliableServer.m_totalPacketsReceived (server w)
  = ReliableServer.m_expectedSequence (server w)
  /\ ReliableClient.m_nextSequence (client w) - Z.of_nat (Sender.awaited (client w))
     <= ReliableServer.m_expectedSequence (server w)
     <= ReliableClient.m_nextSequence (client w)
  /\ 0 <= ReliableClient.m_nextSequence (client w) <= Z.max 0 10
  /\ (ReliableClient.m_waitingForAck (client w) = true ->
      ReliableClient.m_pendingAckSequence (client w)
      = ReliableClient.m_nextSequence (client w) - 1).
Proof.
  intros w.
  apply (transfer_is_safe serverAddress 10 4 (Seconds 1) (MilliSeconds 500)
           (Seconds 30) (MilliSeconds 2) (loses 1) w);
    [right; reflexivity | lia |].
  apply reaches_steps.
Defined.

(** X15. Between the two applications no header is ever read past the end of
    a packet: every packet on the link was built by [AddHeader], so
    [Simulator::Run] never ends in [ReadPastEnd], whatever the link loses or
    delays, with or without the port in the client's peer address.  The
    unguarded [Deserialize] can only fail on packets from elsewhere. *)
Theorem transfer_never_reads_past_end (remote : Address)
        (maxPackets packetSize interval timeout simulationTime delay : Z)
        (errors : nat -> bool) (fuel : nat) (size pos : nat) :
  names_server remote ->
  maxPackets < 2 ^ 32 ->
  Run fuel (setup remote maxPackets packetSize interval timeout simulationTime
              delay errors)
  <> Some (ReadPastEnd size pos).
Proof.
  intros Hremote Hmax.
  pose proof (setup_safe remote maxPackets packetSize interval timeout
                simulationTime delay errors Hremote Hmax) as Hsafe.
  cbn zeta in Hsafe.
  generalize dependent (setup remote maxPackets packetSize interval timeout
                          simulationTime delay errors).
  induction fuel as [|fuel IH]; intros w Hsafe; cbn [Run].
  - destruct (step w) as [r|] eqn:Hstep; [|discriminate].
    destruct (step_safe w r Hsafe Hstep) as (w' & -> & _). discriminate.
  - destruct (step w) as [r|] eqn:Hstep; [|discriminate].
    destruct (step_safe w r Hsafe Hstep) as (w' & -> & Hs & _).
    apply IH. exact Hs.
Qed.

Lemma transfer_never_reads_past_end_witness :
  Run 40
    (setup serverAddress 10 4 (Seconds 1) (MilliSeconds 500) (Seconds 30)
       (MilliSeconds 2) (loses 1))
  <> Some (ReadPastEnd 0 0).
Proof.
  apply (transfer_never_reads_past_end serverAddress 10 4 (Seconds 1)
           (MilliSeconds 500) (Seconds 30) (MilliSeconds 2) (loses 1) 40 0 0).
  - right. reflexivity.
  - lia.
Defined.

(** *** A lost acknowledgment *)

Lemma carry_data_no_ack (to : Address) (p : Packet) (w : World) :
  names_server to ->
  let w' := carry clientAddress [(to, p)] w in
  Forall (fun x => is_ack_event (Simulator.impl x) = false)
         (Simulator.events (sim w)) ->
  Forall (fun x => is_ack_event (Simulator.impl x) = false)
         (Simulator.events (sim w')).
Proof.
  intros Hto w' Hq.
  destruct (carry_one clientAddress to p w) as (_ & _ & _ & _ & _ & _ & Hev).
  fold w' in Hev.
  destruct Hev as [-> | (t & id & e & Hsent & He & ->)]; [assumption|].
  apply Forall_insert; [|assumption].
  destruct Hto as [-> | ->].
  - cbn [UdpSocket.SendTo fst] in Hsent. lia.
  - rewrite arrival_at_server in He. injection He as <-. reflexivity.
Qed.

Lemma dispatch_stalled (x : Simulator.Scheduled Event) (w : World) :
  safe (client w) (server w) (x :: Simulator.events (sim w)) ->
  ReliableClient.m_waitingForAck (client w) = true ->
  ReliableServer.m_expectedSequence (server w)
  = ReliableClient.m_nextSequence (client w) ->
  Forall (fun x => is_ack_event (Simulator.impl x) = false)
         (x :: Simulator.events (sim w)) ->
  exists w', dispatch (Simulator.impl x) w = Done w'
             /\ stalled w'
             /\ ReliableClient.m_nextSequence (client w')
                = ReliableClient.m_nextSequence (client w)
             /\ ReliableServer.m_expectedSequence (server w')
                = ReliableServer.m_expectedSequence (server w).
Proof.
  intros (Hmax & Hn & Hle & Hrecv & Hone & Hrel & Hall & Hpeer) Hw Hexp Hno.
  inversion Hall as [|x' q' Hx Hq]; subst x' q'. clear Hall.
  inversion Hno as [|x' q' Hnx Hnq]; subst x' q'. clear Hno.
  rewrite pending_sends_cons in Hone. unfold Sender.spawns, Sender.awaited in Hone.
  rewrite Hw in Hone, Hrel. destruct Hrel as (Hnp & Hp & _).
  change (2 ^ 32) with 4294967296 in Hmax.
  destruct (Simulator.impl x) as [| |seq|p from|p from] eqn:He; cbn [dispatch];
    [exfalso; lia | exfalso; lia | | | discriminate].
  - (* TimeoutHandler *)
    unfold ReliableClient.TimeoutHandler. rewrite Hw. cbn [andb].
    destruct (seq =? ReliableClient.m_pendingAckSequence (client w)).
    + cbn [Simulator.Schedule].
      match goal with
      | |- context [carry ?from [(?to, ?p)] ?w0] =>
          pose proof (carry_one from to p w0) as (Hc & Hs & _);
          pose proof (carry_data_no_ack to p w0 Hpeer) as Hcarry
      end.
      eexists. split; [reflexivity|]. unfold stalled. rewrite Hc, Hs.
      cbn [with_client client server sim ReliableClient.m_waitingForAck
           ReliableClient.m_nextSequence].
      split; [|split; reflexivity].
      split; [first [assumption | reflexivity]|]. split; [assumption|].
      apply Hcarry. cbn [with_client sim Simulator.events].
      apply Forall_insert; [reflexivity | assumption].
    + eexists. split; [reflexivity|].
      cbn [carry with_client]. unfold stalled. cbn [client server sim].
      split; [|split; reflexivity].
      split; [assumption|]. split; assumption.
  - (* the server receives a segment it has accepted before *)
    cbn [link_ok] in Hx. destruct Hx as (_ & s & sz & -> & Hs).
    cbn [ReliableServer.HandleRead]. unfold ReliableServer.HandleRead_one.
    rewrite RemoveHeader_data
      by (unfold u32; change (2 ^ 32) with 4294967296; destruct Hle; lia).
    cbn [m_isAck negb m_sequenceNumber ReliableServer.m_expectedSequence
         ReliableServer.m_totalPacketsReceived ReliableServer.m_totalBytesReceived].
    destruct (Z.eqb_spec s (ReliableServer.m_expectedSequence (server w)));
      [lia|].
    cbn [app]. eexists. split; [reflexivity|].
    cbn [carry with_server]. unfold stalled.
    cbn [client server sim ReliableServer.m_expectedSequence].
    split; [|split; reflexivity].
    split; [assumption|]. split; assumption.
Qed.

Lemma step_stalled (w w' : World) :
  safe (client w) (server w) (Simulator.events (sim w)) ->
  stalled w -> step w = Some (Done w') ->
  stalled w'
  /\ ReliableClient.m_nextSequence (client w')
     = ReliableClient.m_nextSequence (client w)
  /\ ReliableServer.m_expectedSequence (server w')
     = ReliableServer.m_expectedSequence (server w).
Proof.
  intros Hsafe (Hw & Hexp & Hno). unfold step.
  destruct (Simulator.events (sim w)) as [|x rest] eqn:Hq; [discriminate|].
  destruct (stopTime w <=? Simulator.ts x); [discriminate|].
  intros H. inversion H as [Hr]. clear H.
  match type of Hr with
  | dispatch _ ?w0 = _ =>
      destruct (dispatch_stalled x w0 Hsafe Hw Hexp Hno) as (w1 & Hd & Hres)
  end.
  rewrite Hd in Hr. inversion Hr; subst w1. exact Hres.
Qed.

Lemma reaches_stalled (w w' : World) :
  reaches w w' ->
  safe (client w) (server w) (Simulator.events (sim w)) -> stalled w ->
  stalled w'
  /\ ReliableClient.m_nextSequence (client w')
     = ReliableClient.m_nextSequence (client w)
  /\ ReliableServer.m_expectedSequence (server w')
     = ReliableServer.m_expectedSequence (server w).
Proof.
  induction 1 as [|w w1 w2 Hreach IH Hstep]; intros Hsafe Hst.
  - split; [assumption|]. split; reflexivity.
  - destruct (IH Hsafe Hst) as (Hst1 & Hn1 & He1).
    destruct (step_stalled w1 w2 (reaches_safe _ _ Hreach Hsafe) Hst1 Hstep)
      as (Hst2 & Hn2 & He2).
    split; [assumption|]. split; congruence.
Qed.

(** X16. One lost acknowledgment ends the transfer.  Once the server has
    accepted the awaited segment and its acknowledgment is not on the link,
    the transfer never advances again: the server answers no retransmission
    (it acknowledges a sequence number only when it is the expected one), so
    in every later world the client still awaits the same acknowledgment,
    sends no new sequence number, and the server accepts nothing more. *)
Theorem lost_acknowledgment_stalls_the_transfer (remote : Address)
        (maxPackets packetSize interval timeout simulationTime delay : Z)
        (errors : nat -> bool) (w w' : World) :
  names_server remote ->
  maxPackets < 2 ^ 32 ->
  reaches (setup remote maxPackets packetSize interval timeout simulationTime
             delay errors) w ->
  stalled w ->
  reaches w w' ->
  stalled w'
  /\ ReliableClient.m_nextSequence (client w')
     = ReliableClient.m_nextSequence (client w)
  /\ ReliableServer.m_totalPacketsReceived (server w')
     = ReliableServer.m_totalPacketsReceived (server w).
Proof.
  intros Hremote Hmax Hreach Hst Hreach'.
  destruct (reaches_setup_safe _ _ _ _ _ _ _ _ _ Hremote Hmax Hreach)
    as [Hsafe _].
  pose proof (reaches_safe _ _ Hreach' Hsafe) as Hsafe'.
  destruct (reaches_stalled _ _ Hreach' Hsafe Hst) as (Hst' & Hn & He).
  destruct Hsafe as (_ & _ & _ & Hr & _). destruct Hsafe' as (_ & _ & _ & Hr' & _).
  split; [assumption|]. split; [assumption | congruence].
Qed.

Lemma lost_acknowledgment_stalls_the_transfer_witness :
  let w0 := setup serverAddress 10 4 (Seconds 1) (MilliSeconds 500) (Seconds 30)
              (MilliSeconds 2) (loses 1) in
  stalled (steps 40 w0)
  /\ ReliableClient.m_nextSequence (client (steps 40 w0))
     = ReliableClient.m_nextSequence (client (steps 3 w0))
  /\ ReliableServer.m_totalPacketsReceived (server (steps 40 w0))
     = ReliableServer.m_totalPacketsReceived (server (steps 3 w0)).
Proof.
  intros w0.
  apply (lost_acknowledgment_stalls_the_transfer serverAddress 10 4 (Seconds 1)
           (MilliSeconds 500) (Seconds 30) (MilliSeconds 2) (loses 1)
           (steps 3 w0) (steps 40 w0)).
  - right. reflexivity.
  - lia.
  - apply reaches_steps.
  - vm_compute. repeat split; repeat constructor.
  - change 40%nat with (3 + 37)%nat. rewrite steps_add. apply reaches_steps.
Defined.

End Safety.

(** ** The transfer as a whole: acknowledgments *)

Section Acknowledgments.
Import Scenario Transfer.

Lemma acks_on_link_insert (x : Simulator.Scheduled Event) q :
  acks_on_link (Simulator.insert x q)
  = ((if is_ack_event (Simulator.impl x) then 1 else 0) + acks_on_link q)%nat.
Proof.
  unfold acks_on_link.
  induction q as [|y q IH]; cbn [Simulator.insert filter].
  - destruct (is_ack_event (Simulator.impl x)); reflexivity.
  - destruct (Simulator.ts y <=? Simulator.ts x); cbn [filter].
    + destruct (is_ack_event (Simulator.impl y)); cbn [length]; rewrite IH;
        destruct (is_ack_event (Simulator.impl x)); lia.
    + destruct (is_ack_event (Simulator.impl x)); reflexivity.
Qed.

Lemma acks_on_link_cons (x : Simulator.Scheduled Event) q :
  acks_on_link (x :: q)
  = ((if is_ack_event (Simulator.impl x) then 1 else 0) + acks_on_link q)%nat.
Proof.
  unfold acks_on_link. cbn [filter].
  destruct (is_ack_event (Simulator.impl x)); reflexivity.
Qed.

Lemma acks_on_link_filter (f : Simulator.Scheduled Event -> bool) q :
  (acks_on_link (filter f q) <= acks_on_link q)%nat.
Proof.
  unfold acks_on_link.
  induction q as [|y q IH]; cbn [filter]; [lia|].
  destruct (f y); cbn [filter];
    destruct (is_ack_event (Simulator.impl y)); cbn [length]; lia.
Qed.

Lemma carry_acks (from to : Address) (p : Packet) (k : nat) (w : World) :
  (forall e, 0 <= UdpSocket.SendTo (to, p) -> arrival from to p = Some e ->
     ((if is_ack_event e then 1 else 0) <= k)%nat) ->
  let w' := carry from [(to, p)] w in
  (acks_on_link (Simulator.events (sim w'))
   <= k + acks_on_link (Simulator.events (sim w)))%nat
  /\ history w' = history w /\ server w' = server w /\ client w' = client w.
Proof.
  intros Hk w'.
  destruct (carry_one from to p w) as (Hc & Hs & _ & _ & _ & Hh & Hq).
  fold w' in Hc, Hs, Hh, Hq.
  split; [|split; [assumption | split; assumption]].
  destruct Hq as [-> | (t & id & e & Hsent & He & ->)].
  - lia.
  - rewrite acks_on_link_insert. cbn [Simulator.impl].
    specialize (Hk e Hsent He). lia.
Qed.

Lemma client_sends_no_ack (to : Address) (p : Packet) (e : Event) :
  names_server to ->
  0 <= UdpSocket.SendTo (to, p) -> arrival clientAddress to p = Some e ->
  ((if is_ack_event e then 1 else 0) <= 0)%nat.
Proof.
  intros [-> | ->].
  - cbn [UdpSocket.SendTo fst]. lia.
  - intros _. rewrite arrival_at_server. intros E. injection E as <-. cbn. lia.
Qed.

Lemma dispatch_conserved (x : Simulator.Scheduled Event) (w : World) :
  safe (client w) (server w) (x :: Simulator.events (sim w)) ->
  exists w', dispatch (Simulator.impl x) w = Done w'
             /\ history w' = history w
             /\ Z.of_nat (acks_on_link (Simulator.events (sim w')))
                - ReliableServer.m_expectedSequence (server w')
                <= Z.of_nat (acks_on_link (Simulator.events (sim w)))
                   - ReliableServer.m_expectedSequence (server w).
Proof.
  intros (Hmax & Hn & Hle & Hrecv & Hone & Hrel & Hall & Hpeer).
  inversion Hall as [|x' q' Hx Hq]; subst x' q'. clear Hall.
  change (2 ^ 32) with 4294967296 in Hmax.
  destruct (Simulator.impl x) as [| |seq|p from|p from] eqn:He; cbn [dispatch].
  - cbn [ReliableClient.StartApplication Simulator.Schedule snd].
    eexists. split; [reflexivity|].
    cbn [with_client history server sim Simulator.events].
    split; [reflexivity|]. rewrite acks_on_link_insert. cbn. lia.
  - unfold ReliableClient.SendPacket.
    destruct (ReliableClient.m_maxPackets (client w)
              <=? ReliableClient.m_nextSequence (client w)).
    + eexists. split; [reflexivity|]. cbn [carry with_client history server sim].
      split; [reflexivity | lia].
    + cbn [Simulator.Schedule].
      match goal with
      | |- context [carry ?from [(?to, ?p)] ?w0] =>
          pose proof (carry_acks from to p 0 w0
                        (fun e => client_sends_no_ack to p e Hpeer))
            as (Hacks & Hh & Hs & _)
      end.
      eexists. split; [reflexivity|]. rewrite Hh, Hs.
      cbn [with_client history server sim Simulator.events is_ack_event] in *.
      split; [reflexivity|].
      rewrite acks_on_link_insert in Hacks. cbn [Simulator.impl is_ack_event] in Hacks.
      lia.
  - unfold ReliableClient.TimeoutHandler.
    destruct (ReliableClient.m_waitingForAck (client w)
              && (seq =? ReliableClient.m_pendingAckSequence (client w))).
    + cbn [Simulator.Schedule].
      match goal with
      | |- context [carry ?from [(?to, ?p)] ?w0] =>
          pose proof (carry_acks from to p 0 w0
                        (fun e => client_sends_no_ack to p e Hpeer))
            as (Hacks & Hh & Hs & _)
      end.
      eexists. split; [reflexivity|]. rewrite Hh, Hs.
      cbn [with_client history server sim Simulator.events is_ack_event] in *.
      split; [reflexivity|].
      rewrite acks_on_link_insert in Hacks. cbn [Simulator.impl is_ack_event] in Hacks.
      lia.
    + eexists. split; [reflexivity|]. cbn [carry with_client history server sim].
      split; [reflexivity | lia].
  - cbn [link_ok] in Hx. destruct Hx as (-> & s & sz & -> & Hs).
    assert (Hnext : ReliableClient.m_nextSequence (client w) < 4294967296)
      by (destruct Hle; lia).
    cbn [ReliableServer.HandleRead]. unfold ReliableServer.HandleRead_one.
    rewrite RemoveHeader_data by (unfold u32; change (2 ^ 32) with 4294967296; lia).
    cbn [m_isAck negb m_sequenceNumber ReliableServer.m_expectedSequence
         ReliableServer.m_totalPacketsReceived ReliableServer.m_totalBytesReceived].
    destruct (Z.eqb_spec s (ReliableServer.m_expectedSequence (server w)))
      as [Heq|Hne]; cbn [app].
    + match goal with
      | |- context [carry ?from [(?to, ?p)] ?w0] =>
          assert (Hone_ack : forall e, 0 <= UdpSocket.SendTo (to, p) ->
                               arrival from to p = Some e ->
                               ((if is_ack_event e then 1 else 0) <= 1)%nat)
            by (intros e _ _; destruct (is_ack_event e); lia);
          pose proof (carry_acks from to p 1 w0 Hone_ack) as (Hacks & Hh & Hsv & _)
      end.
      eexists. split; [reflexivity|]. rewrite Hh, Hsv.
      cbn [with_server history server sim Simulator.events is_ack_event
           ReliableServer.m_expectedSequence] in *.
      split; [reflexivity|].
      match type of Hacks with (?k <= _)%nat => generalize dependent k end.
      intros k Hacks.
      rewrite wrap32_small by (change (2 ^ 32) with 4294967296; lia). lia.
    + eexists. split; [reflexivity|].
      cbn [carry with_server history server sim ReliableServer.m_expectedSequence].
      split; [reflexivity | lia].
  - cbn [link_ok] in Hx. destruct Hx as (a & -> & Ha).
    assert (Hexp : ReliableServer.m_expectedSequence (server w) < 4294967296).
    { destruct (ReliableClient.m_waitingForAck (client w)); destruct Hle; lia. }
    cbn [ReliableClient.HandleRead]. unfold ReliableClient.HandleRead_one.
    rewrite RemoveHeader_ack by (unfold u32; change (2 ^ 32) with 4294967296; lia).
    cbn [m_isAck m_ackNumber].
    destruct (ReliableClient.m_waitingForAck (client w)
              && (a =? ReliableClient.m_pendingAckSequence (client w))).
    + eexists. split; [reflexivity|].
      cbn [carry with_client history server sim Simulator.Schedule snd
           Simulator.events].
      split; [reflexivity|]. rewrite acks_on_link_insert.
      cbn [Simulator.impl is_ack_event].
      destruct (Simulator.IsPending _ _); cbn [Simulator.Cancel Simulator.events].
      * pose proof (acks_on_link_filter
                      (fun y => negb (Simulator.names
                                        (ReliableClient.m_timerEvent (client w)) y))
                      (Simulator.events (sim w))).
        lia.
      * lia.
    + eexists. split; [reflexivity|]. cbn [carry with_client history server sim].
      split; [reflexivity | lia].
Qed.

Lemma step_conserved (w w' : World) :
  safe (client w) (server w) (Simulator.events (sim w)) ->
  conserved w -> step w = Some (Done w') -> conserved w'.
Proof.
  intros Hsafe Hcons. unfold step.
  destruct (Simulator.events (sim w)) as [|x rest] eqn:Hq; [discriminate|].
  destruct (stopTime w <=? Simulator.ts x); [discriminate|].
  intros H. apply Some_eq in H.
  match type of H with
  | dispatch _ ?w0 = _ =>
      destruct (dispatch_conserved x w0 Hsafe) as (w1 & Hd & Hh & Hle)
  end.
  rewrite Hd in H.
  apply (f_equal (fun o => match o with Done x => x | _ => w' end)) in H.
  cbn in H. subst w1.
  unfold conserved, acksReceived in *. rewrite Hh, Hq in *.
  cbn [history server sim Simulator.events] in *.
  rewrite acks_on_link_cons in Hcons. cbn [filter].
  destruct (Simulator.impl x) as [| |seq|p from|p from];
    cbn [is_ack_arrival is_ack_event length] in *; try lia.
  destruct (RemoveHeader p) as [[h ?]|]; [destruct (m_isAck h)|];
    cbn [length] in *; lia.
Qed.

(** X19. No acknowledgment is duplicated, whatever the link loses or delays
    and whether or not the client's peer address has the port: in every
    world of the simulation, the acknowledgments that have arrived at the
    client together with those still on the link are at most as many as the
    packets the server has accepted. *)
Theorem acknowledgments_are_not_duplicated (remote : Address)
        (maxPackets packetSize interval timeout simulationTime delay : Z)
        (errors : nat -> bool) (w : World) :
  names_server remote ->
  maxPackets < 2 ^ 32 ->
  reaches (setup remote maxPackets packetSize interval timeout simulationTime
             delay errors) w ->
  acksReceived w + Z.of_nat (acks_on_link (Simulator.events (sim w)))
  <= ReliableServer.m_totalPacketsReceived (server w).
Proof.
  intros Hremote Hmax Hreach.
  assert (H : safe (client w) (server w) (Simulator.events (sim w))
              /\ conserved w).
  { remember (setup remote maxPackets packetSize interval timeout simulationTime
                delay errors) as w0 eqn:Hw0.
    induction Hreach as [|w0 w1 w2 Hreach IH Hstep].
    - subst. split; [apply setup_safe; assumption|].
      unfold conserved. cbn. lia.
    - destruct (IH Hw0) as [Hsafe Hcons].
      destruct (step_safe w1 _ Hsafe Hstep) as (w' & Hw & Hs & _).
      apply (f_equal (fun o => match o with Done x => x | _ => w2 end)) in Hw.
      cbn in Hw. subst w'.
      split; [exact Hs|]. apply (step_conserved w1 w2 Hsafe Hcons Hstep). }
  destruct H as [(_ & _ & _ & Hrecv & _) Hcons].
  unfold conserved in Hcons. rewrite Hrecv. exact Hcons.
Qed.

Lemma acknowledgments_are_not_duplicated_witness :
  let w := steps 12
             (setup serverAddress 10 4 (Seconds 1) (MilliSeconds 500)
                (Seconds 30) (MilliSeconds 2) (loses 0)) in
  acksReceived w + Z.of_nat (acks_on_link (Simulator.events (sim w)))
  <= ReliableServer.m_totalPacketsReceived (server w).
Proof.
  intros w.
  apply (acknowledgments_are_not_duplicated serverAddress 10 4 (Seconds 1)
           (MilliSeconds 500) (Seconds 30) (MilliSeconds 2) (loses 0) w);
    [right; reflexivity | lia |].
  apply reaches_steps.
Defined.
End Acknowledgments.

(** ** The transfer to the server's socket over a link that discards at most
    one packet *)

Section CleanRun.
Import Scenario Transfer.
Variables maxPackets interval timeout stop d : Z.
Hypothesis Hd : 0 <= d.
Hypothesis Hrtt : 2 * d < timeout.

Ltac world_fields :=
  cbn [client server sim stopTime linkDelay corrupted carried history
       with_client with_server Simulator.events Simulator.Now Simulator.next_uid
       Simulator.ts Simulator.impl Simulator.uid Simulator.insert].

Lemma SendTo_server (h : ReliableHeader) (size : Z) :
  0 <= size <= 65498 ->
  (UdpSocket.SendTo (serverAddress, AddHeader h (Create size)) <? 0) = false.
Proof.
  intros Hsize. cbn [UdpSocket.SendTo fst snd serverAddress].
  rewrite GetSize_AddHeader, GetSize_Create by lia.
  unfold UdpSocket.MAX_IPV4_UDP_DATAGRAM_SIZE.
  replace (9 + size <=? 65507) with true by (symmetry; apply Z.leb_le; lia).
  apply Z.ltb_ge. lia.
Qed.

Lemma SendTo_client (h : ReliableHeader) :
  (UdpSocket.SendTo (clientAddress, AddHeader h (Create 0)) <? 0) = false.
Proof. reflexivity. Qed.

Ltac client_fields :=
  cbn [ReliableClient.m_peerAddress
       ReliableClient.m_timeout ReliableClient.m_maxPackets
       ReliableClient.m_interval ReliableClient.m_packetSize
       ReliableClient.m_retransmissions ReliableClient.m_totalPacketsSent
       ReliableClient.m_nextSequence ReliableClient.m_waitingForAck
       ReliableClient.m_pendingAckSequence ReliableClient.m_timerEvent
       ReliableServer.m_expectedSequence ReliableServer.m_totalPacketsReceived].

Ltac split_clean :=
  unfold clean;
  refine (conj _ (conj _ (conj _ (conj _ (conj _ (conj _ (conj _ (conj _
            (conj _ (conj _ (conj _ (conj _ _)))))))))))).

Ltac open_world w Hclean :=
  destruct Hclean as (Hpeer & Hsize & HM & HI & HT & Hstop & Hdelay & Hretx
                      & Hsent & Hn & Hle & Hrecv & Hacks);
  destruct w as [c sv [now uid q] stop' d' corr n hist];
  cbn [client server sim stopTime linkDelay corrupted carried
       Simulator.events] in *;
  unfold acksReceived in Hacks; cbn [history] in Hacks;
  unfold Sender.awaited in Hacks;
  subst stop' d'.

Ltac same_link := split; [reflexivity | world_fields; lia].

Ltac count_acks Hw Hacks :=
  unfold acksReceived; world_fields; cbn [filter is_ack_arrival];
  unfold Sender.awaited; client_fields; rewrite ?Hw; first [exact Hacks | lia].

Lemma fire_start (r t : Z) (w : World) :
  clean maxPackets interval timeout stop d r w -> at_start t w -> t < stop ->
  exists w', step w = Some (Done w')
             /\ clean maxPackets interval timeout stop d r w'
             /\ at_send (t + MilliSeconds 100) w'
             /\ ReliableClient.m_nextSequence (client w')
                = ReliableClient.m_nextSequence (client w)
             /\ carried_on 0 w w'.
Proof.
  intros Hclean [[Hw Hexp] (id & Hq)] Ht. open_world w Hclean. subst q.
  rewrite Hw in Hacks.
  unfold step. world_fields.
  replace (stop <=? t) with false by (symmetry; apply Z.leb_gt; lia).
  cbn [dispatch ReliableClient.StartApplication Simulator.Schedule snd].
  world_fields. eexists. split; [reflexivity|].
  split; [|split; [|split; [reflexivity | same_link]]].
  - split_clean; world_fields; try assumption; try reflexivity.
    count_acks Hw Hacks.
  - split; [split; assumption|]. world_fields. eexists. reflexivity.
Qed.

Lemma fire_send_closed (r t : Z) (w : World) :
  clean maxPackets interval timeout stop d r w -> at_send t w -> t < stop ->
  maxPackets <= ReliableClient.m_nextSequence (client w) ->
  exists w', step w = Some (Done w')
             /\ clean maxPackets interval timeout stop d r w'
             /\ at_end w'
             /\ ReliableClient.m_nextSequence (client w')
                = ReliableClient.m_nextSequence (client w)
             /\ carried_on 0 w w'.
Proof.
  intros Hclean [[Hw Hexp] (id & Hq)] Ht Hclosed. open_world w Hclean. subst q.
  rewrite Hw in Hacks.
  unfold step. world_fields.
  replace (stop <=? t) with false by (symmetry; apply Z.leb_gt; lia).
  cbn [dispatch]. unfold ReliableClient.SendPacket. world_fields.
  replace (ReliableClient.m_maxPackets c <=? ReliableClient.m_nextSequence c)
    with true by (symmetry; apply Z.leb_le; lia).
  cbn [carry]. world_fields. eexists. split; [reflexivity|].
  split; [|split; [|split; [reflexivity | same_link]]].
  - split_clean; world_fields; try assumption; try reflexivity.
    count_acks Hw Hacks.
  - split; [split; assumption|]. world_fields. split; [reflexivity | lia].
Qed.

(** [SendPacket] with the gate open: the data segment is carried or lost. *)
Lemma fire_send_open (r t : Z) (w : World) :
  0 <= r -> maxPackets + r < 2 ^ 32 ->
  clean maxPackets interval timeout stop d r w -> at_send t w -> t < stop ->
  ReliableClient.m_nextSequence (client w) < maxPackets ->
  exists w', step w = Some (Done w')
             /\ clean maxPackets interval timeout stop d r w'
             /\ (if corrupted w (carried w) then at_timer t w' else at_data t w')
             /\ ReliableClient.m_nextSequence (client w')
                = ReliableClient.m_nextSequence (client w) + 1
             /\ carried_on 1 w w'.
Proof.
  intros Hr Hmax Hclean [[Hw Hexp] (id & Hq)] Ht Hopen. open_world w Hclean.
  subst q. rewrite Hw in Hacks. change (2 ^ 32) with 4294967296 in Hmax.
  unfold step. world_fields.
  replace (stop <=? t) with false by (symmetry; apply Z.leb_gt; lia).
  cbn [dispatch]. unfold ReliableClient.SendPacket. world_fields.
  replace (ReliableClient.m_maxPackets c <=? ReliableClient.m_nextSequence c)
    with false by (symmetry; apply Z.leb_gt; lia).
  cbn [Simulator.Schedule carry]. rewrite Hpeer, SendTo_server by exact Hsize.
  rewrite arrival_at_server. world_fields.
  assert (Hnext : wrap32 (ReliableClient.m_nextSequence c + 1)
                  = ReliableClient.m_nextSequence c + 1)
    by (apply wrap32_small; change (2 ^ 32) with 4294967296; lia).
  assert (Hsent' : wrap32 (ReliableClient.m_totalPacketsSent c + 1)
                   = ReliableClient.m_nextSequence c + 1 + r)
    by (rewrite Hsent; rewrite wrap32_small;
        [lia | change (2 ^ 32) with 4294967296; lia]).
  destruct (corr n).
  - world_fields. eexists. split; [reflexivity|].
    split; [|split; [|split; [|same_link]]].
    + split_clean; world_fields; client_fields; rewrite ?Hsent', ?Hnext;
        try assumption; try reflexivity; try lia.
      count_acks Hw Hacks.
    + unfold at_timer, awaiting. world_fields. client_fields. rewrite Hnext.
      split; [split; reflexivity|]. split; [exact Hexp|].
      eexists. split; reflexivity.
    + world_fields. client_fields. exact Hnext.
  - cbn [Simulator.Schedule snd]. world_fields.
    replace (t + ReliableClient.m_timeout c <=? t + d) with false
      by (symmetry; apply Z.leb_gt; lia).
    eexists. split; [reflexivity|].
    split; [|split; [|split; [|same_link]]].
    + split_clean; world_fields; client_fields; rewrite ?Hsent', ?Hnext;
        try assumption; try reflexivity; try lia.
      count_acks Hw Hacks.
    + unfold at_data, awaiting. world_fields. client_fields. rewrite Hnext.
      split; [split; reflexivity|]. split; [exact Hexp|].
      eexists _, _. split; reflexivity.
    + world_fields. client_fields. exact Hnext.
Qed.

(** The timer of a lost data segment fires: the segment is sent again, and
    carried or lost again. *)
Lemma fire_timer (r t : Z) (w : World) :
  0 <= r -> maxPackets + r + 1 < 2 ^ 32 ->
  clean maxPackets interval timeout stop d r w -> at_timer t w ->
  t + timeout < stop ->
  exists w', step w = Some (Done w')
             /\ clean maxPackets interval timeout stop d (r + 1) w'
             /\ (if corrupted w (carried w)
                 then at_timer (t + timeout) w' else at_data (t + timeout) w')
             /\ ReliableClient.m_nextSequence (client w')
                = ReliableClient.m_nextSequence (client w)
             /\ carried_on 1 w w'.
Proof.
  intros Hr Hmax Hclean [[Hw Hnp] (Hexp & id & Htimer & Hq)] Ht.
  open_world w Hclean. subst q. rewrite Hw in Hacks.
  change (2 ^ 32) with 4294967296 in Hmax.
  unfold step. world_fields. rewrite HT.
  replace (stop <=? t + timeout) with false by (symmetry; apply Z.leb_gt; lia).
  cbn [dispatch]. unfold ReliableClient.TimeoutHandler. world_fields.
  rewrite Hw, Z.eqb_refl. cbn [andb Simulator.Schedule carry].
  rewrite Hpeer, SendTo_server by exact Hsize.
  rewrite arrival_at_server. world_fields.
  assert (Hretx' : wrap32 (ReliableClient.m_retransmissions c + 1) = r + 1)
    by (rewrite Hretx; apply wrap32_small;
        change (2 ^ 32) with 4294967296; destruct Hle; lia).
  assert (Hsent' : wrap32 (ReliableClient.m_totalPacketsSent c + 1)
                   = ReliableClient.m_nextSequence c + (r + 1))
    by (rewrite Hsent; rewrite wrap32_small;
        [lia | change (2 ^ 32) with 4294967296; destruct Hle; lia]).
  destruct (corr n).
  - world_fields. eexists. split; [reflexivity|].
    split; [|split; [|split; [reflexivity | same_link]]].
    + split_clean; world_fields; client_fields; rewrite ?Hsent', ?Hretx';
        try assumption; try reflexivity; try (count_acks Hw Hacks).
    + unfold at_timer, awaiting. world_fields. client_fields. rewrite ?HT.
      split; [split; [reflexivity | assumption]|]. split; [exact Hexp|].
      eexists. split; reflexivity.
  - cbn [Simulator.Schedule snd]. world_fields. rewrite ?HT.
    replace (t + timeout + timeout <=? t + timeout + d) with false
      by (symmetry; apply Z.leb_gt; lia).
    eexists. split; [reflexivity|].
    split; [|split; [|split; [reflexivity | same_link]]].
    + split_clean; world_fields; client_fields; rewrite ?Hsent', ?Hretx';
        try assumption; try reflexivity; try (count_acks Hw Hacks).
    + unfold at_data, awaiting. world_fields. client_fields. rewrite ?HT.
      split; [split; [reflexivity | assumption]|]. split; [exact Hexp|].
      eexists _, _. split; reflexivity.
Qed.

(** The data segment arrives: the server accepts it, and its acknowledgment
    is carried or lost. *)
Lemma fire_data (r t : Z) (w : World) :
  maxPackets < 2 ^ 32 ->
  clean maxPackets interval timeout stop d r w -> at_data t w -> t + d < stop ->
  exists w', step w = Some (Done w')
             /\ clean maxPackets interval timeout stop d r w'
             /\ (if corrupted w (carried w) then stalled w' else at_ack t w')
             /\ ReliableClient.m_nextSequence (client w')
                = ReliableClient.m_nextSequence (client w)
             /\ ReliableServer.m_expectedSequence (server w')
                = ReliableClient.m_nextSequence (client w)
             /\ carried_on 1 w w'.
Proof.
  intros Hmax Hclean [[Hw Hnp] (Hexp & id1 & id2 & Htimer & Hq)] Ht.
  open_world w Hclean. subst q. rewrite Hw in Hacks.
  change (2 ^ 32) with 4294967296 in Hmax.
  assert (Hp : u32 (ReliableClient.m_pendingAckSequence c))
    by (unfold u32; change (2 ^ 32) with 4294967296; destruct Hle; lia).
  unfold step. world_fields.
  replace (stop <=? t + d) with false by (symmetry; apply Z.leb_gt; lia).
  cbn [dispatch ReliableServer.HandleRead]. world_fields.
  unfold ReliableServer.HandleRead_one.
  rewrite RemoveHeader_data by exact Hp.
  cbn [m_isAck negb m_sequenceNumber]. client_fields.
  rewrite Hexp, Z.eqb_refl. cbn [app carry]. rewrite SendTo_client.
  rewrite arrival_at_client. world_fields.
  assert (Hnext : wrap32 (ReliableClient.m_pendingAckSequence c + 1)
                  = ReliableClient.m_nextSequence c)
    by (rewrite wrap32_small; [lia | change (2 ^ 32) with 4294967296;
                                     destruct Hle; lia]).
  destruct (corr n).
  - world_fields. eexists. split; [reflexivity|].
    split; [|split; [|split; [reflexivity | split; [exact Hnext | same_link]]]].
    + split_clean; world_fields; client_fields;
        try assumption; try reflexivity; try (count_acks Hw Hacks).
      rewrite Hrecv, Hexp. reflexivity.
    + unfold stalled. world_fields. client_fields.
      split; [exact Hw|]. split; [exact Hnext|].
      constructor; [reflexivity | constructor].
  - cbn [Simulator.Schedule snd]. world_fields.
    replace (t + ReliableClient.m_timeout c <=? t + d + d) with false
      by (symmetry; apply Z.leb_gt; lia).
    eexists. split; [reflexivity|].
    split; [|split; [|split; [reflexivity | split; [exact Hnext | same_link]]]].
    + split_clean; world_fields; client_fields;
        try assumption; try reflexivity; try (count_acks Hw Hacks).
      rewrite Hrecv, Hexp. reflexivity.
    + unfold at_ack, awaiting. world_fields. client_fields.
      split; [split; assumption|]. split; [exact Hnext|].
      eexists _, _. split; [exact Htimer|].
      replace (t + 2 * d) with (t + d + d) by lia. reflexivity.
Qed.

Lemma fire_ack (r t : Z) (w : World) :
  maxPackets < 2 ^ 32 ->
  clean maxPackets interval timeout stop d r w -> at_ack t w -> t + 2 * d < stop ->
  exists w', step w = Some (Done w')
             /\ clean maxPackets interval timeout stop d r w'
             /\ at_send (t + 2 * d + interval) w'
             /\ ReliableClient.m_nextSequence (client w')
                = ReliableClient.m_nextSequence (client w)
             /\ carried_on 0 w w'.
Proof.
  intros Hmax Hclean [[Hw Hnp] (Hexp & id1 & id2 & Htimer & Hq)] Ht.
  open_world w Hclean. subst q. rewrite Hw in Hacks.
  change (2 ^ 32) with 4294967296 in Hmax.
  assert (Hp : u32 (ReliableClient.m_pendingAckSequence c))
    by (unfold u32; change (2 ^ 32) with 4294967296; destruct Hle; lia).
  unfold step. world_fields.
  replace (stop <=? t + 2 * d) with false by (symmetry; apply Z.leb_gt; lia).
  cbn [dispatch ReliableClient.HandleRead]. world_fields.
  unfold ReliableClient.HandleRead_one.
  rewrite RemoveHeader_ack by exact Hp.
  cbn [m_isAck m_ackNumber]. rewrite Hw, Z.eqb_refl. cbn [andb].
  rewrite Htimer. unfold Simulator.IsPending, Simulator.Cancel.
  cbn [Simulator.events existsb filter Simulator.names Simulator.uid].
  rewrite Nat.eqb_refl.
  cbn [orb negb carry Simulator.Schedule snd]. world_fields.
  client_fields.
  eexists. split; [reflexivity|].
  split; [|split; [|split; [reflexivity | same_link]]].
  - split_clean; world_fields; client_fields;
      try assumption; try reflexivity.
    unfold acksReceived. world_fields. cbn [filter is_ack_arrival].
    rewrite RemoveHeader_ack by exact Hp. cbn [m_isAck length].
    unfold Sender.awaited. client_fields. lia.
  - unfold at_send, idle. world_fields. client_fields.
    split; [split; [reflexivity | exact Hexp]|].
    rewrite HI. eexists. reflexivity.
Qed.

Lemma step_late (w : World) (e : Simulator.Scheduled Event)
      (rest : list (Simulator.Scheduled Event)) :
  Simulator.events (sim w) = e :: rest -> stopTime w <= Simulator.ts e ->
  step w = None.
Proof.
  intros Hq Hlate. unfold step. rewrite Hq.
  replace (stopTime w <=? Simulator.ts e) with true
    by (symmetry; apply Z.leb_le; exact Hlate).
  reflexivity.
Qed.

Lemma steps_step (w w' : World) (n : nat) :
  step w = Some (Done w') -> steps (S n) w = steps n w'.
Proof. intros H. cbn [steps]. rewrite H. reflexivity. Qed.

Lemma Run_steps (n : nat) : forall (w : World) (fuel : nat),
  step (steps n w) = None -> (n <= fuel)%nat ->
  Run fuel w = Some (Done (steps n w)).
Proof.
  induction n as [|n IH]; intros w fuel Hend Hfuel.
  - apply Run_finished. exact Hend.
  - cbn [steps] in *. destruct (step w) as [[w'|sz pos]|] eqn:Hstep.
    + destruct fuel as [|fuel]; [lia|].
      rewrite (Run_step w w' fuel Hstep). apply IH; [exact Hend | lia].
    + congruence.
    + apply Run_finished. exact Hstep.
Qed.

Lemma setup_clean (packetSize : Z) (errors : nat -> bool) :
  0 <= packetSize <= 65498 ->
  let w := setup serverAddress maxPackets packetSize interval timeout stop d
             errors in
  clean maxPackets interval timeout stop d 0 w /\ at_start (Seconds 2) w
  /\ corrupted w = errors /\ carried w = 0%nat.
Proof.
  intros Hsize. cbn zeta. split; [|split; [|split; reflexivity]].
  - split_clean; cbn; try reflexivity; try lia.
  - split; [split; reflexivity|]. eexists. reflexivity.
Qed.

(** *** Without loss *)

Hypothesis Hmax : maxPackets < 2 ^ 32.

Lemma step_on_course (w : World) (r : outcome World) :
  clean maxPackets interval timeout stop d 0 w -> on_course w ->
  (forall n, corrupted w n = false) ->
  step w = Some r ->
  exists w', r = Done w'
             /\ clean maxPackets interval timeout stop d 0 w' /\ on_course w'
             /\ corrupted w' = corrupted w.
Proof.
  intros Hclean Hcourse Hcorr Hstep.
  assert (Hstop : stopTime w = stop) by apply Hclean.
  assert (Hdelay : linkDelay w = d) by apply Hclean.
  assert (Hmax0 : maxPackets + 0 < 2 ^ 32) by lia.
  pose proof (Hcorr (carried w)) as Hok.
  destruct Hcourse as [(_ & Hq & _)|(t & [Hs|[Hs|[Hs|Hs]]])].
  - unfold step in Hstep. rewrite Hq in Hstep. discriminate.
  - destruct (Z.lt_ge_cases t stop) as [Ht|Ht].
    + destruct (fire_start 0 t w Hclean Hs Ht) as (w' & Hw' & Hc' & Hs' & _ & Hl & _).
      rewrite Hw' in Hstep. apply Some_eq in Hstep. subst r.
      exists w'. split; [reflexivity|]. split; [exact Hc'|].
      split; [|exact Hl]. right. eexists. right. left. exact Hs'.
    + destruct Hs as [_ (id & Hq)].
      rewrite (step_late w _ _ Hq) in Hstep by (rewrite Hstop; exact Ht).
      discriminate.
  - destruct (Z.lt_ge_cases t stop) as [Ht|Ht].
    + destruct (Z.lt_ge_cases (ReliableClient.m_nextSequence (client w)) maxPackets)
        as [Hopen|Hclosed].
      * destruct (fire_send_open 0 t w (Z.le_refl 0) Hmax0 Hclean Hs Ht Hopen)
          as (w' & Hw' & Hc' & Hs' & _ & Hl & _).
        rewrite Hok in Hs'.
        rewrite Hw' in Hstep. apply Some_eq in Hstep. subst r.
        exists w'. split; [reflexivity|]. split; [exact Hc'|].
        split; [|exact Hl]. right. eexists. right. right. left. exact Hs'.
      * destruct (fire_send_closed 0 t w Hclean Hs Ht Hclosed)
          as (w' & Hw' & Hc' & Hs' & _ & Hl & _).
        rewrite Hw' in Hstep. apply Some_eq in Hstep. subst r.
        exists w'. split; [reflexivity|]. split; [exact Hc'|].
        split; [|exact Hl]. left. exact Hs'.
    + destruct Hs as [_ (id & Hq)].
      rewrite (step_late w _ _ Hq) in Hstep by (rewrite Hstop; exact Ht).
      discriminate.
  - destruct (Z.lt_ge_cases (t + d) stop) as [Ht|Ht].
    + destruct (fire_data 0 t w Hmax Hclean Hs Ht)
        as (w' & Hw' & Hc' & Hs' & _ & _ & Hl & _).
      rewrite Hok in Hs'.
      rewrite Hw' in Hstep. apply Some_eq in Hstep. subst r.
      exists w'. split; [reflexivity|]. split; [exact Hc'|].
      split; [|exact Hl]. right. eexists. right. right. right. exact Hs'.
    + destruct Hs as (_ & _ & id1 & id2 & _ & Hq).
      rewrite (step_late w _ _ Hq) in Hstep
        by (rewrite Hstop, Hdelay; exact Ht).
      discriminate.
  - destruct (Z.lt_ge_cases (t + 2 * d) stop) as [Ht|Ht].
    + destruct (fire_ack 0 t w Hmax Hclean Hs Ht)
        as (w' & Hw' & Hc' & Hs' & _ & Hl & _).
      rewrite Hw' in Hstep. apply Some_eq in Hstep. subst r.
      exists w'. split; [reflexivity|]. split; [exact Hc'|].
      split; [|exact Hl]. right. eexists. right. left. exact Hs'.
    + destruct Hs as (_ & _ & id1 & id2 & _ & Hq).
      rewrite (step_late w _ _ Hq) in Hstep
        by (rewrite Hstop, Hdelay; exact Ht).
      discriminate.
Qed.

Lemma reaches_on_course (w0 w : World) :
  reaches w0 w ->
  clean maxPackets interval timeout stop d 0 w0 -> on_course w0 ->
  (forall n, corrupted w0 n = false) ->
  clean maxPackets interval timeout stop d 0 w /\ on_course w
  /\ corrupted w = corrupted w0.
Proof.
  induction 1 as [|w0 w1 w2 _ IH Hstep]; intros Hclean Hcourse Hcorr.
  - split; [assumption|]. split; [assumption | reflexivity].
  - destruct (IH Hclean Hcourse Hcorr) as (Hc1 & Ho1 & Hl1).
    destruct (step_on_course w1 (Done w2) Hc1 Ho1) as (w' & Hw & Hc & Ho & Hl);
      [intros n; rewrite Hl1; apply Hcorr | exact Hstep |].
    apply (f_equal (fun o => match o with Done x => x | _ => w2 end)) in Hw.
    cbn in Hw. subst w'. split; [assumption|]. split; [assumption | congruence].
Qed.

(** *** Rounds *)

Hypothesis Hinterval : 0 <= interval.

Lemma rounds (r : Z) (m : nat) : forall (w : World) (t : Z),
  0 <= r -> maxPackets + r < 2 ^ 32 ->
  clean maxPackets interval timeout stop d r w -> at_send t w ->
  (forall n, (carried w <= n < carried w + 2 * m)%nat -> corrupted w n = false) ->
  ReliableClient.m_nextSequence (client w) + Z.of_nat m <= maxPackets ->
  t + Z.of_nat m * (2 * d + interval) < stop ->
  let w' := steps (3 * m) w in
  clean maxPackets interval timeout stop d r w'
  /\ at_send (t + Z.of_nat m * (2 * d + interval)) w'
  /\ ReliableClient.m_nextSequence (client w')
     = ReliableClient.m_nextSequence (client w) + Z.of_nat m
  /\ carried_on (2 * m) w w'.
Proof.
  induction m as [|m IH]; intros w t Hr Hmr Hclean Hs Hcorr Hn Ht; cbn zeta.
  - change (3 * 0)%nat with 0%nat. change (2 * 0)%nat with 0%nat.
    cbn [steps]. rewrite Z.mul_0_l, !Z.add_0_r.
    split; [assumption|]. split; [assumption|]. split; [reflexivity|].
    split; [reflexivity | lia].
  - rewrite Nat2Z.inj_succ, Z.mul_succ_l in *.
    assert (Hpos : 0 <= Z.of_nat m * (2 * d + interval))
      by (apply Z.mul_nonneg_nonneg; lia).
    destruct (fire_send_open r t w Hr Hmr Hclean Hs)
      as (w1 & Hstep1 & Hc1 & Hs1 & Hn1 & Hl1 & Hk1); [lia | lia |].
    rewrite Hcorr in Hs1 by lia.
    destruct (fire_data r t w1 Hmax Hc1 Hs1)
      as (w2 & Hstep2 & Hc2 & Hs2 & Hn2 & _ & Hl2 & Hk2); [lia|].
    rewrite Hl1, Hk1, Hcorr in Hs2 by lia.
    destruct (fire_ack r t w2 Hmax Hc2 Hs2)
      as (w3 & Hstep3 & Hc3 & Hs3 & Hn3 & Hl3 & Hk3); [lia|].
    replace (3 * S m)%nat with (3 + 3 * m)%nat by lia.
    rewrite steps_add.
    rewrite (steps_step _ _ _ Hstep1), (steps_step _ _ _ Hstep2),
      (steps_step _ _ _ Hstep3).
    cbn [steps].
    destruct (IH w3 (t + 2 * d + interval) Hr Hmr Hc3 Hs3)
      as (Hc & Hs' & Hn' & Hl & Hk); [| lia | lia |].
    { intros n Hrange. rewrite Hl3, Hl2, Hl1. apply Hcorr. lia. }
    cbn zeta in Hc, Hs', Hn', Hl, Hk.
    split; [exact Hc|]. split.
    + replace (t + (Z.of_nat m * (2 * d + interval) + (2 * d + interval)))
        with (t + 2 * d + interval + Z.of_nat m * (2 * d + interval)) by lia.
      exact Hs'.
    + split; [lia|]. split; [congruence | lia].
Qed.

Variable packetSize : Z.
Hypothesis Hsize : 0 <= packetSize <= 65498.

(** The run up to the [j]-th send of a new packet, nothing being lost before
    it. *)
Lemma first_rounds (errors : nat -> bool) (j : nat) :
  (forall n, (n < 2 * j)%nat -> errors n = false) ->
  Z.of_nat j <= maxPackets -> send_time d interval j < stop ->
  let w := steps (1 + 3 * j)
             (setup serverAddress maxPackets packetSize interval timeout stop d errors) in
  clean maxPackets interval timeout stop d 0 w
  /\ at_send (send_time d interval j) w
  /\ ReliableClient.m_nextSequence (client w) = Z.of_nat j
  /\ corrupted w = errors /\ carried w = (2 * j)%nat.
Proof.
  intros Herr Hj Ht. cbn zeta. unfold send_time in *.
  assert (Hpos : 0 <= Z.of_nat j * (2 * d + interval))
    by (apply Z.mul_nonneg_nonneg; lia).
  destruct (setup_clean packetSize errors Hsize) as (Hc0 & Hs0 & Hl0 & Hk0).
  destruct (fire_start 0 _ _ Hc0 Hs0)
    as (w1 & Hstep & Hc1 & Hs1 & Hn1 & Hl1 & Hk1).
  { unfold MilliSeconds in Ht. lia. }
  rewrite steps_add, (steps_step _ _ _ Hstep). cbn [steps].
  destruct (rounds 0 j w1 (Seconds 2 + MilliSeconds 100))
    as (Hc & Hs & Hn & Hl & Hk); try assumption; try lia.
  { intros n Hrange. rewrite Hl1, Hl0. apply Herr. lia. }
  { rewrite Hn1. cbn. lia. }
  cbn zeta in Hc, Hs, Hn, Hl, Hk.
  split; [exact Hc|]. split; [exact Hs|].
  split; [rewrite Hn, Hn1; cbn; lia|].
  split; [congruence | lia].
Qed.

Lemma run_ends :
  0 <= maxPackets ->
  send_time d interval (Z.to_nat maxPackets) < stop ->
  let w := steps (3 * Z.to_nat maxPackets + 2)
             (setup serverAddress maxPackets packetSize interval timeout stop d errorFree) in
  clean maxPackets interval timeout stop d 0 w /\ at_end w
  /\ ReliableClient.m_nextSequence (client w) = maxPackets.
Proof.
  intros Hpos Hstop. cbn zeta.
  destruct (first_rounds errorFree (Z.to_nat maxPackets))
    as (Hc & Hs & Hn & _); [reflexivity | lia | exact Hstop |].
  replace (3 * Z.to_nat maxPackets + 2)%nat
    with ((1 + 3 * Z.to_nat maxPackets) + 1)%nat by lia.
  rewrite steps_add.
  set (w := steps (1 + 3 * Z.to_nat maxPackets) _) in *.
  destruct (fire_send_closed 0 _ _ Hc Hs) as (w1 & Hstep & Hc1 & Hs1 & Hn1 & _).
  { exact Hstop. }
  { lia. }
  rewrite (steps_step _ _ _ Hstep). cbn [steps].
  split; [exact Hc1|]. split; [exact Hs1|]. rewrite Hn1, Hn. lia.
Qed.

(** *** One lost acknowledgment *)

Lemma lost_ack_stalls (j : nat) :
  Z.of_nat j < maxPackets -> send_time d interval j + d < stop ->
  let w := steps (3 * j + 3)
             (setup serverAddress maxPackets packetSize interval timeout stop d
                (loses (2 * j + 1))) in
  stalled w
  /\ ReliableClient.m_nextSequence (client w) = Z.of_nat j + 1
  /\ ReliableServer.m_expectedSequence (server w) = Z.of_nat j + 1.
Proof.
  intros Hj Ht. cbn zeta.
  destruct (first_rounds (loses (2 * j + 1)) j) as (Hc & Hs & Hn & Hl & Hk).
  { intros n Hn. unfold loses. apply Nat.eqb_neq. lia. }
  { lia. }
  { lia. }
  replace (3 * j + 3)%nat with ((1 + 3 * j) + 2)%nat by lia.
  rewrite steps_add.
  set (w := steps (1 + 3 * j) _) in *.
  destruct (fire_send_open 0 (send_time d interval j) w)
    as (w1 & Hstep1 & Hc1 & Hs1 & Hn1 & Hl1 & Hk1);
    try assumption; try lia.
  rewrite Hl, Hk in Hs1. unfold loses at 1 in Hs1.
  replace (2 * j =? 2 * j + 1)%nat with false in Hs1
    by (symmetry; apply Nat.eqb_neq; lia).
  destruct (fire_data 0 _ w1 Hmax Hc1 Hs1)
    as (w2 & Hstep2 & Hc2 & Hs2 & Hn2 & He2 & _); [lia|].
  rewrite Hl1, Hk1, Hl, Hk in Hs2. unfold loses at 1 in Hs2.
  replace (2 * j + 1 =? 2 * j + 1)%nat with true in Hs2
    by (symmetry; apply Nat.eqb_eq; lia).
  rewrite (steps_step _ _ _ Hstep1), (steps_step _ _ _ Hstep2). cbn [steps].
  split; [exact Hs2|]. split; [rewrite Hn2, Hn1, Hn; reflexivity|].
  rewrite He2, Hn1, Hn. reflexivity.
Qed.

(** *** One lost data segment *)

Lemma lost_data_recovers (j : nat) :
  Z.of_nat j < maxPackets -> maxPackets + 1 < 2 ^ 32 ->
  send_time d interval (Z.to_nat maxPackets) + timeout < stop ->
  let w := steps (3 * Z.to_nat maxPackets + 3)
             (setup serverAddress maxPackets packetSize interval timeout stop d
                (loses (2 * j))) in
  clean maxPackets interval timeout stop d 1 w /\ at_end w
  /\ ReliableClient.m_nextSequence (client w) = maxPackets.
Proof.
  intros Hj Hm1 Ht. cbn zeta. unfold send_time in Ht.
  set (c := 2 * d + interval) in *.
  assert (Hcdef : c = 2 * d + interval) by reflexivity.
  assert (Hc0 : 0 <= c) by lia.
  set (k := (Z.to_nat maxPackets - j - 1)%nat).
  assert (HM : Z.of_nat (Z.to_nat maxPackets) = Z.of_nat j + 1 + Z.of_nat k)
    by (unfold k; lia).
  assert (Hjc : 0 <= Z.of_nat j * c) by (apply Z.mul_nonneg_nonneg; lia).
  assert (Hkc : 0 <= Z.of_nat k * c) by (apply Z.mul_nonneg_nonneg; lia).
  rewrite HM in Ht. rewrite !Z.mul_add_distr_r, Z.mul_1_l in Ht.
  destruct (first_rounds (loses (2 * j)) j) as (Hc & Hs & Hn & Hl & Hk).
  { intros n Hn. unfold loses. apply Nat.eqb_neq. lia. }
  { lia. }
  { unfold send_time. fold c. lia. }
  unfold send_time in Hs. fold c in Hs.
  set (tj := Seconds 2 + MilliSeconds 100 + Z.of_nat j * c) in *.
  assert (Htj : tj = Seconds 2 + MilliSeconds 100 + Z.of_nat j * c)
    by reflexivity.
  replace (3 * Z.to_nat maxPackets + 3)%nat
    with ((1 + 3 * j) + (4 + (3 * k + 1)))%nat by (unfold k; lia).
  rewrite steps_add.
  set (w := steps (1 + 3 * j) _) in *.
  (* the data segment is lost *)
  destruct (fire_send_open 0 tj w)
    as (w1 & Hstep1 & Hc1 & Hs1 & Hn1 & Hl1 & Hk1);
    try assumption; try lia.
  rewrite Hl, Hk in Hs1. unfold loses at 1 in Hs1.
  rewrite Nat.eqb_refl in Hs1.
  (* its timer fires and it is sent again *)
  destruct (fire_timer 0 tj w1)
    as (w2 & Hstep2 & Hc2 & Hs2 & Hn2 & Hl2 & Hk2);
    try assumption; try lia.
  rewrite Hl1, Hk1, Hl, Hk in Hs2. unfold loses at 1 in Hs2.
  replace (2 * j + 1 =? 2 * j)%nat with false in Hs2
    by (symmetry; apply Nat.eqb_neq; lia).
  change (0 + 1) with 1 in Hc2.
  destruct (fire_data 1 _ w2 Hmax Hc2 Hs2)
    as (w3 & Hstep3 & Hc3 & Hs3 & Hn3 & _ & Hl3 & Hk3); [lia|].
  rewrite Hl2, Hk2, Hl1, Hk1, Hl, Hk in Hs3. unfold loses at 1 in Hs3.
  replace (2 * j + 1 + 1 =? 2 * j)%nat with false in Hs3
    by (symmetry; apply Nat.eqb_neq; lia).
  destruct (fire_ack 1 _ w3 Hmax Hc3 Hs3)
    as (w4 & Hstep4 & Hc4 & Hs4 & Hn4 & Hl4 & Hk4); [lia|].
  replace (4 + (3 * k + 1))%nat with (S (S (S (S (3 * k + 1))))) by lia.
  rewrite (steps_step _ _ _ Hstep1), (steps_step _ _ _ Hstep2),
    (steps_step _ _ _ Hstep3), (steps_step _ _ _ Hstep4).
  rewrite steps_add.
  (* the remaining rounds *)
  destruct (rounds 1 k w4 (tj + timeout + 2 * d + interval))
    as (Hc5 & Hs5 & Hn5 & _); try assumption; try lia.
  { intros n Hrange. rewrite Hl4, Hl3, Hl2, Hl1, Hl. unfold loses.
    apply Nat.eqb_neq. lia. }
  cbn zeta in Hc5, Hs5, Hn5.
  set (w5 := steps (3 * k) w4) in *.
  destruct (fire_send_closed 1 _ w5 Hc5 Hs5) as (w6 & Hstep6 & Hc6 & Hs6 & Hn6 & _).
  { fold c. lia. }
  { lia. }
  rewrite (steps_step _ _ _ Hstep6). cbn [steps].
  split; [exact Hc6|]. split; [exact Hs6|]. lia.
Qed.
End CleanRun.

Lemma setup_on_course (maxPackets packetSize interval timeout stop d : Z)
      (errors : nat -> bool) :
  0 <= packetSize <= 65498 ->
  Transfer.on_course
    (Scenario.setup Scenario.serverAddress maxPackets packetSize interval
       timeout stop d errors).
Proof.
  intros Hsize.
  destruct (setup_clean maxPackets interval timeout stop d packetSize errors
              Hsize) as (_ & Hs & _).
  right. eexists. left. exact Hs.
Qed.

(** X20. The client given the address of the server's socket, over a link
    that discards nothing and whose round trip is shorter than the timeout,
    for any number of packets, interval and stop time, and any packet size
    that fits a UDP datagram: no timeout ever fires a retransmission, every
    packet sent is a new one, the acknowledgments received are those of all
    packets but the awaited one, and when no event is left every one of the
    [maxPackets] packets has been accepted by the server and acknowledged. *)
Theorem error_free_link_needs_no_retransmission
        (maxPackets packetSize interval timeout simulationTime d : Z)
        (w : Scenario.World) :
  0 <= packetSize <= 65498 ->
  maxPackets < 2 ^ 32 -> 0 <= d -> 2 * d < timeout ->
  Transfer.reaches
    (Scenario.setup Scenario.serverAddress maxPackets packetSize interval
       timeout simulationTime d Scenario.errorFree) w ->
  ReliableClient.m_retransmissions (Scenario.client w) = 0
  /\ ReliableClient.m_totalPacketsSent (Scenario.client w)
     = ReliableClient.m_nextSequence (Scenario.client w)
  /\ Scenario.acksReceived w
     = ReliableClient.m_nextSequence (Scenario.client w)
       - Z.of_nat (Sender.awaited (Scenario.client w))
  /\ (Simulator.events (Scenario.sim w) = [] ->
      ReliableClient.m_nextSequence (Scenario.client w) = Z.max 0 maxPackets
      /\ ReliableClient.m_waitingForAck (Scenario.client w) = false
      /\ ReliableServer.m_totalPacketsReceived (Scenario.server w)
         = Z.max 0 maxPackets).
Proof.
  intros Hsize Hmax Hd Hrtt Hreach.
  destruct (setup_clean maxPackets interval timeout simulationTime d packetSize
              Scenario.errorFree Hsize) as (Hc0 & _ & Hl0 & _).
  destruct (reaches_on_course maxPackets interval timeout simulationTime d
              Hd Hrtt Hmax _ _ Hreach Hc0
              (setup_on_course _ _ _ _ _ _ _ Hsize))
    as (Hclean & Hcourse & _).
  { intros n. rewrite Hl0. reflexivity. }
  destruct Hclean as (_ & _ & HM & _ & _ & _ & _ & Hretx & Hsent & Hn & Hle
                      & Hrecv & Hacks).
  split; [exact Hretx|]. split; [lia|]. split; [exact Hacks|].
  intros Hq.
  destruct Hcourse as [([Hw Hexp] & _ & Hdone)
                      |(t & [Hs|[Hs|[Hs|Hs]]])].
  - rewrite HM in Hdone. split; [lia|]. split; [exact Hw|].
    rewrite Hrecv, Hexp. lia.
  - destruct Hs as [_ (id & Hq')]. congruence.
  - destruct Hs as [_ (id & Hq')]. congruence.
  - destruct Hs as (_ & _ & id1 & id2 & _ & Hq'). congruence.
  - destruct Hs as (_ & _ & id1 & id2 & _ & Hq'). congruence.
Qed.

Lemma error_free_link_needs_no_retransmission_witness :
  let w := Transfer.steps 20
             (Scenario.setup Scenario.serverAddress 10 4 (Seconds 1)
                (MilliSeconds 500) (Seconds 30) (MilliSeconds 2)
                Scenario.errorFree) in
  ReliableClient.m_retransmissions (Scenario.client w) = 0
  /\ ReliableClient.m_totalPacketsSent (Scenario.client w)
     = ReliableClient.m_nextSequence (Scenario.client w)
  /\ Scenario.acksReceived w
     = ReliableClient.m_nextSequence (Scenario.client w)
       - Z.of_nat (Sender.awaited (Scenario.client w))
  /\ (Simulator.events (Scenario.sim w) = [] ->
      ReliableClient.m_nextSequence (Scenario.client w) = Z.max 0 10
      /\ ReliableClient.m_waitingForAck (Scenario.client w) = false
      /\ ReliableServer.m_totalPacketsReceived (Scenario.server w)
         = Z.max 0 10).
Proof.
  intros w.
  apply (error_free_link_needs_no_retransmission 10 4 (Seconds 1)
           (MilliSeconds 500) (Seconds 30) (MilliSeconds 2) w);
    try (unfold MilliSeconds; lia).
  apply reaches_steps.
Defined.

(** X21. The transfer of a client given the address of the server's socket
    completes.  Over a link that discards nothing, with a round trip shorter
    than the timeout, a packet size that fits a UDP datagram and a stop
    time after the last send (2.1 s plus [maxPackets] rounds of round trip
    and interval), [Simulator::Run] ends after [3 * maxPackets + 2] events
    with nothing pending: exactly [maxPackets] packets were sent, none
    twice, each was accepted by the server and each acknowledgment
    arrived. *)
Theorem error_free_transfer_completes
        (maxPackets packetSize interval timeout simulationTime d : Z)
        (fuel : nat) :
  0 <= packetSize <= 65498 ->
  0 <= maxPackets < 2 ^ 32 -> 0 <= d -> 2 * d < timeout -> 0 <= interval ->
  Seconds 2 + MilliSeconds 100 + maxPackets * (2 * d + interval) < simulationTime ->
  (3 * Z.to_nat maxPackets + 2 <= fuel)%nat ->
  exists w,
    Scenario.Run fuel
      (Scenario.setup Scenario.serverAddress maxPackets packetSize interval
         timeout simulationTime d Scenario.errorFree) = Some (Done w)
    /\ Simulator.events (Scenario.sim w) = []
    /\ ReliableClient.m_nextSequence (Scenario.client w) = maxPackets
    /\ ReliableClient.m_totalPacketsSent (Scenario.client w) = maxPackets
    /\ ReliableClient.m_retransmissions (Scenario.client w) = 0
    /\ Scenario.acksReceived w = maxPackets
    /\ ReliableServer.m_totalPacketsReceived (Scenario.server w) = maxPackets.
Proof.
  intros Hsize [Hpos Hmax] Hd Hrtt Hint Hstop Hfuel.
  destruct (run_ends maxPackets interval timeout simulationTime d Hd Hrtt Hmax
              Hint packetSize Hsize Hpos)
    as (Hclean & ([Hw Hexp] & Hq & _) & Hn).
  { unfold Transfer.send_time. rewrite Z2Nat.id by lia. exact Hstop. }
  eexists. split.
  - apply Run_steps; [|exact Hfuel]. unfold Scenario.step. rewrite Hq. reflexivity.
  - destruct Hclean as (_ & _ & _ & _ & _ & _ & _ & Hretx & Hsent & _ & _
                        & Hrecv & Hacks).
    unfold Sender.awaited in Hacks. rewrite Hw in Hacks.
    split; [exact Hq|]. split; [exact Hn|]. split; [lia|].
    split; [exact Hretx|]. split; [rewrite Hacks, Hn; cbn; lia|].
    rewrite Hrecv, Hexp. exact Hn.
Qed.

Lemma error_free_transfer_completes_witness :
  exists w,
    Scenario.Run 77
      (Scenario.setup Scenario.serverAddress 25 4 (MilliSeconds 200)
         (MilliSeconds 50) (Seconds 20) (MilliSeconds 10) Scenario.errorFree)
    = Some (Done w)
    /\ Simulator.events (Scenario.sim w) = []
    /\ ReliableClient.m_nextSequence (Scenario.client w) = 25
    /\ ReliableClient.m_totalPacketsSent (Scenario.client w) = 25
    /\ ReliableClient.m_retransmissions (Scenario.client w) = 0
    /\ Scenario.acksReceived w = 25
    /\ ReliableServer.m_totalPacketsReceived (Scenario.server w) = 25.
Proof.
  apply (error_free_transfer_completes 25 4 (MilliSeconds 200) (MilliSeconds 50)
           (Seconds 20) (MilliSeconds 10) 77);
    unfold MilliSeconds, Seconds; simpl; lia.
Defined.

(** X24. One lost data segment costs one retransmission and nothing else.
    For a client given the address of the server's socket, over a link that
    discards only the [j]-th data segment, with a round trip shorter than
    the timeout and a stop time after the last send (one timeout later than
    without loss), [Simulator::Run] ends after [3 * maxPackets + 3] events
    with nothing pending: [maxPackets + 1] packets were sent, one of them a
    retransmission, and every one of the [maxPackets] packets was accepted
    by the server and acknowledged. *)
Theorem one_lost_segment_costs_one_retransmission
        (maxPackets packetSize interval timeout simulationTime d : Z)
        (j fuel : nat) :
  0 <= packetSize <= 65498 ->
  Z.of_nat j < maxPackets -> maxPackets + 1 < 2 ^ 32 ->
  0 <= d -> 2 * d < timeout -> 0 <= interval ->
  Seconds 2 + MilliSeconds 100 + maxPackets * (2 * d + interval) + timeout
  < simulationTime ->
  (3 * Z.to_nat maxPackets + 3 <= fuel)%nat ->
  exists w,
    Scenario.Run fuel
      (Scenario.setup Scenario.serverAddress maxPackets packetSize interval
         timeout simulationTime d (Transfer.loses (2 * j))) = Some (Done w)
    /\ Simulator.events (Scenario.sim w) = []
    /\ ReliableClient.m_nextSequence (Scenario.client w) = maxPackets
    /\ ReliableClient.m_totalPacketsSent (Scenario.client w) = maxPackets + 1
    /\ ReliableClient.m_retransmissions (Scenario.client w) = 1
    /\ Scenario.acksReceived w = maxPackets
    /\ ReliableServer.m_totalPacketsReceived (Scenario.server w) = maxPackets.
Proof.
  intros Hsize Hj Hmax Hd Hrtt Hint Hstop Hfuel.
  assert (Hmax' : maxPackets < 2 ^ 32) by lia.
  destruct (lost_data_recovers maxPackets interval timeout simulationTime d
              Hd Hrtt Hmax' Hint packetSize Hsize j Hj Hmax)
    as (Hclean & ([Hw Hexp] & Hq & _) & Hn).
  { unfold Transfer.send_time. rewrite Z2Nat.id by lia. exact Hstop. }
  eexists. split.
  - apply Run_steps; [|exact Hfuel]. unfold Scenario.step. rewrite Hq. reflexivity.
  - destruct Hclean as (_ & _ & _ & _ & _ & _ & _ & Hretx & Hsent & _ & _
                        & Hrecv & Hacks).
    unfold Sender.awaited in Hacks. rewrite Hw in Hacks.
    split; [exact Hq|]. split; [exact Hn|]. split; [lia|].
    split; [exact Hretx|]. split; [rewrite Hacks, Hn; cbn; lia|].
    rewrite Hrecv, Hexp. exact Hn.
Qed.

Lemma one_lost_segment_costs_one_retransmission_witness :
  exists w,
    Scenario.Run 40
      (Scenario.setup Scenario.serverAddress 10 4 (Seconds 1)
         (MilliSeconds 500) (Seconds 30) (MilliSeconds 2)
         (Transfer.loses (2 * 3))) = Some (Done w)
    /\ Simulator.events (Scenario.sim w) = []
    /\ ReliableClient.m_nextSequence (Scenario.client w) = 10
    /\ ReliableClient.m_totalPacketsSent (Scenario.client w) = 10 + 1
    /\ ReliableClient.m_retransmissions (Scenario.client w) = 1
    /\ Scenario.acksReceived w = 10
    /\ ReliableServer.m_totalPacketsReceived (Scenario.server w) = 10.
Proof.
  apply (one_lost_segment_costs_one_retransmission 10 4 (Seconds 1)
           (MilliSeconds 500) (Seconds 30) (MilliSeconds 2) 3 40);
    unfold MilliSeconds, Seconds; simpl; lia.
Defined.

(** X25. One lost acknowledgment ends the transfer.  For a client given the
    address of the server's socket, over a link that discards only the
    acknowledgment of the [j]-th packet ([j < maxPackets], counted from 0),
    after [3 * j + 3] events and for ever after the client still awaits
    that acknowledgment: only [j + 1] sequence numbers were ever sent and
    the server has accepted [j + 1] packets, however many packets remain
    and however late the stop time. *)
Theorem one_lost_acknowledgment_ends_the_transfer
        (maxPackets packetSize interval timeout simulationTime d : Z)
        (j n : nat) :
  0 <= packetSize <= 65498 ->
  Z.of_nat j < maxPackets < 2 ^ 32 ->
  0 <= d -> 2 * d < timeout -> 0 <= interval ->
  Seconds 2 + MilliSeconds 100 + Z.of_nat j * (2 * d + interval) + d
  < simulationTime ->
  (3 * j + 3 <= n)%nat ->
  let w := Transfer.steps n
             (Scenario.setup Scenario.serverAddress maxPackets packetSize
                interval timeout simulationTime d
                (Transfer.loses (2 * j + 1))) in
  ReliableClient.m_waitingForAck (Scenario.client w) = true
  /\ ReliableClient.m_nextSequence (Scenario.client w) = Z.of_nat j + 1
  /\ ReliableServer.m_totalPacketsReceived (Scenario.server w) = Z.of_nat j + 1.
Proof.
  intros Hsize [Hj Hmax] Hd Hrtt Hint Hstop Hn. cbn zeta.
  destruct (lost_ack_stalls maxPackets interval timeout simulationTime d
              Hd Hrtt Hmax Hint packetSize Hsize j Hj Hstop)
    as (Hst & Hnext & Hexp).
  replace n with ((3 * j + 3) + (n - (3 * j + 3)))%nat by lia.
  rewrite steps_add.
  set (w0 := Transfer.steps (3 * j + 3) _) in *.
  destruct (reaches_setup_safe Scenario.serverAddress maxPackets packetSize
              interval timeout simulationTime d (Transfer.loses (2 * j + 1)) w0
              (or_intror eq_refl) Hmax (reaches_steps _ _)) as [Hsafe _].
  pose proof (reaches_steps (n - (3 * j + 3)) w0) as Hreach.
  pose proof (reaches_safe _ _ Hreach Hsafe) as Hsafe'.
  destruct (reaches_stalled _ _ Hreach Hsafe Hst) as (Hst' & Hn' & He').
  destruct Hsafe' as (_ & _ & _ & Hr' & _).
  split; [apply Hst'|]. split; [rewrite Hn'; exact Hnext|].
  rewrite Hr', He'. exact Hexp.
Qed.

Lemma one_lost_acknowledgment_ends_the_transfer_witness :
  let w := Transfer.steps 50
             (Scenario.setup Scenario.serverAddress 10 4 (Seconds 1)
                (MilliSeconds 500) (Seconds 30) (MilliSeconds 2)
                (Transfer.loses (2 * 3 + 1))) in
  ReliableClient.m_waitingForAck (Scenario.client w) = true
  /\ ReliableClient.m_nextSequence (Scenario.client w) = Z.of_nat 3 + 1
  /\ ReliableServer.m_totalPacketsReceived (Scenario.server w) = Z.of_nat 3 + 1.
Proof.
  apply (one_lost_acknowledgment_ends_the_transfer 10 4 (Seconds 1)
           (MilliSeconds 500) (Seconds 30) (MilliSeconds 2) 3 50);
    unfold MilliSeconds, Seconds; simpl; lia.
Defined.

(** ** The transfer as [main] starts it *)

Section MainRun.
Import Scenario Transfer.

Lemma carry_refused (from : Address) (ip : Z) (p : Packet) (w : World) :
  carry from [(Ipv4Address ip, p)] w = w.
Proof. reflexivity. Qed.

Lemma acksReceived_silent (w : World) : silent w -> acksReceived w = 0.
Proof.
  intros (_ & _ & _ & _ & Hh). unfold acksReceived.
  induction Hh as [|e h He _ IH]; [reflexivity|].
  cbn [filter]. destruct e; cbn [is_arrival is_ack_arrival] in *;
    first [discriminate | exact IH].
Qed.

Lemma dispatch_silent (x : Simulator.Scheduled Event) (w : World) :
  ReliableClient.m_peerAddress (client w) = Ipv4Address serverIp ->
  server w = ReliableServer.new -> carried w = 0%nat ->
  Forall (fun y => is_arrival (Simulator.impl y) = false)
         (x :: Simulator.events (sim w)) ->
  exists w', dispatch (Simulator.impl x) w = Done w'
             /\ ReliableClient.m_peerAddress (client w') = Ipv4Address serverIp
             /\ server w' = ReliableServer.new /\ carried w' = 0%nat
             /\ Forall (fun y => is_arrival (Simulator.impl y) = false)
                       (Simulator.events (sim w'))
             /\ history w' = history w.
Proof.
  intros Hpeer Hsv Hk Hq.
  inversion Hq as [|x' q' Hx Hrest]; subst x' q'. clear Hq.
  destruct (Simulator.impl x) as [| |seq|p from|p from] eqn:He;
    cbn [dispatch]; try discriminate.
  - cbn [ReliableClient.StartApplication Simulator.Schedule snd].
    eexists. split; [reflexivity|].
    cbn [with_client client server carried sim history Simulator.events].
    repeat (split; [assumption|]).
    split; [|reflexivity]. apply Forall_insert; [reflexivity | assumption].
  - unfold ReliableClient.SendPacket.
    destruct (ReliableClient.m_maxPackets (client w)
              <=? ReliableClient.m_nextSequence (client w)).
    + eexists. split; [reflexivity|].
      cbn [carry with_client client server carried sim history].
      repeat (split; [assumption|]). reflexivity.
    + cbn [Simulator.Schedule]. rewrite Hpeer, carry_refused.
      eexists. split; [reflexivity|].
      cbn [with_client client server carried sim history Simulator.events
           ReliableClient.m_peerAddress].
      split; [reflexivity|]. repeat (split; [assumption|]).
      split; [|reflexivity]. apply Forall_insert; [reflexivity | assumption].
  - unfold ReliableClient.TimeoutHandler.
    destruct (ReliableClient.m_waitingForAck (client w)
              && (seq =? ReliableClient.m_pendingAckSequence (client w))).
    + cbn [Simulator.Schedule]. rewrite Hpeer, carry_refused.
      eexists. split; [reflexivity|].
      cbn [with_client client server carried sim history Simulator.events
           ReliableClient.m_peerAddress].
      split; [reflexivity|]. repeat (split; [assumption|]).
      split; [|reflexivity]. apply Forall_insert; [reflexivity | assumption].
    + eexists. split; [reflexivity|].
      cbn [carry with_client client server carried sim history].
      repeat (split; [assumption|]). reflexivity.
Qed.

Lemma step_silent (w w' : World) :
  silent w -> step w = Some (Done w') -> silent w'.
Proof.
  intros (Hpeer & Hsv & Hk & Hq & Hh). unfold step.
  destruct (Simulator.events (sim w)) as [|x rest] eqn:Hev; [discriminate|].
  destruct (stopTime w <=? Simulator.ts x); [discriminate|].
  intros H. apply Some_eq in H.
  match type of H with
  | dispatch _ ?w0 = _ =>
      destruct (dispatch_silent x w0 Hpeer Hsv Hk Hq)
        as (w1 & Hd & Hpeer' & Hsv' & Hk' & Hq' & Hh')
  end.
  rewrite Hd in H.
  apply (f_equal (fun o => match o with Done y => y | _ => w' end)) in H.
  cbn in H. subst w1. unfold silent.
  repeat (split; [assumption|]).
  rewrite Hh'. cbn [history]. constructor; [|assumption].
  inversion Hq; assumption.
Qed.

Lemma main_silent (maxPackets packetSize interval timeout simulationTime delay : Z)
      (errors : nat -> bool) :
  silent (main maxPackets packetSize interval timeout simulationTime delay errors).
Proof.
  unfold silent. cbn.
  repeat (split; [reflexivity|]).
  split; repeat constructor.
Qed.

Lemma reaches_silent (w w' : World) : reaches w w' -> silent w -> silent w'.
Proof.
  induction 1 as [|w w1 w2 _ IH Hstep]; intros Hs; [assumption|].
  apply (step_silent w1 w2 (IH Hs) Hstep).
Qed.

(** X26. [main] as it is written transfers nothing, whatever the link does:
    the peer address it gives its client has no port, so the socket refuses
    every packet.  In every world of the simulation the link has carried no
    packet, the server is in its initial state, the client has received no
    acknowledgment, and it has not gone beyond its first sequence number. *)
Theorem main_transfers_nothing
        (maxPackets packetSize interval timeout simulationTime delay : Z)
        (errors : nat -> bool) (w : World) :
  maxPackets < 2 ^ 32 ->
  reaches (main maxPackets packetSize interval timeout simulationTime delay
             errors) w ->
  carried w = 0%nat
  /\ server w = ReliableServer.new
  /\ acksReceived w = 0
  /\ 0 <= ReliableClient.m_nextSequence (client w) <= 1
  /\ (ReliableClient.m_nextSequence (client w) = 1 ->
      ReliableClient.m_waitingForAck (client w) = true
      /\ ReliableClient.m_pendingAckSequence (client w) = 0).
Proof.
  intros Hmax Hreach.
  pose proof (reaches_silent _ _ Hreach (main_silent _ _ _ _ _ _ _)) as Hs.
  destruct (reaches_setup_safe (Ipv4Address serverIp) maxPackets packetSize
              interval timeout simulationTime delay errors w
              (or_introl eq_refl) Hmax Hreach)
    as [(_ & Hn & _ & _ & _ & Hrel & _) _].
  split; [apply Hs|]. split; [apply Hs|].
  split; [apply acksReceived_silent; exact Hs|].
  destruct Hs as (_ & Hsv & _). rewrite Hsv in Hrel.
  cbn [ReliableServer.m_expectedSequence ReliableServer.new] in Hrel.
  destruct (ReliableClient.m_waitingForAck (client w)).
  - split; [lia|]. intros _. split; [reflexivity | lia].
  - split; [lia|]. intros H1. lia.
Qed.

Lemma main_transfers_nothing_witness :
  let w := steps 30
             (main 10 1024 (Seconds 1) (MilliSeconds 500) (Seconds 30)
                (MilliSeconds 2) errorFree) in
  carried w = 0%nat
  /\ server w = ReliableServer.new
  /\ acksReceived w = 0
  /\ 0 <= ReliableClient.m_nextSequence (client w) <= 1
  /\ (ReliableClient.m_nextSequence (client w) = 1 ->
      ReliableClient.m_waitingForAck (client w) = true
      /\ ReliableClient.m_pendingAckSequence (client w) = 0).
Proof.
  intros w.
  apply (main_transfers_nothing 10 1024 (Seconds 1) (MilliSeconds 500)
           (Seconds 30) (MilliSeconds 2) errorFree w); [lia|].
  apply reaches_steps.
Defined.

Variables maxPackets packetSize interval timeout stop d : Z.
Variable errors : nat -> bool.
Hypothesis Hpackets : 0 < maxPackets.
Hypothesis Htimeout : 0 < timeout.

Lemma main_first_send :
  Seconds 2 + MilliSeconds 100 < stop ->
  retrying timeout stop 0
    (steps 2 (main maxPackets packetSize interval timeout stop d errors)).
Proof.
  intros Hstop. unfold retrying.
  cbn [steps]. unfold main, setup, step.
  cbn [sim Simulator.events Simulator.Schedule Simulator.empty snd
       Simulator.insert Simulator.ts stopTime Simulator.Now Simulator.next_uid
       Simulator.impl client server linkDelay corrupted carried history].
  unfold MilliSeconds, Seconds in *.
  replace (stop <=? 0 + 2 * 1000000000) with false
    by (symmetry; apply Z.leb_gt; lia).
  cbn [dispatch ReliableClient.StartApplication Simulator.Schedule snd
       with_client sim Simulator.events Simulator.insert Simulator.ts stopTime
       Simulator.Now Simulator.next_uid Simulator.impl client server linkDelay
       corrupted carried history].
  unfold MilliSeconds.
  replace (stop <=? 0 + 2 * 1000000000 + 100 * 1000000) with false
    by (symmetry; apply Z.leb_gt; lia).
  cbn [dispatch]. unfold ReliableClient.SendPacket, ReliableClient.new.
  cbn [ReliableClient.m_maxPackets ReliableClient.m_nextSequence].
  replace (maxPackets <=? 0) with false by (symmetry; apply Z.leb_gt; lia).
  cbn [Simulator.Schedule ReliableClient.m_peerAddress]. rewrite carry_refused.
  unfold silent.
  cbn [with_client client server sim stopTime carried history Simulator.events
       Simulator.insert Simulator.Now
       ReliableClient.m_peerAddress ReliableClient.m_timeout
       ReliableClient.m_nextSequence ReliableClient.m_waitingForAck
       ReliableClient.m_pendingAckSequence ReliableClient.m_retransmissions
       ReliableClient.m_totalPacketsSent].
  refine (conj _ (conj _ (conj _ (conj _ (conj _ (conj _ (conj _ (conj _ _))))))));
    try reflexivity.
  - repeat (split; [reflexivity|]). split; repeat constructor.
  - eexists. f_equal. f_equal. lia.
Qed.

Lemma step_retrying (k : Z) (w : World) :
  0 <= k -> k + 2 < 2 ^ 32 ->
  retrying timeout stop k w ->
  Seconds 2 + MilliSeconds 100 + (k + 1) * timeout < stop ->
  exists w', step w = Some (Done w') /\ retrying timeout stop (k + 1) w'.
Proof.
  intros Hk Hbound (Hs & Hstop & HT & Hnext & Hw & Hp & Hretx & Hsent & id & Hq)
         Htime.
  pose proof Hs as (Hpeer & Hsv & Hcar & Hev & Hh).
  change (2 ^ 32) with 4294967296 in Hbound.
  unfold step. rewrite Hq. cbn [Simulator.ts Simulator.impl]. rewrite Hstop.
  replace (stop <=? Seconds 2 + MilliSeconds 100 + (k + 1) * timeout) with false
    by (symmetry; apply Z.leb_gt; lia).
  cbn [dispatch]. unfold ReliableClient.TimeoutHandler.
  cbn [client sim]. rewrite Hw, Hp. cbn [andb Z.eqb Simulator.Schedule].
  rewrite Hpeer, carry_refused.
  eexists. split; [reflexivity|].
  unfold retrying, silent.
  cbn [with_client client server sim stopTime carried history Simulator.events
       Simulator.insert Simulator.Now Simulator.next_uid
       ReliableClient.m_peerAddress ReliableClient.m_timeout
       ReliableClient.m_nextSequence ReliableClient.m_waitingForAck
       ReliableClient.m_pendingAckSequence ReliableClient.m_retransmissions
       ReliableClient.m_totalPacketsSent].
  rewrite Hretx, Hsent, HT.
  rewrite !wrap32_small by (change (2 ^ 32) with 4294967296; lia).
  refine (conj _ (conj _ (conj _ (conj _ (conj _ (conj _ (conj _ (conj _ _))))))));
    try assumption; try reflexivity.
  - repeat (split; [first [reflexivity | assumption]|]).
    split; [repeat constructor|]. constructor; [reflexivity | assumption].
  - eexists. f_equal. f_equal. lia.
Qed.

Lemma main_retries (n : nat) :
  Z.of_nat n + 1 < 2 ^ 32 ->
  Seconds 2 + MilliSeconds 100 + Z.of_nat n * timeout < stop ->
  retrying timeout stop (Z.of_nat n)
    (steps (2 + n) (main maxPackets packetSize interval timeout stop d errors)).
Proof.
  induction n as [|n IH]; intros Hbound Hstop.
  - apply main_first_send. change (Z.of_nat 0) with 0 in Hstop. lia.
  - replace (2 + S n)%nat with ((2 + n) + 1)%nat by lia.
    rewrite steps_add.
    replace (Z.of_nat (S n)) with (Z.of_nat n + 1) in * by lia.
    assert (Hn : 0 <= Z.of_nat n * timeout) by (apply Z.mul_nonneg_nonneg; lia).
    destruct (step_retrying (Z.of_nat n)
                (steps (2 + n)
                   (main maxPackets packetSize interval timeout stop d errors)))
      as (w' & Hstep & Hr); [lia | lia | apply IH; lia | exact Hstop |].
    cbn [steps]. rewrite Hstep. exact Hr.
Qed.
End MainRun.

(** X27. The run of [main] as it is written, for any packet size, interval,
    link delay and error pattern: the client sends its first packet at
    2.1 s and retransmits it at every timeout until the simulation stops.
    With [n] timeouts before the stop time, [Simulator::Run] ends after
    [n + 2] events with [n] retransmissions counted, [n + 1] packets counted
    as sent, no acknowledgment received and nothing received by the
    server. *)
Theorem main_retransmits_until_the_stop
        (maxPackets packetSize interval timeout simulationTime delay : Z)
        (errors : nat -> bool) (n fuel : nat) :
  0 < maxPackets -> 0 < timeout -> Z.of_nat n + 1 < 2 ^ 32 ->
  Seconds 2 + MilliSeconds 100 + Z.of_nat n * timeout < simulationTime ->
  simulationTime <= Seconds 2 + MilliSeconds 100 + (Z.of_nat n + 1) * timeout ->
  (n + 2 <= fuel)%nat ->
  exists w,
    Scenario.Run fuel
      (Scenario.main maxPackets packetSize interval timeout simulationTime
         delay errors) = Some (Done w)
    /\ ReliableClient.m_nextSequence (Scenario.client w) = 1
    /\ ReliableClient.m_retransmissions (Scenario.client w) = Z.of_nat n
    /\ ReliableClient.m_totalPacketsSent (Scenario.client w) = Z.of_nat n + 1
    /\ Scenario.acksReceived w = 0
    /\ Scenario.server w = ReliableServer.new.
Proof.
  intros Hpackets Htimeout Hbound Hlast Hstop Hfuel.
  pose proof (main_retries maxPackets packetSize interval timeout simulationTime
                delay errors Hpackets Htimeout n Hbound Hlast)
    as (Hs & Hst & HT & Hnext & Hw & Hp & Hretx & Hsent & id & Hq).
  eexists. split.
  - replace (n + 2)%nat with (2 + n)%nat in Hfuel by lia.
    apply (Run_steps (2 + n)); [|exact Hfuel].
    unfold Scenario.step. rewrite Hq. cbn [Simulator.ts]. rewrite Hst.
    replace (simulationTime
             <=? Seconds 2 + MilliSeconds 100 + (Z.of_nat n + 1) * timeout)
      with true by (symmetry; apply Z.leb_le; lia).
    reflexivity.
  - split; [exact Hnext|]. split; [exact Hretx|]. split; [exact Hsent|].
    split; [apply acksReceived_silent; exact Hs | apply Hs].
Qed.

Lemma main_retransmits_until_the_stop_witness :
  exists w,
    Scenario.Run 57
      (Scenario.main 10 1024 (Seconds 1) (MilliSeconds 500) (Seconds 30)
         (MilliSeconds 2) Scenario.errorFree) = Some (Done w)
    /\ ReliableClient.m_nextSequence (Scenario.client w) = 1
    /\ ReliableClient.m_retransmissions (Scenario.client w) = Z.of_nat 55
    /\ ReliableClient.m_totalPacketsSent (Scenario.client w) = Z.of_nat 55 + 1
    /\ Scenario.acksReceived w = 0
    /\ Scenario.server w = ReliableServer.new.
Proof.
  apply (main_retransmits_until_the_stop 10 1024 (Seconds 1) (MilliSeconds 500)
           (Seconds 30) (MilliSeconds 2) Scenario.errorFree 55 57);
    unfold MilliSeconds, Seconds; simpl; lia.
Defined.

(** ** The debugging application *)

Section DebugApp.
Import MyDebugApp.

Lemma fire_ticked (t0 : Z) (n : nat) (st : State) :
  (n < 5)%nat -> ticked t0 n st -> ticked t0 (S n) (fire st).
Proof.
  intros Hn (Hcount & Hlog & Hq & Huid).
  replace (n <? 5)%nat with true in Hq by (symmetry; apply Nat.ltb_lt; lia).
  unfold fire. rewrite Hq. unfold PrintTime, ScheduleNext.
  rewrite Hcount.
  rewrite wrap32_small by (change (2 ^ 32) with 4294967296; lia).
  cbn [m_count Simulator.ts Simulator.Now].
  unfold ticked.
  assert (Hnext : Z.of_nat n + 1 = Z.of_nat (S n)) by lia.
  rewrite Hnext.
  destruct (Nat.ltb_spec (S n) 5) as [Hlt|Hge].
  - replace (Z.of_nat (S n) <? 5) with true by (symmetry; apply Z.ltb_lt; lia).
    cbn [Simulator.Schedule snd Simulator.insert app sim log
         Simulator.events Simulator.next_uid Simulator.Now m_count].
    split; [reflexivity|]. split.
    + rewrite Hlog, seq_S, flat_map_app. cbn [flat_map app Nat.add].
      rewrite app_nil_r. rewrite <- app_comm_cons. f_equal. f_equal.
      unfold lines_of. f_equal.
      do 4 (destruct n as [|n]; [reflexivity|]). lia.
    + rewrite Huid. split; [|lia]. f_equal. f_equal; lia.
  - replace (Z.of_nat (S n) <? 5) with false by (symmetry; apply Z.ltb_ge; lia).
    cbn [app sim log Simulator.events Simulator.next_uid m_count].
    split; [reflexivity|]. split.
    + rewrite Hlog, seq_S, flat_map_app. cbn [flat_map app Nat.add].
      rewrite app_nil_r. rewrite <- app_comm_cons. f_equal. f_equal.
      unfold lines_of. f_equal.
      do 5 (destruct n as [|n]; [reflexivity|]). lia.
    + split; [reflexivity | lia].
Qed.

Lemma run_ticked (t0 : Z) (n : nat) :
  ticked t0 (Nat.min n 5) (run n (start t0)).
Proof.
  induction n as [|n IH].
  - unfold ticked. cbn. repeat split; reflexivity.
  - unfold run in *. rewrite Nat.iter_succ.
    destruct (Nat.lt_ge_cases n 5) as [Hlt|Hge].
    + replace (Nat.min (S n) 5) with (S n) by lia.
      replace (Nat.min n 5) with n in IH by lia.
      apply fire_ticked; assumption.
    + replace (Nat.min (S n) 5) with 5%nat by lia.
      replace (Nat.min n 5) with 5%nat in IH by lia.
      destruct IH as (Hcount & Hlog & Hq & Huid).
      generalize dependent (Nat.iter n fire (start t0)).
      intros st Hcount Hlog Hq Huid.
      change (5 <? 5)%nat with false in Hq.
      unfold fire. rewrite Hq.
      unfold ticked. change (5 <? 5)%nat with false.
      repeat (split; [assumption|]). assumption.
Qed.
End DebugApp.

(** X22. [MyDebugApp] started at time [t0]: it prints at [t0 + 1 s],
    [t0 + 2 s], ..., [t0 + 5 s] with the counts 1 to 5, warns once, right
    after the third print, and schedules nothing after the fifth, so the
    application falls silent by itself 5 s after its start. *)
Theorem debug_app_prints_five_times (t0 : Z) (n : nat) :
  let st := MyDebugApp.run n (MyDebugApp.start t0) in
  MyDebugApp.m_count (MyDebugApp.app st) = Z.of_nat (Nat.min n 5)
  /\ MyDebugApp.log st
     = MyDebugApp.LogStart t0
       :: flat_map (MyDebugApp.lines_of t0) (seq 0 (Nat.min n 5))
  /\ (Simulator.events (MyDebugApp.sim st) = [] <-> (5 <= n)%nat).
Proof.
  intros st.
  destruct (run_ticked t0 n) as (Hcount & Hlog & Hq & _). fold st in Hcount, Hlog, Hq.
  split; [exact Hcount|]. split; [exact Hlog|].
  rewrite Hq. destruct (Nat.ltb_spec (Nat.min n 5) 5) as [Hlt|Hge].
  - split; [discriminate | lia].
  - split; [lia | reflexivity].
Qed.

(** ** The statistics of the TCP/UDP comparison *)

Section Statistics.
Import String ProtocolStatistics.

Lemma find_set_same (k : string) (v : ProtocolStats) (m : Stats) :
  find k (set k v m) = Some v.
Proof.
  induction m as [|[k' v'] m IH]; cbn [set find].
  - rewrite String.eqb_refl. reflexivity.
  - destruct (String.eqb k k') eqn:E; cbn [find].
    + rewrite String.eqb_refl. reflexivity.
    + destruct (String.ltb k k'); cbn [find].
      * rewrite String.eqb_refl. reflexivity.
      * rewrite E. exact IH.
Qed.

Lemma find_set_other (k k2 : string) (v : ProtocolStats) (m : Stats) :
  k2 <> k -> find k2 (set k v m) = find k2 m.
Proof.
  intros Hne. apply String.eqb_neq in Hne.
  induction m as [|[k' v'] m IH]; cbn [set find].
  - rewrite Hne. reflexivity.
  - destruct (String.eqb k k') eqn:E; cbn [find].
    + apply String.eqb_eq in E. subst k'. rewrite Hne. reflexivity.
    + destruct (String.ltb k k'); cbn [find].
      * rewrite Hne. reflexivity.
      * rewrite IH. reflexivity.
Qed.

Lemma get_update_same (k : string) (f : ProtocolStats -> ProtocolStats) (m : Stats) :
  get k (update k f m) = f (get k m).
Proof. unfold update, get at 1. rewrite find_set_same. reflexivity. Qed.

Lemma get_update_other (k k2 : string) (f : ProtocolStats -> ProtocolStats)
      (m : Stats) :
  k2 <> k -> get k2 (update k f m) = get k2 m.
Proof.
  intros Hne. unfold update, get at 1. rewrite find_set_other by exact Hne.
  reflexivity.
Qed.

Lemma wrap64_add_l (a b : Z) : wrap64 (wrap64 a + b) = wrap64 (a + b).
Proof. unfold wrap64. apply Z.add_mod_idemp_l. lia. Qed.

Lemma wrap64_u64 (z : Z) : u64 (wrap64 z).
Proof. unfold u64, wrap64. apply Z.mod_pos_bound. lia. Qed.

Lemma wrap64_small (z : Z) : u64 z -> wrap64 z = z.
Proof. intros H. unfold wrap64. apply Z.mod_small. exact H. Qed.

Lemma HandleRead_one_books (protocol : string) (now packetSize : Z) (m : Stats) :
  let m' := HandleRead_one protocol now packetSize m in
  totalPacketsReceived (get protocol m')
  = wrap64 (totalPacketsReceived (get protocol m) + 1)
  /\ totalBytesReceived (get protocol m')
     = wrap64 (totalBytesReceived (get protocol m) + packetSize)
  /\ totalPacketsSent (get protocol m') = totalPacketsSent (get protocol m)
  /\ startTime (get protocol m') = startTime (get protocol m)
  /\ stopTime (get protocol m') = stopTime (get protocol m)
  /\ forall k, k <> protocol -> get k m' = get k m.
Proof.
  cbn zeta. unfold HandleRead_one.
  rewrite !get_update_same. cbn.
  repeat (split; [reflexivity|]).
  intros k Hk. rewrite !get_update_other by exact Hk. reflexivity.
Qed.

Lemma HandleRead_books (protocol : string) (now : Z) (socket : list Z) :
  forall m,
    u64 (totalPacketsReceived (get protocol m)) ->
    u64 (totalBytesReceived (get protocol m)) ->
    let m' := HandleRead protocol now socket m in
    totalPacketsReceived (get protocol m')
    = wrap64 (totalPacketsReceived (get protocol m) + Z.of_nat (List.length socket))
    /\ totalBytesReceived (get protocol m')
       = wrap64 (totalBytesReceived (get protocol m) + fold_right Z.add 0 socket)
    /\ totalPacketsSent (get protocol m') = totalPacketsSent (get protocol m)
    /\ startTime (get protocol m') = startTime (get protocol m)
    /\ stopTime (get protocol m') = stopTime (get protocol m)
    /\ forall k, k <> protocol -> get k m' = get k m.
Proof.
  induction socket as [|sz socket IH]; intros m Hp Hb; cbn zeta.
  - cbn. rewrite !Z.add_0_r, !wrap64_small by assumption.
    repeat (split; [reflexivity|]). reflexivity.
  - unfold HandleRead. cbn [fold_left].
    fold (HandleRead protocol now socket (HandleRead_one protocol now sz m)).
    destruct (HandleRead_one_books protocol now sz m)
      as (H1 & H2 & H3 & H4 & H5 & H6).
    cbn zeta in H1, H2, H3, H4, H5, H6.
    destruct (IH (HandleRead_one protocol now sz m))
      as (I1 & I2 & I3 & I4 & I5 & I6).
    { rewrite H1. apply wrap64_u64. }
    { rewrite H2. apply wrap64_u64. }
    cbn zeta in I1, I2, I3, I4, I5, I6.
    rewrite I1, I2, I3, I4, I5, H1, H2, H3, H4, H5.
    cbn [List.length fold_right]. rewrite !wrap64_add_l.
    split; [f_equal; lia|]. split; [f_equal; lia|].
    repeat (split; [reflexivity|]).
    intros k Hk. rewrite I6, H6 by exact Hk. reflexivity.
Qed.
End Statistics.

(** X23. [TcpStatsServer::HandleRead] and [UdpStatsServer::HandleRead] keep
    separate books in [protocolStats]: draining a socket adds the number of
    packets and the sum of their sizes to the entry of the server's own
    protocol (modulo 2^64), creating the entry when it is absent, leaves its
    start time alone and changes no other entry. *)
Theorem statistics_servers_keep_separate_books (protocol : String.string)
        (now : Z) (socket : list Z) (m : ProtocolStatistics.Stats) :
  ProtocolStatistics.u64
    (ProtocolStatistics.totalPacketsReceived (ProtocolStatistics.get protocol m)) ->
  ProtocolStatistics.u64
    (ProtocolStatistics.totalBytesReceived (ProtocolStatistics.get protocol m)) ->
  let m' := ProtocolStatistics.HandleRead protocol now socket m in
  ProtocolStatistics.totalPacketsReceived (ProtocolStatistics.get protocol m')
  = ProtocolStatistics.wrap64
      (ProtocolStatistics.totalPacketsReceived (ProtocolStatistics.get protocol m)
       + Z.of_nat (List.length socket))
  /\ ProtocolStatistics.totalBytesReceived (ProtocolStatistics.get protocol m')
     = ProtocolStatistics.wrap64
         (ProtocolStatistics.totalBytesReceived (ProtocolStatistics.get protocol m)
          + fold_right Z.add 0 socket)
  /\ ProtocolStatistics.startTime (ProtocolStatistics.get protocol m')
     = ProtocolStatistics.startTime (ProtocolStatistics.get protocol m)
  /\ forall k, k <> protocol ->
       ProtocolStatistics.get k m' = ProtocolStatistics.get k m.
Proof.
  intros Hp Hb m'.
  destruct (HandleRead_books protocol now socket m Hp Hb)
    as (H1 & H2 & _ & H4 & _ & H6).
  split; [exact H1|]. split; [exact H2|]. split; [exact H4 | exact H6].
Qed.

Lemma statistics_servers_keep_separate_books_witness :
  let m := ProtocolStatistics.reset in
  let m' := ProtocolStatistics.HandleRead ProtocolStatistics.TCP (Seconds 4) [1024; 512] m in
  ProtocolStatistics.totalPacketsReceived (ProtocolStatistics.get ProtocolStatistics.TCP m')
  = ProtocolStatistics.wrap64
      (ProtocolStatistics.totalPacketsReceived (ProtocolStatistics.get ProtocolStatistics.TCP m)
       + Z.of_nat (List.length [1024; 512]))
  /\ ProtocolStatistics.totalBytesReceived (ProtocolStatistics.get ProtocolStatistics.TCP m')
     = ProtocolStatistics.wrap64
         (ProtocolStatistics.totalBytesReceived (ProtocolStatistics.get ProtocolStatistics.TCP m)
          + fold_right Z.add 0 [1024; 512])
  /\ ProtocolStatistics.startTime (ProtocolStatistics.get ProtocolStatistics.TCP m')
     = ProtocolStatistics.startTime (ProtocolStatistics.get ProtocolStatistics.TCP m)
  /\ forall k, k <> ProtocolStatistics.TCP ->
       ProtocolStatistics.get k m' = ProtocolStatistics.get k m.
Proof.
  apply (statistics_servers_keep_separate_books ProtocolStatistics.TCP (Seconds 4) [1024; 512]
           ProtocolStatistics.reset);
    unfold ProtocolStatistics.u64; simpl; lia.
Defined.
